(** * chili3d converter: scene-graph extraction and the DXF codec

    A shallow embedding of [cpp/src/converter.cpp].

    - [std::string] and byte buffers are [string] (one [ascii] per byte).
    - [double] is the primitive binary64 type [float]; [int] and [size_t]
      values are [Z] and [nat], with the range check of [std::stoi] written
      out.
    - [std::map<int, std::string>] is [gmap Z string]; its iteration order
      (ascending keys) is recovered by sorting [map_to_list].
    - C++ exceptions are the [Throw] outcome of [result].
    - The geometry kernel (OpenCASCADE) and the C library's text/number
      conversions are not part of the repository: shapes built by the kernel
      are recorded as constructor terms, and the remaining kernel and library
      entry points are the fields of the class [Externals]. *)

From Stdlib Require Import ZArith String Ascii List PrimFloat SpecFloat FloatOps Uint63
  Decimal DecimalString Lia.
From stdpp Require Import base option list gmap strings sorting.

Set Warnings "-register-all".
Local Open Scope string_scope.
Local Open Scope Z_scope.

(** ** Outcomes of code that may raise *)

Inductive exn :=
  | invalid_argument   (* std::invalid_argument: no conversion performed *)
  | out_of_range.      (* std::out_of_range: converted value does not fit *)

Inductive result (A : Type) :=
  | Ok (a : A)
  | Throw (e : exn).
Arguments Ok {A} a.
Arguments Throw {A} e.

#[global] Instance result_ret : MRet result := fun A a => Ok a.
#[global] Instance result_bind : MBind result := fun A B f m =>
  match m with
  | Ok a => f a
  | Throw e => Throw e
  end.
#[global] Instance result_fmap : FMap result := fun A B f m =>
  match m with
  | Ok a => Ok (f a)
  | Throw e => Throw e
  end.

Definition is_Ok {A} (r : result A) : bool :=
  match r with Ok _ => true | Throw _ => false end.

(** Monadic map: the elements are processed left to right and the first
    exception ends the traversal, as a [for] loop whose body may throw. *)
Definition mapR {A B} (f : A -> result B) : list A -> result (list B) :=
  fix go (l : list A) : result (list B) :=
    match l with
    | [] => Ok []
    | x :: r =>
        match f x with
        | Throw e => Throw e
        | Ok y => match go r with
                  | Throw e => Throw e
                  | Ok ys => Ok (y :: ys)
                  end
        end
    end.

(** ** Text utilities *)

Module Text.

Definition LF : ascii := "010"%char.
Definition CR : ascii := "013"%char.
Definition TAB : ascii := "009"%char.
Definition VT : ascii := "011"%char.
Definition FF : ascii := "012"%char.
Definition SP : ascii := " "%char.

Definition nl : string := String LF "".

(** The characters of the literal [" \t\r\n"] used by the trimming code. *)
Definition is_trim_char (c : ascii) : bool :=
  (Ascii.eqb c SP || Ascii.eqb c TAB || Ascii.eqb c CR || Ascii.eqb c LF)%bool.

(** [std::isspace] in the "C" locale. *)
Definition isspace (c : ascii) : bool :=
  (is_trim_char c || Ascii.eqb c VT || Ascii.eqb c FF)%bool.

(** [std::isdigit]. *)
Definition isdigit (c : ascii) : bool :=
  let n := N_of_ascii c in ((48 <=? n) && (n <=? 57))%N%bool.

Definition digit_val (c : ascii) : Z := Z.of_N (N_of_ascii c) - 48.

(** [line.erase(0, line.find_first_not_of(" \t\r\n"))] *)
Fixpoint erase_leading (s : string) : string :=
  match s with
  | "" => ""
  | String c r => if is_trim_char c then erase_leading r else s
  end.

(** [line.erase(line.find_last_not_of(" \t\r\n") + 1)]: when no character
    is kept the index is [npos + 1 = 0] and the whole line is erased. *)
Fixpoint erase_trailing (s : string) : string :=
  match s with
  | "" => ""
  | String c r =>
      match erase_trailing r with
      | "" => if is_trim_char c then "" else String c ""
      | r' => String c r'
      end
  end.

Definition trim (s : string) : string := erase_trailing (erase_leading s).

(** The sequence of lines that successive [std::getline] calls read from a
    stream over [s]: a line ends at LF or at the end of the text, and
    [getline] fails once nothing is left. *)
Fixpoint getlines_from (cur : string) (s : string) : list string :=
  match s with
  | "" => match cur with "" => [] | _ => [String.rev cur] end
  | String c r =>
      if Ascii.eqb c LF then String.rev cur :: getlines_from "" r
      else getlines_from (String c cur) r
  end.

Definition getlines (s : string) : list string := getlines_from "" s.

Fixpoint skip_space (s : string) : string :=
  match s with
  | "" => ""
  | String c r => if isspace c then skip_space r else s
  end.

(** Leading decimal digits of [s] accumulated onto [acc]; the flag tells
    whether any digit was read. *)
Fixpoint read_digits (acc : Z) (seen : bool) (s : string) : Z * bool :=
  match s with
  | "" => (acc, seen)
  | String c r =>
      if isdigit c then read_digits (10 * acc + digit_val c) true r
      else (acc, seen)
  end.

Definition INT_MIN : Z := - 2 ^ 31.
Definition INT_MAX : Z := 2 ^ 31 - 1.

(** [std::stoi(s)] (base 10): [strtol] skips white space, takes an optional
    sign and the longest run of digits and ignores what follows; nothing
    converted raises [invalid_argument], a value outside [int] raises
    [out_of_range]. *)
Definition stoi (s : string) : result Z :=
  let s1 := skip_space s in
  let '(neg, s2) :=
    match s1 with
    | String "-" r => (true, r)
    | String "+" r => (false, r)
    | _ => (false, s1)
    end in
  match read_digits 0 false s2 with
  | (_, false) => Throw invalid_argument
  | (v, true) =>
      let v := if neg then - v else v in
      if ((INT_MIN <=? v) && (v <=? INT_MAX))%bool then Ok v
      else Throw out_of_range
  end.

(** [std::to_string] and [operator<<] on a [size_t]. *)
Definition to_string (n : nat) : string :=
  NilZero.string_of_uint (Nat.to_uint n).

End Text.

(** ** Kernel data *)

Definition double := float.

(** [M_PI] as the binary64 value the C library header defines. *)
Definition M_PI : double := 0x1.921fb54442d18p+1%float.

(** Conversion of an [int] to [double] (exact on the whole [int] range). *)
Definition double_of_int (z : Z) : double :=
  if z <? 0 then PrimFloat.opp (PrimFloat.of_uint63 (Uint63.of_Z (- z)))
  else PrimFloat.of_uint63 (Uint63.of_Z z).

Record gp_Pnt := mk_Pnt { Pnt_X : double; Pnt_Y : double; Pnt_Z : double }.
Record gp_Dir := mk_Dir { Dir_X : double; Dir_Y : double; Dir_Z : double }.
Record gp_Ax2 := mk_Ax2 { Ax2_Location : gp_Pnt; Ax2_Direction : gp_Dir }.

Inductive Geom_Curve :=
  | Geom_Line (location : gp_Pnt) (direction : gp_Dir)
  | Geom_Circle (position : gp_Ax2) (radius : double)
  | Geom_TrimmedCurve (basis : Geom_Curve) (u1 u2 : double)
  | Geom_OtherCurve (tag : nat).

Inductive TopAbs_ShapeEnum :=
  | TopAbs_COMPOUND | TopAbs_COMPSOLID | TopAbs_SOLID | TopAbs_SHELL
  | TopAbs_FACE | TopAbs_WIRE | TopAbs_EDGE | TopAbs_VERTEX | TopAbs_SHAPE.

(** A [TopoDS_Shape] is null, a shape that lives in the kernel (its type, an
    identity and its immediate components), or the record of one of the
    kernel constructions the converter performs. *)
Inductive TopoDS_Shape :=
  | TopoDS_Null
  | TShape (ty : TopAbs_ShapeEnum) (id : nat) (subs : list TopoDS_Shape)
  | MakeEdge_Pnts (p1 p2 : gp_Pnt)                   (* BRepBuilderAPI_MakeEdge(p1, p2) *)
  | MakeEdge_Curve (c : Geom_Curve) (u1 u2 : double) (* BRepBuilderAPI_MakeEdge(curve, u1, u2) *)
  | MakeWire (edges : list TopoDS_Shape)             (* BRepBuilderAPI_MakeWire, Add in order *)
  | MakePolygon (pts : list gp_Pnt) (closed : bool)  (* BRepBuilderAPI_MakePolygon(...).Wire() *)
  | MakeFace (wire : TopoDS_Shape)                   (* BRepBuilderAPI_MakeFace(wire) *)
  | MakeCompound (members : list TopoDS_Shape).      (* BRep_Builder: MakeCompound, Add in order *)

Definition IsNull (s : TopoDS_Shape) : bool :=
  match s with TopoDS_Null => true | _ => false end.

(** [shape.ShapeType()]; a null shape has no type. *)
Definition ShapeType (s : TopoDS_Shape) : option TopAbs_ShapeEnum :=
  match s with
  | TopoDS_Null => None
  | TShape ty _ _ => Some ty
  | MakeEdge_Pnts _ _ | MakeEdge_Curve _ _ _ => Some TopAbs_EDGE
  | MakeWire _ | MakePolygon _ _ => Some TopAbs_WIRE
  | MakeFace _ => Some TopAbs_FACE
  | MakeCompound _ => Some TopAbs_COMPOUND
  end.

Definition is_type (s : TopoDS_Shape) (t : TopAbs_ShapeEnum) : bool :=
  match ShapeType s, t with
  | Some TopAbs_COMPOUND, TopAbs_COMPOUND | Some TopAbs_COMPSOLID, TopAbs_COMPSOLID
  | Some TopAbs_SOLID, TopAbs_SOLID | Some TopAbs_SHELL, TopAbs_SHELL
  | Some TopAbs_FACE, TopAbs_FACE | Some TopAbs_WIRE, TopAbs_WIRE
  | Some TopAbs_EDGE, TopAbs_EDGE | Some TopAbs_VERTEX, TopAbs_VERTEX
  | Some TopAbs_SHAPE, TopAbs_SHAPE => true
  | _, _ => false
  end.

(** [ty == TopAbs_COMPOUND || ty == TopAbs_COMPSOLID] *)
Definition is_aggregate (ty : TopAbs_ShapeEnum) : bool :=
  match ty with
  | TopAbs_COMPOUND | TopAbs_COMPSOLID => true
  | _ => false
  end.

Record Quantity_Color := mk_Color { Red : double; Green : double; Blue : double }.

Inductive XCAFDoc_ColorType := XCAFDoc_ColorGen | XCAFDoc_ColorSurf | XCAFDoc_ColorCurv.

(** A label of the document tree with its child labels in iteration order. *)
Inductive TDF_Label :=
  | Label (tag : nat) (children : list TDF_Label).

Definition ChildIterator (l : TDF_Label) : list TDF_Label :=
  match l with Label _ cs => cs end.

Definition HasChild (l : TDF_Label) : bool :=
  match ChildIterator l with [] => false | _ => true end.

(** The queries of [XCAFDoc_ShapeTool] (and of the labels' name attribute)
    that the converter uses. [GetReferredShape l = Some r] stands for
    [IsReference(l)] with referred label [r]. *)
Record XCAFDoc_ShapeTool := {
  FindName : TDF_Label -> option string;            (* TDataStd_Name attribute, as UTF-8 *)
  GetReferredShape : TDF_Label -> option TDF_Label;
  Search : TopoDS_Shape -> option TDF_Label;
  GetShape : TDF_Label -> option TopoDS_Shape;      (* [None]: the label has no shape *)
  IsFree : TDF_Label -> bool;
  IsSubShape : TDF_Label -> bool;
  RootLabel : TDF_Label                             (* shapeTool->Label() *)
}.

Record XCAFDoc_ColorTool := {
  GetColor : TDF_Label -> XCAFDoc_ColorType -> option Quantity_Color
}.

Record TDocStd_Document := {
  ShapeTool : XCAFDoc_ShapeTool;
  ColorTool : XCAFDoc_ColorTool
}.

(** ** External collaborators

    Entry points of the C library and of the geometry kernel whose code is
    not in the repository. *)
Class Externals := {
  (* std::stod: the converted value, or the exception it raises *)
  stod : string -> result double;
  (* operator<<(std::ostream&, double) with the stream's default format *)
  put_double : double -> string;
  (* Quantity_Color::ColorToHex *)
  ColorToHex : Quantity_Color -> string;
  (* TopExp_Explorer(shape, TopAbs_EDGE): the edges it visits, in order *)
  TopExp_Explorer_EDGE : TopoDS_Shape -> list TopoDS_Shape;
  (* BRepTools_WireExplorer(wire): the edges it visits, in order *)
  BRepTools_WireExplorer : TopoDS_Shape -> list TopoDS_Shape;
  (* BRep_Tool::Curve(edge, first, last); [None] is a null handle *)
  BRep_Tool_Curve : TopoDS_Shape -> option (Geom_Curve * double * double);
  (* Geom_Curve::Value *)
  Curve_Value : Geom_Curve -> double -> gp_Pnt;
  (* IGESCAFControl_Reader::ReadFile on the content of the named file
     ([None]: no such file); [true] is IFSelect_RetDone *)
  IGES_ReadFile : option string -> bool;
  (* IGESCAFControl_Reader::Transfer after a successful ReadFile *)
  IGES_Transfer : option string -> option TDocStd_Document;
  (* StlAPI_Reader::Read on the content of the named file *)
  Stl_Read : option string -> option TopoDS_Shape
}.

(** ** Scene tree *)

Inductive ShapeNode := mk_ShapeNode {
  shape : option TopoDS_Shape;
  color : option string;
  children : list ShapeNode;
  name : string
}.

(** ** Interchange records *)

Record DxfEntity := mk_DxfEntity {
  type : string;
  groupCodes : gmap Z string;
  layer : string;
  entity_color : string
}.

(** The constructor [DxfEntity(entityType)]. *)
Definition new_DxfEntity (entityType : string) : DxfEntity :=
  {| type := entityType; groupCodes := ∅; layer := ""; entity_color := "" |}.

Definition set_layer (e : DxfEntity) (l : string) : DxfEntity :=
  {| type := type e; groupCodes := groupCodes e; layer := l;
     entity_color := entity_color e |}.

Definition set_color (e : DxfEntity) (c : string) : DxfEntity :=
  {| type := type e; groupCodes := groupCodes e; layer := layer e;
     entity_color := c |}.

Definition set_code (e : DxfEntity) (k : Z) (v : string) : DxfEntity :=
  {| type := type e; groupCodes := <[k := v]> (groupCodes e); layer := layer e;
     entity_color := entity_color e |}.

(** The local variables of [parseDxfEntities]. *)
Record ParserState := mk_ParserState {
  entities : list DxfEntity;
  currentEntity : option DxfEntity;
  currentLayer : string
}.

Definition initial_state : ParserState :=
  {| entities := []; currentEntity := None; currentLayer := "0" |}.

(** The entity list after the open entity, if any, has received the current
    layer and has been appended ([push_back] of a copy). *)
Definition push_current (st : ParserState) : list DxfEntity :=
  match currentEntity st with
  | Some e => (entities st ++ [set_layer e (currentLayer st)])%list
  | None => entities st
  end.

(** The body run for one (group code, value) pair. *)
Definition on_pair (st : ParserState) (groupCode : Z) (line : string) : ParserState :=
  if groupCode =? 0 then
    {| entities := push_current st;
       currentEntity := Some (new_DxfEntity line);
       currentLayer := currentLayer st |}
  else
    match currentEntity st with
    | Some e =>
        let e1 := set_code e groupCode line in
        {| entities := entities st;
           currentEntity := Some (if groupCode =? 62 then set_color e1 line else e1);
           currentLayer := if groupCode =? 8 then line else currentLayer st |}
    | None => st
    end.

(** [std::isdigit(line[0]) || (line[0] == '-' && line.length() > 1 &&
    std::isdigit(line[1]))] on a non-empty line. *)
Definition is_code_line (line : string) : bool :=
  match line with
  | String c r =>
      (Text.isdigit c ||
       (Ascii.eqb c "-" && match r with String d _ => Text.isdigit d | "" => false end))%bool
  | "" => false
  end.

(** The [while (std::getline(stream, line))] loop over the lines still to be
    read. The value line of a pair is read by the inner [getline]; when it
    fails the stream is exhausted and the loop ends. *)
Fixpoint parse_loop (lines : list string) (st : ParserState) : result ParserState :=
  match lines with
  | [] => Ok st
  | l :: rest =>
      let line := Text.trim l in
      if String.eqb line "" then parse_loop rest st
      else if is_code_line line then
        match Text.stoi line with
        | Throw e => Throw e
        | Ok groupCode =>
            match rest with
            | [] => Ok st
            | v :: rest' => parse_loop rest' (on_pair st groupCode (Text.trim v))
            end
        end
      else parse_loop rest st
  end.

Definition parseDxfEntities (content : string) : result (list DxfEntity) :=
  st ← parse_loop (Text.getlines content) initial_state;
  Ok (push_current st).

(** ** Geometry reconstruction *)

(** The pairs of a [std::map<int, std::string>] in iteration order. *)
#[global] Instance key_le_dec : RelDecision (λ a b : Z * string, a.1 ≤ b.1).
Proof. intros a b. apply Z_le_dec. Defined.

Definition map_items (m : gmap Z string) : list (Z * string) :=
  merge_sort (λ a b : Z * string, a.1 ≤ b.1) (map_to_list m).

(** [v & mask] used as a condition. *)
Definition has_bit (v mask : Z) : bool := negb (Z.land v mask =? 0).

(** The initialiser of [is3D]: [&&] evaluates [std::stoi] only for a
    POLYLINE that has code 70. *)
Definition polyline_is3D (entity : DxfEntity) : result bool :=
  if String.eqb (type entity) "POLYLINE" then
    match groupCodes entity !! 70 with
    | Some v => f ← Text.stoi v; Ok (has_bit f 8)
    | None => Ok false
    end
  else Ok false.

(** The loop filling [xCodes], [yCodes] and [zCodes]. *)
Fixpoint collect_codes (items : list (Z * string)) (acc : list Z * list Z * list Z)
  : result (list Z * list Z * list Z) :=
  match items with
  | [] => Ok acc
  | (k, v) :: r =>
      let '(xCodes, yCodes, zCodes) := acc in
      if k =? 10 then x ← Text.stoi v; collect_codes r ((xCodes ++ [x])%list, yCodes, zCodes)
      else if k =? 20 then y ← Text.stoi v; collect_codes r (xCodes, (yCodes ++ [y])%list, zCodes)
      else if k =? 30 then z ← Text.stoi v; collect_codes r (xCodes, yCodes, (zCodes ++ [z])%list)
      else collect_codes r acc
  end.

(** [gp_Pnt(xCodes[i], yCodes[i], zCodes[i])] for [i] below the shortest
    length. *)
Fixpoint points_3d (xs ys zs : list Z) : list gp_Pnt :=
  match xs, ys, zs with
  | x :: xs', y :: ys', z :: zs' =>
      mk_Pnt (double_of_int x) (double_of_int y) (double_of_int z) :: points_3d xs' ys' zs'
  | _, _, _ => []
  end.

(** [gp_Pnt(xCodes[i], yCodes[i], 0)] for [i] below the shorter length. *)
Fixpoint points_2d (xs ys : list Z) : list gp_Pnt :=
  match xs, ys with
  | x :: xs', y :: ys' =>
      mk_Pnt (double_of_int x) (double_of_int y) 0%float :: points_2d xs' ys'
  | _, _ => []
  end.

(** The edges [points[i] -- points[i + 1]] for [i < points.size() - 1]. *)
Fixpoint chain_edges (points : list gp_Pnt) : list TopoDS_Shape :=
  match points with
  | p :: ((q :: _) as r) => MakeEdge_Pnts p q :: chain_edges r
  | _ => []
  end.

(** The test "code 70 is present and has bit 0", which sets [isClosed]. *)
Definition polyline_isClosed (entity : DxfEntity) : result bool :=
  match groupCodes entity !! 70 with
  | Some v => f ← Text.stoi v; Ok (has_bit f 1)
  | None => Ok false
  end.

(** The closing edge [points.back() -- points.front()], added for an
    LWPOLYLINE of more than two points whose code 70 has bit 0. *)
Definition closing_edges (entity : DxfEntity) (points : list gp_Pnt)
  : result (list TopoDS_Shape) :=
  if (String.eqb (type entity) "LWPOLYLINE" && (2 <? length points)%nat)%bool then
    isClosed ← polyline_isClosed entity;
    match isClosed, last points, head points with
    | true, Some b, Some f => Ok [MakeEdge_Pnts b f]
    | _, _, _ => Ok []
    end
  else Ok [].

Definition createPolylineFromDxf (entity : DxfEntity) : result TopoDS_Shape :=
  is3D ← polyline_is3D entity;
  '(xCodes, yCodes, zCodes) ← collect_codes (map_items (groupCodes entity)) ([], [], []);
  let points := if is3D : bool then points_3d xCodes yCodes zCodes
                else points_2d xCodes yCodes in
  if (2 <=? length points)%nat then
    closing ← closing_edges entity points;
    Ok (MakeWire (chain_edges points ++ closing)%list)
  else Ok TopoDS_Null.

(** The number of edges of a wire made by [BRepBuilderAPI_MakeWire]. *)
Definition wire_edge_count (s : TopoDS_Shape) : option nat :=
  match s with
  | MakeWire edges => Some (length edges)
  | _ => None
  end.

(** Successive outputs to one stream. *)
Fixpoint join (texts : list string) : string :=
  match texts with
  | [] => ""
  | t :: rest => t ++ join rest
  end.

(** A run of text made of whole lines, each ended by a line feed. *)
Definition text_lines (ls : list string) : string :=
  join (map (λ l, l ++ Text.nl) ls).

(** ** Files

    The files the converter stages its input in. [writable] tells whether
    files can be created and removed; on a file system that is not, opening
    an output stream fails and the write is lost. *)
Record FileSystem := mk_FileSystem {
  files : gmap string string;
  writable : bool
}.

(** [std::ofstream] open, write, close. *)
Definition ofstream_write (fileName data : string) (fs : FileSystem) : FileSystem :=
  if writable fs then {| files := <[fileName := data]> (files fs); writable := true |}
  else fs.

(** [std::remove]. *)
Definition std_remove (fileName : string) (fs : FileSystem) : FileSystem :=
  if writable fs then {| files := delete fileName (files fs); writable := true |}
  else fs.

Section Converter.
Context `{!Externals}.

Definition createLineFromDxf (entity : DxfEntity) : result TopoDS_Shape :=
  let gc := groupCodes entity in
  match gc !! 10, gc !! 20, gc !! 11, gc !! 21 with
  | Some sx1, Some sy1, Some sx2, Some sy2 =>
      x1 ← stod sx1; y1 ← stod sy1; x2 ← stod sx2; y2 ← stod sy2;
      Ok (MakeEdge_Pnts (mk_Pnt x1 y1 0%float) (mk_Pnt x2 y2 0%float))
  | _, _, _, _ => Ok TopoDS_Null
  end.

(** [gp_Ax2 axis(center, gp_Dir(0, 0, 1))] *)
Definition plane_axis (centerX centerY : double) : gp_Ax2 :=
  mk_Ax2 (mk_Pnt centerX centerY 0%float) (mk_Dir 0%float 0%float 1%float).

Definition createCircleFromDxf (entity : DxfEntity) : result TopoDS_Shape :=
  let gc := groupCodes entity in
  match gc !! 10, gc !! 20, gc !! 40 with
  | Some sx, Some sy, Some sr =>
      centerX ← stod sx; centerY ← stod sy; radius ← stod sr;
      Ok (MakeEdge_Curve (Geom_Circle (plane_axis centerX centerY) radius)
            0%float (PrimFloat.mul 2%float M_PI))
  | _, _, _ => Ok TopoDS_Null
  end.

(** [std::stod(s) * M_PI / 180.0] *)
Definition degrees_to_radians (s : string) : result double :=
  d ← stod s; Ok (PrimFloat.div (PrimFloat.mul d M_PI) 180%float).

Definition createArcFromDxf (entity : DxfEntity) : result TopoDS_Shape :=
  let gc := groupCodes entity in
  match gc !! 10, gc !! 20, gc !! 40, gc !! 50, gc !! 51 with
  | Some sx, Some sy, Some sr, Some sa, Some sb =>
      centerX ← stod sx; centerY ← stod sy; radius ← stod sr;
      startAngle ← degrees_to_radians sa; endAngle ← degrees_to_radians sb;
      Ok (MakeEdge_Curve (Geom_Circle (plane_axis centerX centerY) radius)
            startAngle endAngle)
  | _, _, _, _, _ => Ok TopoDS_Null
  end.

(** One round of the corner loop of [create3DFaceFromDxf]: corner [i] is
    read when its three codes are present. *)
Definition face_corner (entity : DxfEntity) (i : Z) : result (list gp_Pnt) :=
  let gc := groupCodes entity in
  match gc !! (10 + i), gc !! (20 + i), gc !! (30 + i) with
  | Some sx, Some sy, Some sz =>
      x ← stod sx; y ← stod sy; z ← stod sz; Ok [mk_Pnt x y z]
  | _, _, _ => Ok []
  end.

Definition create3DFaceFromDxf (entity : DxfEntity) : result TopoDS_Shape :=
  corners ← mapR (face_corner entity) [0; 1; 2; 3];
  let points := concat corners in
  if (3 <=? length points)%nat then
    if (length points =? 3)%nat then Ok (MakeFace (MakePolygon points false))
    else if (length points =? 4)%nat then Ok (MakeFace (MakePolygon points true))
    else Ok TopoDS_Null
  else Ok TopoDS_Null.

(** The body of the entity loop of [convertFromDxf] up to the null test:
    the shape stays null for a type that has no builder. *)
Definition entity_shape (entity : DxfEntity) : result TopoDS_Shape :=
  let t := type entity in
  if String.eqb t "LINE" then createLineFromDxf entity
  else if String.eqb t "CIRCLE" then createCircleFromDxf entity
  else if String.eqb t "ARC" then createArcFromDxf entity
  else if (String.eqb t "POLYLINE" || String.eqb t "LWPOLYLINE")%bool
       then createPolylineFromDxf entity
  else if String.eqb t "3DFACE" then create3DFaceFromDxf entity
  else Ok TopoDS_Null.

(** The members added to the compound: the non-null shapes, in entity
    order; the first exception ends the loop. *)
Definition compound_members (entities : list DxfEntity) : result (list TopoDS_Shape) :=
  shapes ← mapR entity_shape entities;
  Ok (filter (λ s, IsNull s = false) shapes).

(** *** Attribute resolver

    The recursion along references is bounded by [fuel]; [None] stands for
    a run without a defined result (references that never end, or the use
    of a null shape). *)

Definition getLabelNameNoRef (shapeTool : XCAFDoc_ShapeTool) (label : TDF_Label) : string :=
  match FindName shapeTool label with
  | None => ""
  | Some name => name
  end.

Fixpoint getLabelName (fuel : nat) (shapeTool : XCAFDoc_ShapeTool) (label : TDF_Label)
  : option string :=
  match fuel with
  | O => None
  | S fuel =>
      match GetReferredShape shapeTool label with
      | Some referredShapeLabel => getLabelName fuel shapeTool referredShapeLabel
      | None => Some (getLabelNameNoRef shapeTool label)
      end
  end.

Definition getShapeName (fuel : nat) (shapeTool : XCAFDoc_ShapeTool) (shape : TopoDS_Shape)
  : option string :=
  match Search shapeTool shape with
  | None => Some ""
  | Some shapeLabel => getLabelName fuel shapeTool shapeLabel
  end.

Definition colorTypes : list XCAFDoc_ColorType :=
  [XCAFDoc_ColorSurf; XCAFDoc_ColorCurv; XCAFDoc_ColorGen].

(** The functions that fill the reference parameter [color] take its
    value on entry and return the flag together with its value on exit. *)
Fixpoint first_color (colorTool : XCAFDoc_ColorTool) (label : TDF_Label)
    (types : list XCAFDoc_ColorType) (color : string) : bool * string :=
  match types with
  | [] => (false, color)
  | colorType :: rest =>
      match GetColor colorTool label colorType with
      | Some qColor => (true, ColorToHex qColor)
      | None => first_color colorTool label rest color
      end
  end.

Definition getLabelColorNoRef (label : TDF_Label) (colorTool : XCAFDoc_ColorTool)
    (color : string) : bool * string :=
  first_color colorTool label colorTypes color.

Fixpoint getLabelColor (fuel : nat) (label : TDF_Label) (shapeTool : XCAFDoc_ShapeTool)
    (colorTool : XCAFDoc_ColorTool) (color : string) : option (bool * string) :=
  match fuel with
  | O => None
  | S fuel =>
      match getLabelColorNoRef label colorTool color with
      | (true, color) => Some (true, color)
      | (false, color) =>
          match GetReferredShape shapeTool label with
          | Some referredShape => getLabelColor fuel referredShape shapeTool colorTool color
          | None => Some (false, color)
          end
      end
  end.

Definition getShapeColor (fuel : nat) (shape : TopoDS_Shape) (shapeTool : XCAFDoc_ShapeTool)
    (colorTool : XCAFDoc_ColorTool) (color : string) : option (bool * string) :=
  match Search shapeTool shape with
  | None => Some (false, color)
  | Some shapeLabel => getLabelColor fuel shapeLabel shapeTool colorTool color
  end.

(** *** Label classifier *)

Definition isFreeShape (label : TDF_Label) (shapeTool : XCAFDoc_ShapeTool) : bool :=
  (bool_decide (is_Some (GetShape shapeTool label)) && IsFree shapeTool label)%bool.

Definition isMeshNode (label : TDF_Label) (shapeTool : XCAFDoc_ShapeTool) : bool :=
  if negb (HasChild label) then true
  else
    let hasSubShapeChild := existsb (IsSubShape shapeTool) (ChildIterator label) in
    if hasSubShapeChild then true
    else
      let hasFreeShapeChild :=
        existsb (λ childLabel, isFreeShape childLabel shapeTool) (ChildIterator label) in
      if negb hasFreeShapeChild then true
      else false.

(** *** Scene tree builder *)

(** [.color = color] stores the [std::string] in the optional field. *)
Definition initLabelNode (fuel : nat) (label : TDF_Label) (shapeTool : XCAFDoc_ShapeTool)
    (colorTool : XCAFDoc_ColorTool) : option ShapeNode :=
  '(_, color) ← getLabelColor fuel label shapeTool colorTool "";
  name ← getLabelName fuel shapeTool label;
  Some {| shape := None; color := Some color; children := []; name := name |}.

Definition initShapeNode (fuel : nat) (shape : TopoDS_Shape) (shapeTool : XCAFDoc_ShapeTool)
    (colorTool : XCAFDoc_ColorTool) : option ShapeNode :=
  '(_, color) ← getShapeColor fuel shape shapeTool colorTool "";
  name ← getShapeName fuel shapeTool shape;
  Some {| shape := Some shape; color := Some color; children := []; name := name |}.

Definition initGroupNode (fuel : nat) (shape : TopoDS_Shape) (shapeTool : XCAFDoc_ShapeTool)
  : option ShapeNode :=
  name ← getShapeName fuel shapeTool shape;
  Some {| shape := None; color := None; children := []; name := name |}.

Definition push_children (node : ShapeNode) (nodes : list ShapeNode) : ShapeNode :=
  {| shape := shape node; color := color node;
     children := (children node ++ nodes)%list; name := name node |}.

(** The [while (iterator.More())] loop of [parseShape] over the components
    a [TopoDS_Iterator] visits. *)
Definition parse_components (parse : TopoDS_Shape -> option ShapeNode)
  : list TopoDS_Shape -> option (list ShapeNode) :=
  fix go (subShapes : list TopoDS_Shape) : option (list ShapeNode) :=
    match subShapes with
    | [] => Some []
    | subShape :: rest =>
        childNode ← parse subShape;
        nodes ← go rest;
        Some (childNode :: nodes)
    end.

Fixpoint parseShape (fuel : nat) (shape : TopoDS_Shape) (shapeTool : XCAFDoc_ShapeTool)
    (colorTool : XCAFDoc_ColorTool) {struct shape} : option ShapeNode :=
  match ShapeType shape with
  | None => None
  | Some ty =>
      if is_aggregate ty then
        node ← initGroupNode fuel shape shapeTool;
        nodes ← match shape with
                | TShape _ _ components | MakeCompound components =>
                    parse_components
                      (λ subShape, parseShape fuel subShape shapeTool colorTool) components
                | _ => Some []
                end;
        Some (push_children node nodes)
      else initShapeNode fuel shape shapeTool colorTool
  end.

(** The loop over the child labels shared by [parseLabelToNode] and
    [parseRootLabelToNode]: only free shapes are descended into. *)
Definition parse_children (parse : TDF_Label -> option ShapeNode)
    (shapeTool : XCAFDoc_ShapeTool) : list TDF_Label -> option (list ShapeNode) :=
  fix go (labels : list TDF_Label) : option (list ShapeNode) :=
    match labels with
    | [] => Some []
    | childLabel :: rest =>
        if isFreeShape childLabel shapeTool then
          childNode ← parse childLabel;
          nodes ← go rest;
          Some (childNode :: nodes)
        else go rest
    end.

Fixpoint parseLabelToNode (fuel : nat) (label : TDF_Label) (shapeTool : XCAFDoc_ShapeTool)
    (colorTool : XCAFDoc_ColorTool) {struct label} : option ShapeNode :=
  if isMeshNode label shapeTool then
    parseShape fuel (default TopoDS_Null (GetShape shapeTool label)) shapeTool colorTool
  else
    node ← initLabelNode fuel label shapeTool colorTool;
    nodes ← parse_children (λ childLabel, parseLabelToNode fuel childLabel shapeTool colorTool)
              shapeTool (ChildIterator label);
    Some (push_children node nodes).

Definition parseRootLabelToNode (fuel : nat) (shapeTool : XCAFDoc_ShapeTool)
    (colorTool : XCAFDoc_ColorTool) : option ShapeNode :=
  let label := RootLabel shapeTool in
  node ← initLabelNode fuel label shapeTool colorTool;
  nodes ← parse_children (λ childLabel, parseLabelToNode fuel childLabel shapeTool colorTool)
            shapeTool (ChildIterator label);
  Some (push_children node nodes).

Definition parseNodeFromDocument (fuel : nat) (document : TDocStd_Document)
  : option ShapeNode :=
  parseRootLabelToNode fuel (ShapeTool document) (ColorTool document).

(** *** Conversion entry points

    The entry points that stage their input on disk thread the file
    system: they return their outcome and the file system they leave. *)

Definition writeBufferToFile (fileName : string) (buffer : string) (fs : FileSystem)
  : FileSystem :=
  ofstream_write fileName buffer fs.

Definition convertFromIges (fuel : nat) (buffer : string) (fs : FileSystem)
  : option (option ShapeNode) * FileSystem :=
  let dummyFileName := "temp.igs" in
  let fs := writeBufferToFile dummyFileName buffer fs in
  let file := files fs !! dummyFileName in
  if negb (IGES_ReadFile file) then
    (Some None, std_remove dummyFileName fs)
  else
    match IGES_Transfer file with
    | None => (Some None, std_remove dummyFileName fs)
    | Some document =>
        let fs := std_remove dummyFileName fs in
        (Some <$> parseNodeFromDocument fuel document, fs)
    end.

Definition convertFromStl (buffer : string) (fs : FileSystem)
  : option ShapeNode * FileSystem :=
  let dummyFileName := "temp.stl" in
  let fs := writeBufferToFile dummyFileName buffer fs in
  match Stl_Read (files fs !! dummyFileName) with
  | None => (None, fs)
  | Some shape =>
      (Some {| shape := Some shape; color := None; children := [];
               name := "STL Shape" |}, fs)
  end.

Definition convertFromDxf (buffer : string) (fs : FileSystem)
  : result (option ShapeNode) * FileSystem :=
  let dummyFileName := "temp.dxf" in
  let fs := writeBufferToFile dummyFileName buffer fs in
  match files fs !! dummyFileName with
  | None => (Ok None, std_remove dummyFileName fs)
  | Some content =>
      let fs := std_remove dummyFileName fs in
      (entities ← parseDxfEntities content;
       members ← compound_members entities;
       Ok (Some {| shape := Some (MakeCompound members);
                   color := None;
                   children := [];
                   name := "DXF Import (" ++ Text.to_string (length entities)
                             ++ " entities)" |}),
       fs)
  end.

(** *** Interchange writer *)

(** The three coordinate pairs written for a point under the given codes. *)
Definition put_point (cx cy cz : string) (p : gp_Pnt) : string :=
  text_lines [cx; put_double (Pnt_X p); cy; put_double (Pnt_Y p);
              cz; put_double (Pnt_Z p)].

(** [angle * 180.0 / M_PI] *)
Definition radians_to_degrees (angle : double) : double :=
  PrimFloat.div (PrimFloat.mul angle 180%float) M_PI.

(** The record written for one edge met by the explorer. *)
Definition edge_record (edge : TopoDS_Shape) : string :=
  match BRep_Tool_Curve edge with
  | None => ""
  | Some (curve, first, last) =>
      match curve with
      | Geom_Line _ _ =>
          let p1 := Curve_Value curve first in
          let p2 := Curve_Value curve last in
          text_lines ["  0"; "LINE"; "  8"; "0"]
          ++ put_point " 10" " 20" " 30" p1
          ++ put_point " 11" " 21" " 31" p2
      | Geom_Circle position radius =>
          let center := Ax2_Location position in
          text_lines ["  0"; "CIRCLE"; "  8"; "0"]
          ++ put_point " 10" " 20" " 30" center
          ++ text_lines [" 40"; put_double radius]
      | Geom_TrimmedCurve (Geom_Circle position radius) startAngle endAngle =>
          let center := Ax2_Location position in
          text_lines ["  0"; "ARC"; "  8"; "0"]
          ++ put_point " 10" " 20" " 30" center
          ++ text_lines [" 40"; put_double radius]
          ++ text_lines [" 50"; put_double (radians_to_degrees startAngle)]
          ++ text_lines [" 51"; put_double (radians_to_degrees endAngle)]
      | _ => ""
      end
  end.

(** [curve->Value(first)] of the edges that have a curve. *)
Definition start_points (edges : list TopoDS_Shape) : list gp_Pnt :=
  omap (λ edge, match BRep_Tool_Curve edge with
                | Some (curve, first, _) => Some (Curve_Value curve first)
                | None => None
                end) edges.

(** The pass for a shape that is a wire. *)
Definition wire_record (shape : TopoDS_Shape) : string :=
  let points := start_points (BRepTools_WireExplorer shape) in
  match points with
  | [] => ""
  | _ =>
      text_lines ["  0"; "LWPOLYLINE"; "  8"; "0"; "  90";
                  Text.to_string (length points); "  70"; "1"]
      ++ join (map (put_point " 10" " 20" " 30") points)
  end.

(** The pass for a shape that is a face. *)
Definition face_record (shape : TopoDS_Shape) : string :=
  let vertices := start_points (TopExp_Explorer_EDGE shape) in
  if (3 <=? length vertices)%nat then
    text_lines ["  0"; "3DFACE"; "  8"; "0"]
    ++ join (map (put_point " 10" " 20" " 30") (take 4 vertices))
  else "".

(** The body of the loop over the input shapes; [ShapeType] has no value
    on a null shape. *)
Definition shape_records (shape : TopoDS_Shape) : option string :=
  let edges := join (map edge_record (TopExp_Explorer_EDGE shape)) in
  ty ← ShapeType shape;
  Some (edges
        ++ (if is_type shape TopAbs_WIRE then wire_record shape else "")
        ++ (if is_type shape TopAbs_FACE then face_record shape else "")).

Definition dxf_header : string :=
  text_lines ["  0"; "SECTION"; "  2"; "HEADER"; "  9"; "$ACADVER"; "  1"; "AC1015";
              "  9"; "$INSUNITS"; "  70"; "4"; "  0"; "ENDSEC"].

Definition dxf_tables : string :=
  text_lines ["  0"; "SECTION"; "  2"; "TABLES"; "  0"; "TABLE"; "  2"; "LAYER";
              "  0"; "LAYER"; "  2"; "0"; "  70"; "0"; "  62"; "7"; "  6"; "CONTINUOUS"]
  ++ text_lines ["  0"; "ENDTAB"; "  0"; "ENDSEC"].

Definition convertToDxf (shapes : list TopoDS_Shape) : option string :=
  records ← mapM shape_records shapes;
  Some (dxf_header ++ dxf_tables
        ++ text_lines ["  0"; "SECTION"; "  2"; "ENTITIES"]
        ++ join records
        ++ text_lines ["  0"; "ENDSEC"; "  0"; "EOF"]).

End Converter.

(** ** A reference instance of the external collaborators

    Used to run the converter on concrete inputs. [stod] covers the forms
    of [strtod] (white space, sign, then decimal digits with an optional
    fraction and exponent, or 0x and hexadecimal digits with an optional
    fraction and binary exponent, or the words inf, infinity and nan) with
    correct rounding to binary64. A result too large for binary64 is a
    range error; so is, as in the GNU C library, an inexact result that is
    tiny after rounding (C leaves that report to the implementation).
    [put_double] is the [%g] format with the default precision of six
    significant digits, computed on the exact value. The kernel queries
    answer on the shapes the converter's own constructions produce. *)
Module Reference.

Definition lower (c : ascii) : ascii :=
  let n := N_of_ascii c in
  if ((65 <=? n) && (n <=? 90))%N%bool then ascii_of_N (n + 32) else c.

(** [prefix_ci p s]: [s] starts with [p] (given in lower case), case
    ignored. *)
Fixpoint prefix_ci (p s : string) : bool :=
  match p, s with
  | "", _ => true
  | String a p', String b s' => (Ascii.eqb a (lower b) && prefix_ci p' s')%bool
  | _, _ => false
  end.

(** Digits of [s] accumulated onto [acc]: the value, how many were read
    and the rest of the text. *)
Fixpoint digits (acc : Z) (n : Z) (s : string) : Z * Z * string :=
  match s with
  | String c r =>
      if Text.isdigit c then digits (10 * acc + Text.digit_val c) (n + 1) r
      else (acc, n, s)
  | "" => (acc, n, s)
  end.

(** The value of a hexadecimal digit. *)
Definition hex_val (c : ascii) : option Z :=
  if Text.isdigit c then Some (Text.digit_val c)
  else
    let n := N_of_ascii (lower c) in
    if ((97 <=? n) && (n <=? 102))%N%bool then Some (Z.of_N n - 87) else None.

(** The same for hexadecimal digits. *)
Fixpoint hex_digits (acc : Z) (n : Z) (s : string) : Z * Z * string :=
  match s with
  | String c r =>
      match hex_val c with
      | Some v => hex_digits (16 * acc + v) (n + 1) r
      | None => (acc, n, s)
      end
  | "" => (acc, n, s)
  end.

(** The exponent part after the letter [mark], taken only when a digit
    follows. *)
Definition exponent_after (mark : ascii) (s : string) : Z :=
  match s with
  | String c r =>
      if Ascii.eqb (lower c) mark then
        let '(neg, r') :=
          match r with
          | String "-" t => (true, t)
          | String "+" t => (false, t)
          | _ => (false, r)
          end in
        let '(v, n, _) := digits 0 0 r' in
        if n =? 0 then 0 else if neg then - v else v
      else 0
  | "" => 0
  end.

Definition exponent : string → Z := exponent_after "e".

(** The binary64 value nearest to [m * 10 ^ k] (ties to even). *)
Definition decimal_value (neg : bool) (m : Z) (k : Z) : spec_float :=
  match m with
  | Zpos p =>
      if 0 <=? k then binary_normalize prec emax ((if neg then - m else m) * 10 ^ k) 0 false
      else SFdiv prec emax (S754_finite neg p 0)
                 (S754_finite false (Z.to_pos (10 ^ (- k))) 0)
  | _ => S754_zero neg
  end.

(** The binary64 value nearest to [m * 2 ^ e] (ties to even). *)
Definition binary_value (neg : bool) (m : Z) (e : Z) : spec_float :=
  match m with
  | Zpos _ => binary_normalize prec emax (if neg then - m else m) e false
  | _ => S754_zero neg
  end.

(** [m * b ^ k] is not zero, lies below the normal range of binary64 (it
    rounds to less than 2^-1022 at full precision) and is no multiple of
    2^-1074: the conversion is inexact and [strtod] reports the
    underflow. *)
Definition underflows (m b k : Z) : bool :=
  let '(num, den) := if 0 <=? k then (m * b ^ k, 1) else (m, b ^ (- k)) in
  ((num * 2 ^ 1076 <? (2 ^ 54 - 1) * den)
   && negb ((num * 2 ^ 1074) mod den =? 0))%bool.

(** What [std::stod] makes of the value [v] that [strtod] computed for
    [m * b ^ k]: a range error becomes [std::out_of_range]. *)
Definition checked (v : spec_float) (m b k : Z) : result double :=
  match v with
  | S754_infinity _ => Throw out_of_range
  | _ => if underflows m b k then Throw out_of_range else Ok (SF2Prim v)
  end.

(** The text after the sign starts a hexadecimal number. *)
Definition hex_prefix (s : string) : option string :=
  match s with
  | String "0" (String c r) => if Ascii.eqb (lower c) "x" then Some r else None
  | _ => None
  end.

Definition stod (s : string) : result double :=
  let s1 := Text.skip_space s in
  let '(neg, s2) :=
    match s1 with
    | String "-" r => (true, r)
    | String "+" r => (false, r)
    | _ => (false, s1)
    end in
  if prefix_ci "inf" s2 then Ok (SF2Prim (S754_infinity neg))
  else if prefix_ci "nan" s2 then Ok (SF2Prim S754_nan)
  else
    match hex_prefix s2 with
    | Some h =>
        let '(ip, ni, h1) := hex_digits 0 0 h in
        let '(m, nf, h2) :=
          match h1 with
          | String "." r => hex_digits ip 0 r
          | _ => (ip, 0, h1)
          end in
        (* without a hexadecimal digit only the 0 before the x is read *)
        if ni + nf =? 0 then Ok (SF2Prim (S754_zero neg))
        else
          let e := exponent_after "p" h2 - 4 * nf in
          checked (binary_value neg m e) m 2 e
    | None =>
        let '(ip, ni, s3) := digits 0 0 s2 in
        let '(m, nf, s4) :=
          match s3 with
          | String "." r => digits ip 0 r
          | _ => (ip, 0, s3)
          end in
        if ni + nf =? 0 then Throw invalid_argument
        else
          let k := exponent s4 - nf in
          checked (decimal_value neg m k) m 10 k
    end.

Definition dec_digits (n : Z) : Z :=
  Z.of_nat (Decimal.nb_digits (Pos.to_uint (Z.to_pos n))).

Definition dec_string (n : Z) : string :=
  NilZero.string_of_uint (N.to_uint (Z.to_N n)).

Fixpoint drop_zeros (s : string) : string :=
  match s with
  | String "0" r => drop_zeros r
  | _ => s
  end.

Definition strip_trailing_zeros (s : string) : string :=
  String.rev (drop_zeros (String.rev s)).

Fixpoint zeros (n : nat) : string :=
  match n with
  | O => ""
  | S n => String "0" (zeros n)
  end.

(** [num / den] rounded to the nearest integer, ties to even. *)
Definition round_div (num den : Z) : Z :=
  let q := num / den in
  let r := num mod den in
  match 2 * r ?= den with
  | Lt => q
  | Gt => q + 1
  | Eq => if Z.even q then q else q + 1
  end.

Definition with_point (ip fp : string) : string :=
  match strip_trailing_zeros fp with
  | "" => ip
  | fp' => ip ++ "." ++ fp'
  end.

(** [%g] with precision 6 of the positive value [m * 2 ^ e]. *)
Definition format_g (m e : Z) : string :=
  let '(num, den) := if 0 <=? e then (m * 2 ^ e, 1) else (m, 2 ^ (- e)) in
  let ge_pow10 (x : Z) : bool :=
    if 0 <=? x then den * 10 ^ x <=? num else den <=? num * 10 ^ (- x) in
  let x0 := dec_digits num - dec_digits den in
  let x1 := if ge_pow10 (x0 + 1) then x0 + 1 else if ge_pow10 x0 then x0 else x0 - 1 in
  let scaled (x : Z) : Z :=
    if 0 <=? x - 5 then round_div num (den * 10 ^ (x - 5))
    else round_div (num * 10 ^ (5 - x)) den in
  let '(x, q) := if scaled x1 =? 1000000 then (x1 + 1, 100000) else (x1, scaled x1) in
  let ds := dec_string q in
  if ((x <? -4) || (6 <=? x))%bool then
    with_point (substring 0 1 ds) (substring 1 5 ds)
    ++ "e" ++ (if x <? 0 then "-" else "+")
    ++ (if Z.abs x <? 10 then "0" else "") ++ dec_string (Z.abs x)
  else if 0 <=? x then
    with_point (substring 0 (Z.to_nat (x + 1)) ds)
               (substring (Z.to_nat (x + 1)) (Z.to_nat (5 - x)) ds)
  else with_point "0" (zeros (Z.to_nat (- x - 1)) ++ ds).

Definition put_double (d : double) : string :=
  match Prim2SF d with
  | S754_nan => "nan"
  | S754_infinity sg => if sg then "-inf" else "inf"
  | S754_zero sg => if sg then "-0" else "0"
  | S754_finite sg m e => (if sg then "-" else "") ++ format_g (Zpos m) e
  end.

(** A colour component as two hexadecimal digits (no gamma correction). *)
Definition hex_byte (c : double) : string :=
  let v := match Prim2SF (PrimFloat.mul c 255%float) with
           | S754_finite false m e => Z.min 255 (round_div (Zpos m * 2 ^ (Z.max e 0)) (2 ^ (Z.max (- e) 0)))
           | S754_infinity false => 255
           | _ => 0
           end in
  let hex (n : Z) : string := substring (Z.to_nat n) 1 "0123456789abcdef" in
  hex (v / 16) ++ hex (v mod 16).

Definition ColorToHex (c : Quantity_Color) : string :=
  "#" ++ hex_byte (Red c) ++ hex_byte (Green c) ++ hex_byte (Blue c).

Definition closing_edge (pts : list gp_Pnt) (closed : bool) : list TopoDS_Shape :=
  match closed, last pts, head pts with
  | true, Some b, Some f => [MakeEdge_Pnts b f]
  | _, _, _ => []
  end.

(** The edges met by a depth-first exploration. *)
Fixpoint TopExp_Explorer_EDGE (s : TopoDS_Shape) : list TopoDS_Shape :=
  match s with
  | TopoDS_Null => []
  | TShape TopAbs_EDGE _ _ => [s]
  | TShape TopAbs_VERTEX _ _ | TShape TopAbs_SHAPE _ _ => []
  | TShape _ _ subs => flat_map TopExp_Explorer_EDGE subs
  | MakeEdge_Pnts _ _ | MakeEdge_Curve _ _ _ => [s]
  | MakeWire edges => flat_map TopExp_Explorer_EDGE edges
  | MakePolygon pts closed => (chain_edges pts ++ closing_edge pts closed)%list
  | MakeFace wire => TopExp_Explorer_EDGE wire
  | MakeCompound members => flat_map TopExp_Explorer_EDGE members
  end.

Definition BRepTools_WireExplorer (s : TopoDS_Shape) : list TopoDS_Shape :=
  match s with
  | MakeWire edges => edges
  | MakePolygon pts closed => (chain_edges pts ++ closing_edge pts closed)%list
  | _ => []
  end.

(** The curve of an edge built from two points: the line through the
    first point along the unit direction, on [0, distance]. *)
Definition BRep_Tool_Curve (s : TopoDS_Shape) : option (Geom_Curve * double * double) :=
  match s with
  | MakeEdge_Pnts p q =>
      let dx := PrimFloat.sub (Pnt_X q) (Pnt_X p) in
      let dy := PrimFloat.sub (Pnt_Y q) (Pnt_Y p) in
      let dz := PrimFloat.sub (Pnt_Z q) (Pnt_Z p) in
      let dist := PrimFloat.sqrt
        (PrimFloat.add (PrimFloat.add (PrimFloat.mul dx dx) (PrimFloat.mul dy dy))
                       (PrimFloat.mul dz dz)) in
      Some (Geom_Line p (mk_Dir (PrimFloat.div dx dist) (PrimFloat.div dy dist)
                                (PrimFloat.div dz dist)),
            0%float, dist)
  | MakeEdge_Curve c u1 u2 => Some (c, u1, u2)
  | _ => None
  end.

(** Lines are evaluated at any parameter; a circle (in a plane of normal
    +z) only at its origin of parameters. *)
Fixpoint Curve_Value (c : Geom_Curve) (u : double) : gp_Pnt :=
  match c with
  | Geom_Line p d =>
      mk_Pnt (PrimFloat.add (Pnt_X p) (PrimFloat.mul u (Dir_X d)))
             (PrimFloat.add (Pnt_Y p) (PrimFloat.mul u (Dir_Y d)))
             (PrimFloat.add (Pnt_Z p) (PrimFloat.mul u (Dir_Z d)))
  | Geom_Circle pos r =>
      let p := Ax2_Location pos in
      mk_Pnt (PrimFloat.add (Pnt_X p) r) (Pnt_Y p) (Pnt_Z p)
  | Geom_TrimmedCurve b _ _ => Curve_Value b u
  | Geom_OtherCurve _ => mk_Pnt 0%float 0%float 0%float
  end.

(** Stand-ins for the file readers: a file is readable when it exists and
    is not empty, and yields a fixed document or shape. *)
Definition readable (file : option string) : bool :=
  match file with
  | Some (String _ _) => true
  | _ => false
  end.

Definition empty_document : TDocStd_Document :=
  {| ShapeTool := {| FindName := λ _, None; GetReferredShape := λ _, None;
                     Search := λ _, None; GetShape := λ _, None;
                     IsFree := λ _, false; IsSubShape := λ _, false;
                     RootLabel := Label 0 [] |};
     ColorTool := {| GetColor := λ _ _, None |} |}.

#[export] Instance externals : Externals :=
  Build_Externals stod put_double ColorToHex TopExp_Explorer_EDGE BRepTools_WireExplorer
    BRep_Tool_Curve Curve_Value readable
    (λ file, if readable file then Some empty_document else None)
    (λ file, if readable file then Some (TShape TopAbs_SOLID 0 []) else None).

End Reference.

(** ** The parser seen as a run over (group code, value) pairs *)

(** The pairs the loop of [parseDxfEntities] reads, in order: the group
    code as converted by [std::stoi] and the trimmed value line. *)
Fixpoint dxf_pairs (lines : list string) : result (list (Z * string)) :=
  match lines with
  | [] => Ok []
  | l :: rest =>
      let line := Text.trim l in
      if String.eqb line "" then dxf_pairs rest
      else if is_code_line line then
        match Text.stoi line with
        | Throw e => Throw e
        | Ok groupCode =>
            match rest with
            | [] => Ok []
            | v :: rest' =>
                match dxf_pairs rest' with
                | Throw e => Throw e
                | Ok ps => Ok ((groupCode, Text.trim v) :: ps)
                end
            end
        end
      else dxf_pairs rest
  end.

Definition run_pairs (ps : list (Z * string)) (st : ParserState) : ParserState :=
  fold_left (λ st p, on_pair st p.1 p.2) ps st.

(** The entity keywords written for line and full-circle curves. *)
Definition is_line_or_circle (t : string) : bool :=
  (String.eqb t "LINE" || String.eqb t "CIRCLE")%bool.

(** The entity keywords that have a builder. *)
Definition is_geometric_type (t : string) : bool :=
  (String.eqb t "LINE" || String.eqb t "CIRCLE" || String.eqb t "ARC"
   || (String.eqb t "POLYLINE" || String.eqb t "LWPOLYLINE")
   || String.eqb t "3DFACE")%bool.

(** ** Numbers read by the builders *)

Section NumberFields.
Context `{!Externals}.

(** Every text of the list converts with [std::stod]. *)
Definition reads_ok (texts : list string) : bool :=
  forallb (λ s, is_Ok (stod s)) texts.

(** The entity is a LINE, CIRCLE or ARC that has all its required codes,
    and the text under one of them (a coordinate, the radius or an angle)
    does not convert. *)
Definition bad_number (e : DxfEntity) : Prop :=
  let gc := groupCodes e in
  (type e = "LINE" ∧ ∃ a b c d,
      gc !! 10 = Some a ∧ gc !! 20 = Some b ∧ gc !! 11 = Some c ∧ gc !! 21 = Some d
      ∧ reads_ok [a; b; c; d] = false)
  ∨ (type e = "CIRCLE" ∧ ∃ a b r,
      gc !! 10 = Some a ∧ gc !! 20 = Some b ∧ gc !! 40 = Some r
      ∧ reads_ok [a; b; r] = false)
  ∨ (type e = "ARC" ∧ ∃ a b r u v,
      gc !! 10 = Some a ∧ gc !! 20 = Some b ∧ gc !! 40 = Some r
      ∧ gc !! 50 = Some u ∧ gc !! 51 = Some v
      ∧ reads_ok [a; b; r; u; v] = false).

(** The entity is a LINE, CIRCLE or ARC that lacks one of its required
    codes. *)
Definition missing_field (e : DxfEntity) : Prop :=
  let gc := groupCodes e in
  (type e = "LINE" ∧ (gc !! 10 = None ∨ gc !! 20 = None ∨ gc !! 11 = None ∨ gc !! 21 = None))
  ∨ (type e = "CIRCLE" ∧ (gc !! 10 = None ∨ gc !! 20 = None ∨ gc !! 40 = None))
  ∨ (type e = "ARC" ∧ (gc !! 10 = None ∨ gc !! 20 = None ∨ gc !! 40 = None
                       ∨ gc !! 50 = None ∨ gc !! 51 = None)).

End NumberFields.

(** ** The writer seen as a sequence of records

    A record is an entity keyword and the (code line, value line) pairs
    written after it. *)

Definition record_lines (r : string * list (string * string)) : list string :=
  "  0" :: r.1 :: flat_map (λ p, [p.1; p.2]) r.2.

Definition records_text (rs : list (string * list (string * string))) : string :=
  text_lines (flat_map record_lines rs).

Fixpoint no_newline (s : string) : bool :=
  match s with
  | "" => true
  | String c r => (negb (Ascii.eqb c Text.LF) && no_newline r)%bool
  end.

Fixpoint no_trim_char (s : string) : bool :=
  match s with
  | "" => true
  | String c r => (negb (Text.is_trim_char c) && no_trim_char r)%bool
  end.

(** The group code a code line stands for. *)
Definition code_of (c : string) : Z :=
  match Text.stoi (Text.trim c) with
  | Ok k => k
  | Throw _ => 0
  end.

(** A code line the tokenizer takes as a group code other than 0. *)
Definition good_code (c : string) : bool :=
  let t := Text.trim c in
  (negb (String.eqb t "") && is_code_line t &&
   match Text.stoi t with
   | Ok k => negb (k =? 0)
   | Throw _ => false
   end)%bool.

Definition good_record (r : string * list (string * string)) : Prop :=
  no_newline r.1 = true
  ∧ Forall (λ p, good_code p.1 = true ∧ no_newline p.1 = true ∧ no_newline p.2 = true) r.2.

(** What the tokenizer makes of a record: trimmed keyword, and pairs of
    group code and trimmed value. *)
Definition read_record (r : string * list (string * string)) : string * list (Z * string) :=
  (Text.trim r.1, map (λ p, (code_of p.1, Text.trim p.2)) r.2).

Definition record_pairs (r : string * list (Z * string)) : list (Z * string) :=
  (0, r.1) :: r.2.

Definition apply_code (e : DxfEntity) (p : Z * string) : DxfEntity :=
  let e1 := set_code e p.1 p.2 in
  if p.1 =? 62 then set_color e1 p.2 else e1.

(** The entity a record becomes, before it receives its layer. *)
Definition record_entity (r : string * list (Z * string)) : DxfEntity :=
  fold_left apply_code r.2 (new_DxfEntity r.1).

(** The current layer after the pairs of a record. *)
Definition record_layer (body : list (Z * string)) (l : string) : string :=
  fold_left (λ l p, if p.1 =? 8 then p.2 else l) body l.

Definition insert_pair (m : gmap Z string) (p : Z * string) : gmap Z string :=
  <[p.1 := p.2]> m.

(** The current layer after a sequence of records. *)
Definition layer_after (l : string) (rs : list (string * list (Z * string))) : string :=
  fold_left (λ l r, record_layer r.2 l) rs l.

(** The entities stored for a sequence of records read with current layer
    [l]. *)
Fixpoint close_records (l : string) (rs : list (string * list (Z * string)))
  : list DxfEntity :=
  match rs with
  | [] => []
  | r :: rest =>
      let l' := record_layer r.2 l in
      set_layer (record_entity r) l' :: close_records l' rest
  end.

Section WriterRecords.
Context `{!Externals}.

Definition point_pairs (cx cy cz : string) (p : gp_Pnt) : list (string * string) :=
  [(cx, put_double (Pnt_X p)); (cy, put_double (Pnt_Y p)); (cz, put_double (Pnt_Z p))].

Definition edge_records (edge : TopoDS_Shape) : list (string * list (string * string)) :=
  match BRep_Tool_Curve edge with
  | None => []
  | Some (curve, first, last) =>
      match curve with
      | Geom_Line _ _ =>
          [("LINE", ("  8", "0")
                    :: point_pairs " 10" " 20" " 30" (Curve_Value curve first)
                    ++ point_pairs " 11" " 21" " 31" (Curve_Value curve last))]
      | Geom_Circle position radius =>
          [("CIRCLE", ("  8", "0")
                      :: point_pairs " 10" " 20" " 30" (Ax2_Location position)
                      ++ [(" 40", put_double radius)])]
      | Geom_TrimmedCurve (Geom_Circle position radius) startAngle endAngle =>
          [("ARC", ("  8", "0")
                   :: point_pairs " 10" " 20" " 30" (Ax2_Location position)
                   ++ [(" 40", put_double radius);
                       (" 50", put_double (radians_to_degrees startAngle));
                       (" 51", put_double (radians_to_degrees endAngle))])]
      | _ => []
      end
  end%list.

Definition wire_records (shape : TopoDS_Shape) : list (string * list (string * string)) :=
  let points := start_points (BRepTools_WireExplorer shape) in
  match points with
  | [] => []
  | _ => [("LWPOLYLINE",
           [("  8", "0"); ("  90", Text.to_string (length points)); ("  70", "1")]
           ++ flat_map (point_pairs " 10" " 20" " 30") points)]
  end%list.

Definition face_records (shape : TopoDS_Shape) : list (string * list (string * string)) :=
  let vertices := start_points (TopExp_Explorer_EDGE shape) in
  if (3 <=? length vertices)%nat
  then [("3DFACE", ("  8", "0") :: flat_map (point_pairs " 10" " 20" " 30") (take 4 vertices))]
  else [].

Definition shape_record_list (shape : TopoDS_Shape)
  : list (string * list (string * string)) :=
  (flat_map edge_records (TopExp_Explorer_EDGE shape)
   ++ (if is_type shape TopAbs_WIRE then wire_records shape else [])
   ++ (if is_type shape TopAbs_FACE then face_records shape else []))%list.

Definition header_records : list (string * list (string * string)) :=
  [("SECTION", [("  2", "HEADER"); ("  9", "$ACADVER"); ("  1", "AC1015");
                ("  9", "$INSUNITS"); ("  70", "4")]);
   ("ENDSEC", []);
   ("SECTION", [("  2", "TABLES")]);
   ("TABLE", [("  2", "LAYER")]);
   ("LAYER", [("  2", "0"); ("  70", "0"); ("  62", "7"); ("  6", "CONTINUOUS")]);
   ("ENDTAB", []);
   ("ENDSEC", []);
   ("SECTION", [("  2", "ENTITIES")])].

Definition trailer_records : list (string * list (string * string)) :=
  [("ENDSEC", []); ("EOF", [])].

Definition dxf_records (shapes : list TopoDS_Shape)
  : list (string * list (string * string)) :=
  (header_records ++ flat_map shape_record_list shapes ++ trailer_records)%list.

(** The value [std::stod] gives back for a written number. *)
Definition reread (d : double) : result double := stod (Text.trim (put_double d)).

(** What the writer takes from an edge it writes as LINE or CIRCLE. *)
Inductive written_edge :=
  | WLine (p1 p2 : gp_Pnt)
  | WCircle (center : gp_Pnt) (radius : double).

Definition edge_geometry (edge : TopoDS_Shape) : option written_edge :=
  match BRep_Tool_Curve edge with
  | Some (Geom_Line l d, first, last) =>
      Some (WLine (Curve_Value (Geom_Line l d) first) (Curve_Value (Geom_Line l d) last))
  | Some (Geom_Circle position radius, _, _) =>
      Some (WCircle (Ax2_Location position) radius)
  | _ => None
  end.

(** The shape rebuilt from the record of a written edge. *)
Definition reread_edge (w : written_edge) : result TopoDS_Shape :=
  match w with
  | WLine p1 p2 =>
      x1 ← reread (Pnt_X p1); y1 ← reread (Pnt_Y p1);
      x2 ← reread (Pnt_X p2); y2 ← reread (Pnt_Y p2);
      Ok (MakeEdge_Pnts (mk_Pnt x1 y1 0%float) (mk_Pnt x2 y2 0%float))
  | WCircle center radius =>
      cx ← reread (Pnt_X center); cy ← reread (Pnt_Y center); r ← reread radius;
      Ok (MakeEdge_Curve (Geom_Circle (plane_axis cx cy) r)
            0%float (PrimFloat.mul 2%float M_PI))
  end.

(** What rebuilding makes of the written edges. *)
Definition reread_edges (edges : list TopoDS_Shape) : list (result TopoDS_Shape) :=
  map (λ e, match edge_geometry e with
            | Some w => reread_edge w
            | None => Ok TopoDS_Null
            end) edges.

(** The round trip of lines as a test: the text written for [shapes]
    parses, its LINE entities are as many as the edges, and each rebuilds
    to an edge whose end points are those of the input edge within
    [tol] on every coordinate. *)
Definition within (tol a b : double) : bool :=
  PrimFloat.leb (PrimFloat.abs (PrimFloat.sub a b)) tol.

Definition same_point (tol : double) (p q : gp_Pnt) : bool :=
  (within tol (Pnt_X p) (Pnt_X q) && within tol (Pnt_Y p) (Pnt_Y q)
   && within tol (Pnt_Z p) (Pnt_Z q))%bool.

Definition line_read_back (tol : double) (edge : TopoDS_Shape)
    (rebuilt : result TopoDS_Shape) : bool :=
  match edge_geometry edge, rebuilt with
  | Some (WLine p1 p2), Ok (MakeEdge_Pnts q1 q2) =>
      (same_point tol p1 q1 && same_point tol p2 q2)%bool
  | _, _ => false
  end.

Definition lines_read_back (tol : double) (shapes : list TopoDS_Shape) : bool :=
  match convertToDxf shapes with
  | Some text =>
      match parseDxfEntities text with
      | Ok entities =>
          let rebuilt :=
            map createLineFromDxf (filter (λ e, type e = "LINE") entities) in
          let edges := flat_map TopExp_Explorer_EDGE shapes in
          ((length rebuilt =? length edges)%nat
           && forallb (λ er, line_read_back tol er.1 er.2) (zip edges rebuilt))%bool
      | Throw _ => false
      end
  | None => false
  end.

End WriterRecords.

(** ** Predicates on scene trees *)

(** The shape field of a node, where a variable is called [shape]. *)
Abbreviation node_shape := shape (only parsing).

(** All the nodes of a tree, the root first. *)
Fixpoint nodes_of (n : ShapeNode) : list ShapeNode :=
  match n with
  | mk_ShapeNode _ _ cs _ => n :: flat_map nodes_of cs
  end.

(** A node never carries both a shape and children. *)
Definition never_both (n : ShapeNode) : Prop :=
  is_Some (shape n) → children n = [].

(** A node carries a shape or has at least one child. *)
Definition has_payload (n : ShapeNode) : Prop :=
  is_Some (shape n) ∨ children n ≠ [].

(** The chain of references that starts at [label] ends within [n] steps. *)
Fixpoint chain_ends (shapeTool : XCAFDoc_ShapeTool) (n : nat) (label : TDF_Label) : bool :=
  match GetReferredShape shapeTool label with
  | None => true
  | Some referred =>
      match n with
      | O => false
      | S n => chain_ends shapeTool n referred
      end
  end.

(** Neither [s] nor a component met while flattening it is the null shape. *)
Fixpoint non_null (s : TopoDS_Shape) : bool :=
  match s with
  | TopoDS_Null => false
  | TShape ty _ subs => if is_aggregate ty then forallb non_null subs else true
  | MakeCompound members => forallb non_null members
  | _ => true
  end.

(** No compound or composite solid met while flattening [s] is empty. *)
Fixpoint no_empty_aggregate (s : TopoDS_Shape) : bool :=
  match s with
  | TShape ty _ subs =>
      if is_aggregate ty
      then (negb (bool_decide (subs = [])) && forallb no_empty_aggregate subs)%bool
      else true
  | MakeCompound members =>
      (negb (bool_decide (members = [])) && forallb no_empty_aggregate members)%bool
  | _ => true
  end.

(** ** Sample inputs *)
Module Samples.

Definition tag (l : TDF_Label) : nat :=
  match l with Label t _ => t end.

Definition prototype : TDF_Label := Label 2 [].
Definition instance : TDF_Label := Label 1 [].
Definition part : TopoDS_Shape := TShape TopAbs_SOLID 7 [].

(** A document with one part and one instance that refers to it; both
    labels carry a name, neither a colour. [own] is the name attribute of
    the instance label. *)
Definition shapeTool (own : string) : XCAFDoc_ShapeTool :=
  {| FindName := λ l, match tag l with
                      | 1%nat => Some own
                      | 2%nat => Some "prototype"
                      | _ => None
                      end;
     GetReferredShape := λ l, match tag l with 1%nat => Some prototype | _ => None end;
     Search := λ s, match s with
                    | TShape _ 7%nat _ => Some prototype
                    | _ => None
                    end;
     GetShape := λ l, match tag l with
                      | 1%nat | 2%nat => Some part
                      | _ => None
                      end;
     IsFree := λ l, match tag l with 2%nat => true | _ => false end;
     IsSubShape := λ _, false;
     RootLabel := Label 0 [instance; prototype] |}.

Definition colorTool : XCAFDoc_ColorTool := {| GetColor := λ _ _, None |}.

Definition empty_fs : FileSystem := {| files := ∅; writable := true |}.

(** One LINE from (0, 0) to (5, 0), between the markers of a file. *)
Definition line_text : string :=
  text_lines ["0"; "SECTION"; "2"; "ENTITIES";
              "0"; "LINE"; " 8"; "0"; " 10"; "0.0"; " 20"; "0.0";
              " 11"; "5.0"; " 21"; "0.0";
              "0"; "ENDSEC"; "0"; "EOF"].

(** The same LINE with a text that is no number as its first x. *)
Definition bad_line_text : string :=
  text_lines ["0"; "SECTION"; "2"; "ENTITIES";
              "0"; "LINE"; " 8"; "0"; " 10"; "abc"; " 20"; "0.0";
              " 11"; "5.0"; " 21"; "0.0";
              "0"; "ENDSEC"; "0"; "EOF"].

(** A LINE that has no code 21, followed by the LINE from (0, 0) to
    (5, 0). *)
Definition skipped_line_text : string :=
  text_lines ["0"; "SECTION"; "2"; "ENTITIES";
              "0"; "LINE"; " 8"; "0"; " 10"; "1.0"; " 20"; "1.0"; " 11"; "2.0";
              "0"; "LINE"; " 8"; "0"; " 10"; "0.0"; " 20"; "0.0";
              " 11"; "5.0"; " 21"; "0.0";
              "0"; "ENDSEC"; "0"; "EOF"].

(** A closed LWPOLYLINE through (0, 0), (5, 0) and (5, 5). *)
Definition polyline_text : string :=
  text_lines ["0"; "LWPOLYLINE"; " 8"; "0"; " 90"; "3"; " 70"; "1";
              " 10"; "0"; " 20"; "0"; " 10"; "5"; " 20"; "0"; " 10"; "5"; " 20"; "5"].

Definition entities_of (content : string) : list DxfEntity :=
  match parseDxfEntities content with
  | Ok entities => entities
  | Throw _ => []
  end.

Definition pairs_of (content : string) : list (Z * string) :=
  match dxf_pairs (Text.getlines content) with
  | Ok pairs => pairs
  | Throw _ => []
  end.

Definition pnt (x y z : double) : gp_Pnt := mk_Pnt x y z.
Arguments pnt (x y z)%_float.

(** An edge in the plane z = 0, one in the plane z = 1, and an open wire
    of two edges through (0, 0, 0), (5, 0, 0) and (5, 5, 0). *)
Definition flat_edge : TopoDS_Shape :=
  MakeEdge_Pnts (pnt 0 0 0) (pnt 5 0 0)%float.
Definition raised_edge : TopoDS_Shape :=
  MakeEdge_Pnts (pnt 0 0 1) (pnt 5 0 1)%float.
Definition open_wire : TopoDS_Shape :=
  MakeWire [MakeEdge_Pnts (pnt 0 0 0) (pnt 5 0 0);
            MakeEdge_Pnts (pnt 5 0 0) (pnt 5 5 0)]%float.

End Samples.

(** ** Predicates on lines *)

(** The last character of a text. *)
Fixpoint last_char (s : string) : option ascii :=
  match s with
  | "" => None
  | String c "" => Some c
  | String _ r => last_char r
  end.

(** The first character of a text. *)
Definition first_char (s : string) : option ascii :=
  match s with
  | "" => None
  | String c _ => Some c
  end.

(** Every character of [s] is one of those the trimming code erases. *)
Fixpoint all_trim_chars (s : string) : bool :=
  match s with
  | "" => true
  | String c r => (Text.is_trim_char c && all_trim_chars r)%bool
  end.

(** ** Predicates on parsed entities *)

(** The layer of the last entity of [es], [prev] when there is none. *)
Definition last_layer (prev : string) (es : list DxfEntity) : string :=
  match last es with
  | Some e => layer e
  | None => prev
  end.

(** Each entity is on the layer its code 8 names and, when it has no code
    8, on the layer of the entity before it ([prev] for the first). *)
Fixpoint layers_chain (prev : string) (es : list DxfEntity) : Prop :=
  match es with
  | [] => True
  | e :: rest =>
      layer e = default prev (groupCodes e !! 8) ∧ layers_chain (layer e) rest
  end.

(** The colour field repeats code 62 and no value is kept under code 0. *)
Definition fields_agree (e : DxfEntity) : Prop :=
  entity_color e = default "" (groupCodes e !! 62) ∧ groupCodes e !! 0 = None.

(** What the variables of the parser satisfy between two pairs. *)
Definition fields_state (st : ParserState) : Prop :=
  Forall fields_agree (entities st)
  ∧ ∀ e, currentEntity st = Some e → fields_agree e.

Definition layers_state (st : ParserState) : Prop :=
  layers_chain "0" (entities st)
  ∧ currentLayer st =
    match currentEntity st with
    | Some e => default (last_layer "0" (entities st)) (groupCodes e !! 8)
    | None => last_layer "0" (entities st)
    end.

(** ** Predicates on the builders *)

(** [std::stoi] converts the value stored under [k], if there is one. *)
Definition int_field_ok (e : DxfEntity) (k : Z) : bool :=
  match groupCodes e !! k with
  | Some v => is_Ok (Text.stoi v)
  | None => true
  end.

(** Every [std::stoi] that [createPolylineFromDxf] performs succeeds: on
    code 70 of a POLYLINE, and on codes 10, 20 and 30. *)
Definition polyline_numbers_ok (e : DxfEntity) : bool :=
  ((if String.eqb (type e) "POLYLINE" then int_field_ok e 70 else true)
   && int_field_ok e 10 && int_field_ok e 20 && int_field_ok e 30)%bool.

(** The shapes the builders of [convertFromDxf] can return: an edge
    between two points of the plane z = 0, an edge on a circle of that
    plane with normal +z, and the face of an open polygon of three points
    or of a closed polygon of four. *)
Definition imported_shape (s : TopoDS_Shape) : Prop :=
  match s with
  | MakeEdge_Pnts p q => Pnt_Z p = 0%float ∧ Pnt_Z q = 0%float
  | MakeEdge_Curve (Geom_Circle position _) _ _ =>
      Pnt_Z (Ax2_Location position) = 0%float
      ∧ Ax2_Direction position = mk_Dir 0%float 0%float 1%float
  | MakeFace (MakePolygon pts closed) =>
      (length pts = 3%nat ∧ closed = false) ∨ (length pts = 4%nat ∧ closed = true)
  | _ => False
  end.

(** ** Shapes of a scene tree *)

(** The shapes met while flattening [s]: the components of compounds and
    composite solids are visited in order, any other shape is kept whole. *)
Fixpoint leaves (s : TopoDS_Shape) : list TopoDS_Shape :=
  match s with
  | TShape ty _ subs => if is_aggregate ty then flat_map leaves subs else [s]
  | MakeCompound members => flat_map leaves members
  | _ => [s]
  end.

(** The shapes below a label: those of its own shape when the label is a
    mesh node, else those below its child labels that are free shapes. *)
Fixpoint label_leaves (shapeTool : XCAFDoc_ShapeTool) (label : TDF_Label)
  : list TopoDS_Shape :=
  if isMeshNode label shapeTool
  then leaves (default TopoDS_Null (GetShape shapeTool label))
  else flat_map (λ child, if isFreeShape child shapeTool
                          then label_leaves shapeTool child else [])
         (ChildIterator label).

(** The shapes carried by the nodes of a tree, the root first. *)
Definition tree_shapes (n : ShapeNode) : list TopoDS_Shape :=
  omap node_shape (nodes_of n).

(** A node that carries a shape carries a colour text. *)
Definition shape_has_color (n : ShapeNode) : Prop :=
  is_Some (node_shape n) → is_Some (color n).

(** ** Export followed by import *)

Section RoundTripDefinitions.
Context `{!Externals}.

(** The angle [createArcFromDxf] computes from the text written for the
    parameter [a] of a trimmed circle. *)
Definition reread_angle (a : double) : result double :=
  degrees_to_radians (Text.trim (put_double (radians_to_degrees a))).

(** What the import rebuilds from the record written for an edge: nothing
    for an edge that has no record, else one edge in the plane z = 0. *)
Definition rebuilt_edge (edge : TopoDS_Shape) : result (list TopoDS_Shape) :=
  match BRep_Tool_Curve edge with
  | Some (Geom_Line l d, first, last) =>
      s ← reread_edge (WLine (Curve_Value (Geom_Line l d) first)
                             (Curve_Value (Geom_Line l d) last));
      Ok [s]
  | Some (Geom_Circle position radius, _, _) =>
      s ← reread_edge (WCircle (Ax2_Location position) radius);
      Ok [s]
  | Some (Geom_TrimmedCurve (Geom_Circle position radius) startAngle endAngle, _, _) =>
      cx ← reread (Pnt_X (Ax2_Location position));
      cy ← reread (Pnt_Y (Ax2_Location position));
      r ← reread radius;
      a ← reread_angle startAngle;
      b ← reread_angle endAngle;
      Ok [MakeEdge_Curve (Geom_Circle (plane_axis cx cy) r) a b]
  | _ => Ok []
  end.

End RoundTripDefinitions.

(** ** Colour along a chain of references *)

(** The colour a label carries itself: the first that is set among the
    surface, the curve and the generic colour. *)
Definition own_color (colorTool : XCAFDoc_ColorTool) (label : TDF_Label)
  : option Quantity_Color :=
  head (omap (GetColor colorTool label) colorTypes).

(** The label and the labels reached from it by following references,
    at most [n] of them. *)
Fixpoint reference_chain (shapeTool : XCAFDoc_ShapeTool) (n : nat) (label : TDF_Label)
  : list TDF_Label :=
  label ::
  match GetReferredShape shapeTool label, n with
  | Some referred, S n => reference_chain shapeTool n referred
  | _, _ => []
  end.

(** ** More sample inputs *)
Module Cases.
Import Samples.

Definition cr : string := String Text.CR "".

(** An indented LINE record whose lines end in CR LF. *)
Definition padded_lines : list (string * string * string) :=
  [("", "0", cr); ("  ", "LINE", cr); (" ", "10", cr); ("", "1.5", cr)].

(** A group code that does not fit an [int]. *)
Definition big_code_text : string := text_lines ["99999999999"; "LINE"].

(** A LINE on layer walls with colour 3, a CIRCLE that names no layer and
    an ARC on layer roof. *)
Definition layered_text : string :=
  text_lines ["0"; "LINE"; "8"; "walls"; "62"; "3";
              "0"; "CIRCLE"; "40"; "1";
              "0"; "ARC"; "8"; "roof"].

(** A record that gives code 10 twice. *)
Definition twice_records : list (string * list (string * string)) :=
  [("LINE", [(" 10", "1"); (" 10", "2"); (" 20", "3")])].

(** The face of the closed triangle (0, 0, 0), (5, 0, 0), (5, 5, 0). *)
Definition triangle : TopoDS_Shape :=
  MakeFace (MakePolygon [pnt 0 0 0; pnt 5 0 0; pnt 5 5 0] true).

(** A compound of the part and of a compound that holds a face and the
    part again. *)
Definition assembly : TopoDS_Shape :=
  MakeCompound [part; TShape TopAbs_COMPOUND 3 [TShape TopAbs_FACE 4 []; part]].

(** Only the prototype label is coloured: a curve and a generic colour. *)
Definition painted : XCAFDoc_ColorTool :=
  {| GetColor := λ l t,
       match tag l, t with
       | 2%nat, XCAFDoc_ColorCurv => Some (mk_Color 1 0 0)
       | 2%nat, XCAFDoc_ColorGen => Some (mk_Color 0 0 1)
       | _, _ => None
       end%float |}.

Section WithReference.
Local Existing Instance Reference.externals.

Definition exported : string :=
  default "" (convertToDxf [open_wire; triangle]).

Definition imported : ShapeNode :=
  match (convertFromDxf exported empty_fs).1 with
  | Ok (Some node) => node
  | _ => {| shape := None; color := None; children := []; name := "" |}
  end.

End WithReference.

End Cases.

(** * Properties *)

Section Properties.
Context `{!Externals}.

(** ** Label classifier *)

Lemma HasChild_false (label : TDF_Label) :
  HasChild label = false ↔ ChildIterator label = [].
Proof. unfold HasChild. destruct (ChildIterator label); split; congruence. Qed.

Lemma existsb_elem {A} (f : A → bool) (l : list A) :
  existsb f l = true ↔ ∃ x, x ∈ l ∧ f x = true.
Proof.
  rewrite existsb_exists. split; intros (x & Hx & Hf); exists x; split; auto;
    by apply list_elem_of_In.
Qed.

Lemma existsb_none {A} (f : A → bool) (l : list A) :
  existsb f l = false ↔ ∀ x, x ∈ l → f x = false.
Proof.
  split.
  - intros Hn x Hx. destruct (f x) eqn:Hf; [|done].
    assert (existsb f l = true) by (apply existsb_elem; eauto). congruence.
  - intros Hall. destruct (existsb f l) eqn:He; [|done].
    apply existsb_elem in He as (x & Hx & Hf). rewrite (Hall x Hx) in Hf. done.
Qed.

(** C4: a label is a mesh node exactly when it has no child label, or some
    child label is a sub-shape, or no child label is a free shape; so a
    label without children is a mesh node, and so is a label all of whose
    children are sub-shapes. *)
Theorem isMeshNode_spec (label : TDF_Label) (shapeTool : XCAFDoc_ShapeTool) :
  (isMeshNode label shapeTool = true ↔
     ChildIterator label = []
     ∨ (∃ child, child ∈ ChildIterator label ∧ IsSubShape shapeTool child = true)
     ∨ (∀ child, child ∈ ChildIterator label → isFreeShape child shapeTool = false))
  ∧ (ChildIterator label = [] → isMeshNode label shapeTool = true)
  ∧ ((∀ child, child ∈ ChildIterator label → IsSubShape shapeTool child = true) →
     isMeshNode label shapeTool = true).
Proof.
  assert (Hiff : isMeshNode label shapeTool = true ↔
     ChildIterator label = []
     ∨ (∃ child, child ∈ ChildIterator label ∧ IsSubShape shapeTool child = true)
     ∨ (∀ child, child ∈ ChildIterator label → isFreeShape child shapeTool = false)).
  { unfold isMeshNode.
    destruct (HasChild label) eqn:Hc; simpl.
    - assert (ChildIterator label ≠ []) as Hne.
      { intros E. apply HasChild_false in E. congruence. }
      destruct (existsb (IsSubShape shapeTool) (ChildIterator label)) eqn:Hs.
      + apply existsb_elem in Hs. tauto.
      + destruct (existsb (λ c, isFreeShape c shapeTool) (ChildIterator label)) eqn:Hf; simpl.
        * split; [done|]. intros [E | [Hsub | Hfree]].
          -- done.
          -- apply existsb_elem in Hsub. congruence.
          -- apply existsb_none in Hfree. congruence.
        * split; [|done]. intros _. right; right. by apply existsb_none.
    - apply HasChild_false in Hc. tauto. }
  split; [exact Hiff|]. split.
  - intros E. apply Hiff. by left.
  - intros Hall. apply Hiff.
    destruct (ChildIterator label) as [|c cs] eqn:E; [by left|].
    right; left. exists c. split; [by left|]. apply Hall. by left.
Qed.

(** ** Attribute resolver *)

Lemma getLabelName_reference fuel shapeTool label referred :
  GetReferredShape shapeTool label = Some referred →
  getLabelName (S fuel) shapeTool label = getLabelName fuel shapeTool referred.
Proof. intros Hr. simpl. by rewrite Hr. Qed.

Lemma getLabelName_plain fuel shapeTool label :
  GetReferredShape shapeTool label = None →
  getLabelName (S fuel) shapeTool label = Some (getLabelNameNoRef shapeTool label).
Proof. intros Hr. simpl. by rewrite Hr. Qed.

(** More fuel does not change a result. *)
Lemma getLabelName_more_fuel fuel shapeTool label name :
  getLabelName fuel shapeTool label = Some name →
  getLabelName (S fuel) shapeTool label = Some name.
Proof.
  revert label. induction fuel as [|fuel IH]; intros label; [done|].
  intros Hn. change (getLabelName (S (S fuel)) shapeTool label) with
    (match GetReferredShape shapeTool label with
     | Some r => getLabelName (S fuel) shapeTool r
     | None => Some (getLabelNameNoRef shapeTool label)
     end).
  simpl in Hn. destruct (GetReferredShape shapeTool label); [by apply IH|done].
Qed.

(** C5 (as the code has it): name resolution tests first whether the label
    is a reference and then recurses onto the referred label; the name
    attribute is read only on a label that is not a reference. The name a
    label resolves to therefore does not depend on the name attributes of
    reference labels: two shape tools with the same references and the
    same names on the labels that are not references resolve every label
    alike, and a reference label resolves to what its referred label
    resolves to. *)
Theorem getLabelName_ignores_reference_names
    (st st' : XCAFDoc_ShapeTool)
    (Hrefs : ∀ l, GetReferredShape st' l = GetReferredShape st l)
    (Hnames : ∀ l, GetReferredShape st l = None → FindName st' l = FindName st l) :
  ∀ fuel label,
    getLabelName fuel st' label = getLabelName fuel st label
    ∧ (∀ referred, GetReferredShape st label = Some referred →
         getLabelName (S fuel) st label = getLabelName fuel st referred)
    ∧ (GetReferredShape st label = None →
         getLabelName (S fuel) st label = Some (default "" (FindName st label))).
Proof.
  intros fuel label. split; [|split].
  - revert label. induction fuel as [|fuel IH]; intros label; [done|].
    simpl. rewrite Hrefs. destruct (GetReferredShape st label) eqn:Hr.
    + apply IH.
    + unfold getLabelNameNoRef. by rewrite Hnames.
  - intros referred Hr. by apply getLabelName_reference.
  - intros Hr. rewrite getLabelName_plain by done.
    unfold getLabelNameNoRef. by destruct (FindName st label).
Qed.

(** Colour resolution, in contrast, looks at the label itself first. *)
Lemma getLabelColor_own_first fuel label shapeTool colorTool color0 color :
  getLabelColorNoRef label colorTool color0 = (true, color) →
  getLabelColor (S fuel) label shapeTool colorTool color0 = Some (true, color).
Proof. intros Hc. simpl. by rewrite Hc. Qed.

Lemma first_color_not_found colorTool label types color0 color :
  first_color colorTool label types color0 = (false, color) → color = color0.
Proof.
  induction types as [|t ts IH]; simpl.
  - congruence.
  - destruct (GetColor colorTool label t); [congruence|exact IH].
Qed.

Lemma getLabelColor_not_found fuel label shapeTool colorTool color0 color :
  getLabelColor fuel label shapeTool colorTool color0 = Some (false, color) →
  color = color0.
Proof.
  revert label color0. induction fuel as [|fuel IH]; intros label color0; [done|].
  simpl. destruct (getLabelColorNoRef label colorTool color0) as [[] c] eqn:Hc; [done|].
  apply first_color_not_found in Hc. subst c.
  destruct (GetReferredShape shapeTool label); [apply IH|congruence].
Qed.

(** C6 (what the code does): the node of a label for which colour
    resolution finds nothing has a colour field that is present and holds
    the empty string; the field of a label node is never absent. *)
Theorem initLabelNode_color_present fuel label shapeTool colorTool node :
  initLabelNode fuel label shapeTool colorTool = Some node →
  (∃ c, color node = Some c)
  ∧ (∀ c, getLabelColor fuel label shapeTool colorTool "" = Some (false, c) →
       color node = Some "").
Proof.
  unfold initLabelNode. intros Hn.
  destruct (getLabelColor fuel label shapeTool colorTool "") as [[found c]|] eqn:Hc;
    [|done].
  simpl in Hn. destruct (getLabelName fuel shapeTool label) as [n|]; [|done].
  simpl in Hn. injection Hn as <-. simpl. split; [eauto|].
  intros c' Hc'. injection Hc' as -> <-.
  apply getLabelColor_not_found in Hc. by subst c.
Qed.

(** ** Temporary files *)

Lemma convertFromIges_removes_temp_file fuel buffer fs :
  writable fs = true →
  files (convertFromIges fuel buffer fs).2 !! "temp.igs" = None.
Proof.
  intros Hw. unfold convertFromIges, writeBufferToFile, ofstream_write, std_remove.
  rewrite Hw. simpl.
  destruct (IGES_ReadFile _); simpl;
    [destruct (IGES_Transfer _); simpl|]; apply lookup_delete_eq.
Qed.

Lemma convertFromDxf_removes_temp_file buffer fs :
  writable fs = true →
  files (convertFromDxf buffer fs).2 !! "temp.dxf" = None.
Proof.
  intros Hw. unfold convertFromDxf, writeBufferToFile, ofstream_write, std_remove.
  rewrite Hw. simpl. rewrite lookup_insert_eq. simpl. apply lookup_delete_eq.
Qed.

(** C7 (what the code does): [convertFromStl] never removes its temporary
    file: after the call, whether the reader failed or succeeded, the file
    temp.stl exists and holds the input buffer. *)
Theorem convertFromStl_keeps_temp_file buffer fs :
  writable fs = true →
  files (convertFromStl buffer fs).2 !! "temp.stl" = Some buffer.
Proof.
  intros Hw. unfold convertFromStl, writeBufferToFile, ofstream_write.
  rewrite Hw. simpl.
  destruct (Stl_Read _); simpl; apply lookup_insert_eq.
Qed.

(** ** Scene tree builder *)

Lemma TopoDS_Shape_nested_ind (P : TopoDS_Shape → Prop) :
  P TopoDS_Null →
  (∀ ty id subs, Forall P subs → P (TShape ty id subs)) →
  (∀ p1 p2, P (MakeEdge_Pnts p1 p2)) →
  (∀ c u1 u2, P (MakeEdge_Curve c u1 u2)) →
  (∀ edges, Forall P edges → P (MakeWire edges)) →
  (∀ pts closed, P (MakePolygon pts closed)) →
  (∀ wire, P wire → P (MakeFace wire)) →
  (∀ members, Forall P members → P (MakeCompound members)) →
  ∀ s, P s.
Proof.
  intros Hnull Hts Hep Hec Hw Hp Hf Hc.
  fix IH 1. intros [|ty id subs|p1 p2|c u1 u2|edges|pts closed|wire|members].
  - exact Hnull.
  - apply Hts. induction subs as [|x xs IHxs]; constructor; [apply IH|exact IHxs].
  - apply Hep.
  - apply Hec.
  - apply Hw. induction edges as [|x xs IHxs]; constructor; [apply IH|exact IHxs].
  - apply Hp.
  - apply Hf, IH.
  - apply Hc. induction members as [|x xs IHxs]; constructor; [apply IH|exact IHxs].
Qed.

Lemma TDF_Label_nested_ind (P : TDF_Label → Prop) :
  (∀ t cs, Forall P cs → P (Label t cs)) → ∀ l, P l.
Proof.
  intros Hl. fix IH 1. intros [t cs]. apply Hl.
  induction cs as [|x xs IHxs]; constructor; [apply IH|exact IHxs].
Qed.

Lemma nodes_of_unfold (n : ShapeNode) :
  nodes_of n = n :: flat_map nodes_of (children n).
Proof. by destruct n. Qed.

Lemma initShapeNode_leaf fuel shape shapeTool colorTool node :
  initShapeNode fuel shape shapeTool colorTool = Some node →
  is_Some (node_shape node) ∧ children node = [].
Proof.
  unfold initShapeNode. intros Hn.
  destruct (getShapeColor fuel shape shapeTool colorTool "") as [[? c]|]; [|done].
  simpl in Hn. destruct (getShapeName fuel shapeTool shape); [|done].
  simpl in Hn. injection Hn as <-. simpl. eauto.
Qed.

Lemma initGroupNode_empty fuel shape shapeTool node :
  initGroupNode fuel shape shapeTool = Some node →
  node_shape node = None ∧ children node = [].
Proof.
  unfold initGroupNode. intros Hn.
  destruct (getShapeName fuel shapeTool shape); [|done].
  simpl in Hn. by injection Hn as <-.
Qed.

Lemma initLabelNode_empty fuel label shapeTool colorTool node :
  initLabelNode fuel label shapeTool colorTool = Some node →
  node_shape node = None ∧ children node = [].
Proof.
  unfold initLabelNode. intros Hn.
  destruct (getLabelColor fuel label shapeTool colorTool "") as [[? c]|]; [|done].
  simpl in Hn. destruct (getLabelName fuel shapeTool label); [|done].
  simpl in Hn. by injection Hn as <-.
Qed.

(** The nodes of a group or label node once its children are attached. *)
Lemma nodes_of_push_children (P : ShapeNode → Prop) node nodes :
  node_shape node = None → children node = [] →
  P (push_children node nodes) →
  Forall P (flat_map nodes_of nodes) →
  Forall P (nodes_of (push_children node nodes)).
Proof.
  intros Hs Hc HP Hall. rewrite nodes_of_unfold. constructor; [done|].
  simpl. by rewrite Hc.
Qed.

Lemma never_both_push_children node nodes :
  node_shape node = None → never_both (push_children node nodes).
Proof. intros Hs [x Hx]. simpl in Hx. congruence. Qed.

Lemma has_payload_push_children node nodes :
  children node = [] → nodes ≠ [] → has_payload (push_children node nodes).
Proof. intros Hc Hn. right. simpl. by rewrite Hc. Qed.

Lemma parse_components_nodes (P : ShapeNode → Prop) parse subShapes nodes :
  parse_components parse subShapes = Some nodes →
  Forall (λ s, ∀ n, parse s = Some n → Forall P (nodes_of n)) subShapes →
  Forall P (flat_map nodes_of nodes) ∧ (subShapes ≠ [] → nodes ≠ []).
Proof.
  revert nodes. induction subShapes as [|s ss IH]; intros nodes Hp Hall.
  - injection Hp as <-. split; [constructor|done].
  - simpl in Hp. destruct (parse s) as [n|] eqn:Hs; [|done]. simpl in Hp.
    destruct (parse_components parse ss) as [ns|] eqn:Hss; [|done]. simpl in Hp.
    injection Hp as <-. inversion Hall as [|? ? Hhd Htl]; subst.
    split; [|done]. simpl. apply Forall_app. split; [by apply Hhd|].
    by apply (IH ns).
Qed.

Lemma parseShape_nodes fuel shapeTool colorTool shape :
  ∀ node, parseShape fuel shape shapeTool colorTool = Some node →
    Forall never_both (nodes_of node)
    ∧ (no_empty_aggregate shape = true → Forall has_payload (nodes_of node)).
Proof.
  assert (Hleaf : ∀ shape node,
    initShapeNode fuel shape shapeTool colorTool = Some node →
    Forall never_both (nodes_of node) ∧ Forall has_payload (nodes_of node)).
  { intros sh node Hn. apply initShapeNode_leaf in Hn as [Hs Hc].
    rewrite nodes_of_unfold, Hc. simpl.
    split; (constructor; [|constructor]); [by intros _|by left]. }
  assert (Hgroup : ∀ shape components node, Forall (λ s, ∀ node,
      parseShape fuel s shapeTool colorTool = Some node →
      Forall never_both (nodes_of node)
      ∧ (no_empty_aggregate s = true → Forall has_payload (nodes_of node))) components →
    (node0 ← initGroupNode fuel shape shapeTool;
     nodes ← parse_components (λ s, parseShape fuel s shapeTool colorTool) components;
     Some (push_children node0 nodes)) = Some node →
    Forall never_both (nodes_of node)
    ∧ ((negb (bool_decide (components = [])) && forallb no_empty_aggregate components)%bool
         = true → Forall has_payload (nodes_of node))).
  { intros sh components node IH Hn.
    destruct (initGroupNode fuel sh shapeTool) as [node0|] eqn:Hg; [|done].
    simpl in Hn. apply initGroupNode_empty in Hg as [Hs Hc].
    destruct (parse_components _ components) as [nodes|] eqn:Hp; [|done].
    simpl in Hn. injection Hn as <-. split.
    - apply nodes_of_push_children; [done|done|by apply never_both_push_children|].
      eapply parse_components_nodes; [exact Hp|].
      eapply Forall_impl; [exact IH|]. intros s Hs' n Hn. by apply Hs'.
    - intros Hne. apply andb_prop in Hne as [Hne Hsub].
      apply negb_true_iff, bool_decide_eq_false in Hne.
      rewrite forallb_forall in Hsub.
      assert (Forall has_payload (flat_map nodes_of nodes) ∧ (components ≠ [] → nodes ≠ []))
        as [Hall Hnn].
      { eapply parse_components_nodes; [exact Hp|].
        apply Forall_forall. intros s Hin n Hn.
        rewrite Forall_forall in IH. apply (IH s Hin n Hn).
        apply Hsub. by apply list_elem_of_In. }
      apply nodes_of_push_children; [done|done| |done].
      apply has_payload_push_children; auto. }
  induction shape as [|ty id subs IH|p1 p2|c u1 u2|edges IH|pts closed|wire IH|members IH]
    using TopoDS_Shape_nested_ind; intros node Hn; simpl in Hn.
  - done.
  - destruct (is_aggregate ty) eqn:Hty.
    + apply (Hgroup _ _ _ IH) in Hn as [H1 H2]. split; [done|].
      simpl. by rewrite Hty.
    + apply Hleaf in Hn as [H1 H2]. by split.
  - apply Hleaf in Hn as [H1 H2]. by split.
  - apply Hleaf in Hn as [H1 H2]. by split.
  - apply Hleaf in Hn as [H1 H2]. by split.
  - apply Hleaf in Hn as [H1 H2]. by split.
  - apply Hleaf in Hn as [H1 H2]. by split.
  - apply (Hgroup _ _ _ IH) in Hn as [H1 H2]. by split.
Qed.

Lemma parse_children_nodes (P : ShapeNode → Prop) parse shapeTool labels nodes :
  parse_children parse shapeTool labels = Some nodes →
  Forall (λ l, ∀ n, parse l = Some n → Forall P (nodes_of n)) labels →
  Forall P (flat_map nodes_of nodes)
  ∧ ((∃ l, l ∈ labels ∧ isFreeShape l shapeTool = true) → nodes ≠ []).
Proof.
  revert nodes. induction labels as [|l ls IH]; intros nodes Hp Hall.
  - injection Hp as <-. split; [constructor|].
    intros (l & Hl & _). by apply elem_of_nil in Hl.
  - inversion Hall as [|? ? Hhd Htl]; subst. simpl in Hp.
    destruct (isFreeShape l shapeTool) eqn:Hfree.
    + destruct (parse l) as [n|] eqn:Hl; [|done]. simpl in Hp.
      destruct (parse_children parse shapeTool ls) as [ns|] eqn:Hls; [|done].
      simpl in Hp. injection Hp as <-. split; [|done].
      simpl. apply Forall_app. split; [by apply Hhd|]. by apply (IH ns).
    + destruct (IH nodes Hp Htl) as [H1 H2]. split; [done|].
      intros (l' & Hl' & Hf'). apply H2. exists l'. split; [|done].
      apply elem_of_cons in Hl' as [->|]; [congruence|done].
Qed.

Lemma isMeshNode_false_free_child label shapeTool :
  isMeshNode label shapeTool = false →
  ∃ l, l ∈ ChildIterator label ∧ isFreeShape l shapeTool = true.
Proof.
  unfold isMeshNode. destruct (negb (HasChild label)); [done|].
  destruct (existsb (IsSubShape shapeTool) _); [done|].
  destruct (existsb (λ c, isFreeShape c shapeTool) _) eqn:Hf; [|done].
  intros _. by apply existsb_elem in Hf.
Qed.

Lemma parseLabelToNode_nodes fuel shapeTool colorTool :
  ∀ label node, parseLabelToNode fuel label shapeTool colorTool = Some node →
    Forall never_both (nodes_of node)
    ∧ ((∀ l s, GetShape shapeTool l = Some s → no_empty_aggregate s = true) →
       Forall has_payload (nodes_of node)).
Proof.
  induction label as [t cs IH] using TDF_Label_nested_ind. intros node Hn.
  simpl in Hn. destruct (isMeshNode (Label t cs) shapeTool) eqn:Hmesh.
  - destruct (parseShape_nodes _ _ _ _ _ Hn) as [H1 H2]. split; [done|].
    intros Hne. apply H2.
    destruct (GetShape shapeTool (Label t cs)) as [s|] eqn:Hs; [|done].
    simpl. by apply (Hne _ _ Hs).
  - destruct (initLabelNode fuel (Label t cs) shapeTool colorTool) as [node0|] eqn:Hi;
      [|done].
    simpl in Hn. apply initLabelNode_empty in Hi as [Hs Hc].
    destruct (parse_children _ shapeTool cs) as [nodes|] eqn:Hp; [|done].
    simpl in Hn. injection Hn as <-. split.
    + apply nodes_of_push_children; [done|done|by apply never_both_push_children|].
      eapply parse_children_nodes; [exact Hp|].
      eapply Forall_impl; [exact IH|]. intros l Hl n Hn. by apply Hl.
    + intros Hne.
      assert (Forall has_payload (flat_map nodes_of nodes)
              ∧ ((∃ l, l ∈ cs ∧ isFreeShape l shapeTool = true) → nodes ≠ []))
        as [Hall Hnn].
      { eapply parse_children_nodes; [exact Hp|].
        eapply Forall_impl; [exact IH|]. intros l Hl n Hn. by apply Hl. }
      apply nodes_of_push_children; [done|done| |done].
      apply has_payload_push_children; [done|].
      apply Hnn. by apply (isMeshNode_false_free_child (Label t cs)).
Qed.

(** C8 (as the code has it): in a tree produced by scene-graph extraction
    no node carries both a shape and children (leaf nodes carry a shape and
    no child, group and label nodes carry no shape). When the root label
    has a free-shape child and no compound or composite solid of the
    document is empty, every node moreover carries a shape or has at least
    one child. *)
Theorem scene_tree_nodes fuel shapeTool colorTool root :
  parseRootLabelToNode fuel shapeTool colorTool = Some root →
  Forall never_both (nodes_of root)
  ∧ ((∃ l, l ∈ ChildIterator (RootLabel shapeTool) ∧ isFreeShape l shapeTool = true) →
     (∀ l s, GetShape shapeTool l = Some s → no_empty_aggregate s = true) →
     Forall has_payload (nodes_of root)).
Proof.
  unfold parseRootLabelToNode. intros Hn.
  destruct (initLabelNode fuel (RootLabel shapeTool) shapeTool colorTool)
    as [node0|] eqn:Hi; [|done].
  simpl in Hn. apply initLabelNode_empty in Hi as [Hs Hc].
  destruct (parse_children _ shapeTool _) as [nodes|] eqn:Hp; [|done].
  simpl in Hn. injection Hn as <-. split.
  - apply nodes_of_push_children; [done|done|by apply never_both_push_children|].
    eapply parse_children_nodes; [exact Hp|].
    apply Forall_forall. intros l _ n Hl.
    by apply (parseLabelToNode_nodes fuel shapeTool colorTool) in Hl as [? _].
  - intros Hfree Hne.
    assert (Forall has_payload (flat_map nodes_of nodes)
            ∧ ((∃ l, l ∈ ChildIterator (RootLabel shapeTool)
                     ∧ isFreeShape l shapeTool = true) → nodes ≠ []))
      as [Hall Hnn].
    { eapply parse_children_nodes; [exact Hp|].
      apply Forall_forall. intros l _ n Hl.
      apply (parseLabelToNode_nodes fuel shapeTool colorTool) in Hl as [_ Hl].
      by apply Hl. }
    apply nodes_of_push_children; [done|done| |done].
    apply has_payload_push_children; [done|]. by apply Hnn.
Qed.

(** ** Enough fuel gives the tree *)

Lemma getLabelName_returns n shapeTool label :
  chain_ends shapeTool n label = true →
  is_Some (getLabelName (S n) shapeTool label).
Proof.
  revert label. induction n as [|n IH]; intros label Hc;
    destruct (GetReferredShape shapeTool label) as [r|] eqn:Hr;
    rewrite ?(getLabelName_reference _ _ _ _ Hr), ?(getLabelName_plain _ _ _ Hr);
    eauto; simpl in Hc; rewrite Hr in Hc; [done|by apply IH].
Qed.

Lemma getLabelColor_unfold fuel label shapeTool colorTool color0 :
  getLabelColor (S fuel) label shapeTool colorTool color0 =
  match getLabelColorNoRef label colorTool color0 with
  | (true, color) => Some (true, color)
  | (false, color) =>
      match GetReferredShape shapeTool label with
      | Some referredShape => getLabelColor fuel referredShape shapeTool colorTool color
      | None => Some (false, color)
      end
  end.
Proof. done. Qed.

Lemma getLabelColor_returns n label shapeTool colorTool color0 :
  chain_ends shapeTool n label = true →
  is_Some (getLabelColor (S n) label shapeTool colorTool color0).
Proof.
  revert label color0. induction n as [|n IH]; intros label color0 Hc;
    rewrite getLabelColor_unfold;
    (destruct (getLabelColorNoRef label colorTool color0) as [[] c]; [by eexists|]);
    simpl in Hc;
    (destruct (GetReferredShape shapeTool label) as [r|]; [|by eexists]).
  - done.
  - by apply IH.
Qed.

Section Returns.
Variables (n : nat) (shapeTool : XCAFDoc_ShapeTool) (colorTool : XCAFDoc_ColorTool).
Hypothesis chains : ∀ l, chain_ends shapeTool n l = true.

Lemma initLabelNode_returns label :
  is_Some (initLabelNode (S n) label shapeTool colorTool).
Proof.
  unfold initLabelNode.
  destruct (getLabelColor_returns n label shapeTool colorTool "" (chains label))
    as [[found c] ->].
  destruct (getLabelName_returns n shapeTool label (chains label)) as [name ->].
  simpl. eauto.
Qed.

Lemma getShapeName_returns s : is_Some (getShapeName (S n) shapeTool s).
Proof.
  unfold getShapeName. destruct (Search shapeTool s) as [l|]; [|eauto].
  apply getLabelName_returns, chains.
Qed.

Lemma initShapeNode_returns s :
  is_Some (initShapeNode (S n) s shapeTool colorTool).
Proof.
  unfold initShapeNode.
  assert (is_Some (getShapeColor (S n) s shapeTool colorTool "")) as [[found c] ->].
  { unfold getShapeColor. destruct (Search shapeTool s) as [l|]; [|eauto].
    apply getLabelColor_returns, chains. }
  destruct (getShapeName_returns s) as [name ->]. simpl. eauto.
Qed.

Lemma parse_components_returns parse subShapes :
  Forall (λ s, is_Some (parse s)) subShapes →
  is_Some (parse_components parse subShapes).
Proof.
  induction 1 as [|s ss [node Hs] _ [nodes IH]]; [by eexists|].
  simpl. rewrite Hs, IH. simpl. eauto.
Qed.

Lemma parseShape_returns s :
  non_null s = true → is_Some (parseShape (S n) s shapeTool colorTool).
Proof.
  assert (Hgroup : ∀ s components,
    Forall (λ c, non_null c = true →
                 is_Some (parseShape (S n) c shapeTool colorTool)) components →
    forallb non_null components = true →
    is_Some (node ← initGroupNode (S n) s shapeTool;
             nodes ← parse_components
                       (λ c, parseShape (S n) c shapeTool colorTool) components;
             Some (push_children node nodes))).
  { intros sh components IH Hnn. unfold initGroupNode.
    destruct (getShapeName_returns sh) as [name ->]. simpl.
    destruct (parse_components_returns
                (λ c, parseShape (S n) c shapeTool colorTool) components) as [nodes ->].
    - rewrite forallb_forall in Hnn. rewrite Forall_forall in IH.
      apply Forall_forall. intros c Hc. apply IH; [done|].
      by apply Hnn, list_elem_of_In.
    - simpl. eauto. }
  induction s as [|ty id subs IH|p1 p2|c u1 u2|edges IH|pts closed|wire IH|members IH]
    using TopoDS_Shape_nested_ind; intros Hnn; simpl in *; try done;
    try apply initShapeNode_returns.
  - destruct (is_aggregate ty); [by apply Hgroup|apply initShapeNode_returns].
  - by apply Hgroup.
Qed.

Hypothesis shapes : ∀ l s, GetShape shapeTool l = Some s → non_null s = true.

Lemma parse_children_returns parse labels :
  Forall (λ l, isFreeShape l shapeTool = true → is_Some (parse l)) labels →
  is_Some (parse_children parse shapeTool labels).
Proof.
  induction 1 as [|l ls Hl _ [nodes IH]]; [by eexists|].
  simpl. destruct (isFreeShape l shapeTool); [|eauto].
  destruct (Hl eq_refl) as [node ->]. rewrite IH. simpl. eauto.
Qed.

Lemma parseLabelToNode_returns label :
  isFreeShape label shapeTool = true →
  is_Some (parseLabelToNode (S n) label shapeTool colorTool).
Proof.
  induction label as [t cs IH] using TDF_Label_nested_ind. intros Hfree.
  simpl. destruct (isMeshNode (Label t cs) shapeTool).
  - unfold isFreeShape in Hfree. apply andb_prop in Hfree as [Hs _].
    apply bool_decide_eq_true in Hs as [s Hs]. rewrite Hs. simpl.
    by apply parseShape_returns, (shapes (Label t cs)).
  - destruct (initLabelNode_returns (Label t cs)) as [node ->]. simpl.
    destruct (parse_children_returns
                (λ c, parseLabelToNode (S n) c shapeTool colorTool) cs IH)
      as [nodes ->].
    simpl. eauto.
Qed.

(** With fuel beyond the length of every chain of references, and no null
    shape in the document, the extraction returns a tree. *)
Lemma parseRootLabelToNode_returns :
  is_Some (parseRootLabelToNode (S n) shapeTool colorTool).
Proof.
  unfold parseRootLabelToNode.
  destruct (initLabelNode_returns (RootLabel shapeTool)) as [node ->]. simpl.
  destruct (parse_children_returns
              (λ c, parseLabelToNode (S n) c shapeTool colorTool)
              (ChildIterator (RootLabel shapeTool))) as [nodes ->].
  - apply Forall_forall. intros l _. apply parseLabelToNode_returns.
  - simpl. eauto.
Qed.

End Returns.

(** ** Polylines *)

Lemma filter_key_unique (k : Z) (l : list (Z * string)) :
  NoDup l.*1 → (length (filter (λ p, p.1 = k) l) ≤ 1)%nat.
Proof.
  induction l as [|[k' v] l IH]; intros Hnd; [simpl; lia|].
  simpl in Hnd. apply NoDup_cons in Hnd as [Hk' Hnd].
  rewrite filter_cons. case_decide as Hk; simpl in *.
  - subst k'. assert (filter (λ p : Z * string, p.1 = k) l = []) as ->; [|simpl; lia].
    destruct (filter (λ p : Z * string, p.1 = k) l) as [|[k2 v2] r] eqn:Hf; [done|].
    assert ((k2, v2) ∈ filter (λ p : Z * string, p.1 = k) l) as Hin
      by (rewrite Hf; by left).
    apply list_elem_of_filter in Hin as [Heq Hin]. simpl in Heq. subst k2.
    exfalso. apply Hk'. apply list_elem_of_fmap. by exists (k, v2).
  - by apply IH.
Qed.

Lemma map_items_key_unique (k : Z) (m : gmap Z string) :
  (length (filter (λ p, p.1 = k) (map_items m)) ≤ 1)%nat.
Proof.
  apply filter_key_unique. unfold map_items.
  rewrite merge_sort_Permutation. apply NoDup_fst_map_to_list.
Qed.

Lemma collect_codes_lengths items xs ys zs xs' ys' zs' :
  collect_codes items (xs, ys, zs) = Ok (xs', ys', zs') →
  length xs' = (length xs + length (filter (λ p : Z * string, p.1 = 10%Z) items))%nat
  ∧ length ys' = (length ys + length (filter (λ p : Z * string, p.1 = 20%Z) items))%nat.
Proof.
  revert xs ys zs. induction items as [|[k v] items IH]; intros xs ys zs Hc.
  - injection Hc as <- <- <-. simpl. lia.
  - simpl in Hc. rewrite !filter_cons. simpl.
    destruct (Z.eqb_spec k 10) as [->|H10].
    { destruct (Text.stoi v); [|done]. simpl in Hc. apply IH in Hc as [-> ->].
      rewrite length_app. simpl. repeat case_decide; try lia; simpl; lia. }
    destruct (Z.eqb_spec k 20) as [->|H20].
    { destruct (Text.stoi v); [|done]. simpl in Hc. apply IH in Hc as [-> ->].
      rewrite length_app. simpl. repeat case_decide; try lia; simpl; lia. }
    destruct (Z.eqb_spec k 30) as [->|H30].
    { destruct (Text.stoi v); [|done]. simpl in Hc. apply IH in Hc as [-> ->].
      repeat case_decide; try lia; simpl; lia. }
    apply IH in Hc as [-> ->]. repeat case_decide; try lia; simpl; lia.
Qed.

Lemma points_2d_length xs ys : (length (points_2d xs ys) ≤ length xs)%nat.
Proof.
  revert ys. induction xs as [|x xs IH]; intros [|y ys]; simpl; try lia.
  specialize (IH ys). lia.
Qed.

Lemma points_3d_length xs ys zs : (length (points_3d xs ys zs) ≤ length xs)%nat.
Proof.
  revert ys zs. induction xs as [|x xs IH]; intros [|y ys] [|z zs]; simpl; try lia.
  specialize (IH ys zs). lia.
Qed.

(** C3 (what the code does): an entity keeps one value per group code, so
    the reconstructor finds at most one x and one y, never reaches the two
    points a wire needs, and returns the null shape for every POLYLINE or
    LWPOLYLINE entity: no wire, closed or open, is ever built. *)
Theorem createPolylineFromDxf_never_builds_a_wire entity shape :
  createPolylineFromDxf entity = Ok shape →
  shape = TopoDS_Null ∧ wire_edge_count shape = None.
Proof.
  unfold createPolylineFromDxf. intros Hp.
  destruct (polyline_is3D entity) as [is3D|]; [|done]. simpl in Hp.
  destruct (collect_codes _ _) as [[[xs ys] zs]|] eqn:Hc; [|done]. simpl in Hp.
  apply collect_codes_lengths in Hc as [Hx _]. simpl in Hx.
  pose proof (map_items_key_unique 10 (groupCodes entity)) as H10.
  assert (length (if is3D then points_3d xs ys zs else points_2d xs ys) ≤ 1)%nat as Hlen.
  { destruct is3D.
    - pose proof (points_3d_length xs ys zs). lia.
    - pose proof (points_2d_length xs ys). lia. }
  destruct (if is3D then points_3d xs ys zs else points_2d xs ys) as [|p [|q r]];
    simpl in Hp, Hlen; [by injection Hp as <-|by injection Hp as <-|lia].
Qed.

(** ** Interchange parser *)

Lemma parse_loop_pairs lines st :
  parse_loop lines st =
  match dxf_pairs lines with
  | Ok ps => Ok (run_pairs ps st)
  | Throw e => Throw e
  end.
Proof.
  remember (length lines) as n eqn:Hn.
  revert lines st Hn. induction n as [n IH] using lt_wf_ind.
  intros [|l rest] st Hn; [done|]. simpl in Hn. simpl.
  destruct (String.eqb (Text.trim l) ""); [apply (IH (length rest)); [lia|done]|].
  destruct (is_code_line (Text.trim l)); [|apply (IH (length rest)); [lia|done]].
  destruct (Text.stoi (Text.trim l)) as [k|e]; [|done].
  destruct rest as [|v rest']; [done|].
  rewrite (IH (length rest')); [|simpl in Hn; lia|done].
  by destruct (dxf_pairs rest').
Qed.

Lemma push_current_on_pair_zero st v :
  push_current (on_pair st 0 v) =
  (push_current st ++ [set_layer (new_DxfEntity v) (currentLayer st)])%list.
Proof. done. Qed.

Lemma types_on_pair_nonzero st k v :
  k ≠ 0 → map type (push_current (on_pair st k v)) = map type (push_current st).
Proof.
  intros Hk. unfold on_pair. destruct (Z.eqb_spec k 0); [done|].
  destruct st as [ents [e|] l]; [|done].
  unfold push_current. simpl. rewrite !map_app. simpl. by destruct (k =? 62).
Qed.

Lemma types_run_pairs ps st :
  map type (push_current (run_pairs ps st)) =
  (map type (push_current st) ++ (filter (λ p, p.1 = 0) ps).*2)%list.
Proof.
  revert st. induction ps as [|[k v] ps IH]; intros st.
  - simpl. by rewrite app_nil_r.
  - change (run_pairs ((k, v) :: ps) st) with (run_pairs ps (on_pair st k v)).
    rewrite IH, filter_cons. simpl. case_decide as Hk.
    + subst k. rewrite push_current_on_pair_zero, map_app. simpl.
      by rewrite <- app_assoc.
    + by rewrite types_on_pair_nonzero.
Qed.

Lemma parseDxfEntities_pairs content :
  parseDxfEntities content =
  match dxf_pairs (Text.getlines content) with
  | Ok ps => Ok (push_current (run_pairs ps initial_state))
  | Throw e => Throw e
  end.
Proof.
  unfold parseDxfEntities. rewrite parse_loop_pairs.
  by destruct (dxf_pairs _).
Qed.

Lemma entity_shape_no_builder entity :
  is_geometric_type (type entity) = false → entity_shape entity = Ok TopoDS_Null.
Proof.
  unfold is_geometric_type, entity_shape. intros Hg.
  repeat (apply orb_false_elim in Hg as [Hg ?]).
  destruct (String.eqb (type entity) "POLYLINE" || String.eqb (type entity) "LWPOLYLINE")%bool
    eqn:Hp; [done|].
  by repeat match goal with H : String.eqb _ _ = false |- _ => rewrite H; clear H end.
Qed.

Lemma compound_members_no_builder entities :
  Forall (λ e, is_geometric_type (type e) = false) entities →
  compound_members entities = Ok [].
Proof.
  unfold compound_members. induction 1 as [|e es He Hes IH]; [done|].
  simpl. rewrite entity_shape_no_builder by done.
  destruct (mapR entity_shape es) as [ss|]; [|done]. simpl in *.
  injection IH as IH. rewrite filter_cons. simpl. by rewrite IH.
Qed.

Lemma compound_members_length entities members :
  compound_members entities = Ok members →
  (length members ≤ length (filter (λ e, is_geometric_type (type e) = true) entities))%nat.
Proof.
  unfold compound_members.
  destruct (mapR entity_shape entities) as [shapes|] eqn:Hm; [|done].
  simpl. intros [= <-]. revert shapes Hm.
  induction entities as [|e es IH]; intros shapes Hm.
  - injection Hm as <-. done.
  - simpl in Hm. destruct (entity_shape e) as [s|] eqn:He; [|done].
    destruct (mapR entity_shape es) as [ss|] eqn:Hes; [|done].
    injection Hm as <-. specialize (IH ss eq_refl).
    rewrite !filter_cons. destruct (is_geometric_type (type e)) eqn:Hg.
    + repeat case_decide; simpl in *; try congruence; lia.
    + rewrite entity_shape_no_builder in He by done. injection He as <-.
      repeat case_decide; simpl in *; try congruence; lia.
Qed.

(** C10: every pair of group code 0 that [convertFromDxf] reads becomes a
    stored entity carrying the pair's value as its type, structural
    markers included; when no conversion raises, the node is returned with
    the compound as its shape and a name that reports the number of these
    records, which is at least the number of shapes in the compound and
    exceeds it as soon as one record is a marker; the node is returned
    also when the compound stays empty. *)
Theorem convertFromDxf_counts_records buffer fs pairs :
  writable fs = true →
  dxf_pairs (Text.getlines buffer) = Ok pairs →
  let records := filter (λ p, p.1 = 0) pairs in
  ∃ entities,
    parseDxfEntities buffer = Ok entities
    ∧ map type entities = records.*2
    ∧ length entities = length records
    ∧ (Forall (λ r, is_geometric_type r.2 = false) records →
       compound_members entities = Ok [])
    ∧ ∀ members, compound_members entities = Ok members →
        (convertFromDxf buffer fs).1 =
          Ok (Some {| shape := Some (MakeCompound members);
                      color := None;
                      children := [];
                      name := "DXF Import (" ++ Text.to_string (length records)
                                ++ " entities)" |})
        ∧ (length members ≤ length records)%nat
        ∧ ((∃ r, r ∈ records ∧ is_geometric_type r.2 = false) →
           (length members < length records)%nat).
Proof.
  intros Hw Hpairs records.
  exists (push_current (run_pairs pairs initial_state)).
  assert (Hparse : parseDxfEntities buffer = Ok (push_current (run_pairs pairs initial_state))).
  { by rewrite parseDxfEntities_pairs, Hpairs. }
  assert (Htypes : map type (push_current (run_pairs pairs initial_state)) = records.*2).
  { by rewrite types_run_pairs. }
  assert (Hlen : length (push_current (run_pairs pairs initial_state)) = length records).
  { by rewrite <- (length_map type), Htypes, length_fmap. }
  split; [done|]. split; [done|]. split; [done|]. split.
  - intros Hnone.
    assert (Forall (λ e, is_geometric_type (type e) = false)
              (push_current (run_pairs pairs initial_state))) as Hall.
    { apply Forall_forall. intros e He.
      assert (type e ∈ records.*2) as Ht.
      { rewrite <- Htypes. apply list_elem_of_fmap. by exists e. }
      apply list_elem_of_fmap in Ht as (r & -> & Hr).
      rewrite Forall_forall in Hnone. by apply Hnone. }
    by apply compound_members_no_builder.
  - intros members Hm.
    pose proof (compound_members_length _ _ Hm) as Hle.
    pose proof (length_filter (λ e, is_geometric_type (type e) = true)
                  (push_current (run_pairs pairs initial_state))) as Hle'.
    split; [|split].
    + unfold convertFromDxf, writeBufferToFile, ofstream_write, std_remove.
      rewrite Hw. simpl. rewrite lookup_insert_eq. simpl.
      rewrite Hparse. simpl. rewrite Hm. simpl. by rewrite Hlen.
    + lia.
    + intros ([k t] & Hr & Hg). simpl in Hg.
      assert (t ∈ map type (push_current (run_pairs pairs initial_state))) as Ht.
      { rewrite Htypes. apply list_elem_of_fmap. by exists (k, t). }
      apply list_elem_of_fmap in Ht as (e & -> & He).
      pose proof (length_filter_lt (λ e, is_geometric_type (type e) = true) _ e He) as Hlt.
      rewrite <- Hlen. assert (¬ is_geometric_type (type e) = true) by congruence.
      specialize (Hlt ltac:(done)). lia.
Qed.

(** ** Containment of conversion failures *)

Lemma mapR_Ok {A B} (f : A → result B) (l : list A) :
  Forall (λ x, is_Ok (f x) = true) l → ∃ ys, mapR f l = Ok ys.
Proof.
  induction 1 as [|x l Hx _ [ys IH]]; [by exists []|].
  simpl. destruct (f x) as [y|]; [|done]. rewrite IH. eauto.
Qed.

Lemma mapR_Throw {A B} (f : A → result B) (l : list A) x :
  x ∈ l → is_Ok (f x) = false → ∃ e, mapR f l = Throw e.
Proof.
  induction l as [|y l IH]; intros Hin Hx; [by apply elem_of_nil in Hin|].
  simpl. destruct (f y) as [b|e] eqn:Hy; [|eauto].
  apply elem_of_cons in Hin as [->|Hin].
  - rewrite Hy in Hx. done.
  - destruct (IH Hin Hx) as [e ->]. eauto.
Qed.

Lemma bad_number_throws e :
  bad_number e → is_Ok (entity_shape e) = false.
Proof.
  unfold bad_number, entity_shape, reads_ok.
  intros [[Ht (a & b & c & d & Ha & Hb & Hc & Hd & Hr)]
         |[[Ht (a & b & r & Ha & Hb & Hr' & Hr)]
          |[Ht (a & b & r & u & v & Ha & Hb & Hr' & Hu & Hv & Hr)]]];
    rewrite Ht; simpl in *.
  - unfold createLineFromDxf. rewrite Ha, Hb, Hc, Hd.
    destruct (stod a), (stod b), (stod c), (stod d); simpl in *; congruence.
  - unfold createCircleFromDxf. rewrite Ha, Hb, Hr'.
    destruct (stod a), (stod b), (stod r); simpl in *; congruence.
  - unfold createArcFromDxf, degrees_to_radians. rewrite Ha, Hb, Hr', Hu, Hv.
    destruct (stod a), (stod b), (stod r), (stod u), (stod v); simpl in *; congruence.
Qed.

Lemma missing_field_skipped e :
  missing_field e → entity_shape e = Ok TopoDS_Null.
Proof.
  unfold missing_field, entity_shape.
  intros [[Ht Hm]|[[Ht Hm]|[Ht Hm]]]; rewrite Ht; simpl.
  - unfold createLineFromDxf.
    destruct (groupCodes e !! 10), (groupCodes e !! 20), (groupCodes e !! 11),
      (groupCodes e !! 21); try done; destruct_or!; done.
  - unfold createCircleFromDxf.
    destruct (groupCodes e !! 10), (groupCodes e !! 20), (groupCodes e !! 40);
      try done; destruct_or!; done.
  - unfold createArcFromDxf.
    destruct (groupCodes e !! 10), (groupCodes e !! 20), (groupCodes e !! 40),
      (groupCodes e !! 50), (groupCodes e !! 51); try done; destruct_or!; done.
Qed.

(** An entity whose builder yields the null shape adds no member: the
    members are those of the other entities. *)
Lemma compound_members_skips_null es1 e es2 :
  entity_shape e = Ok TopoDS_Null →
  compound_members (es1 ++ e :: es2) = compound_members (es1 ++ es2).
Proof.
  intros He. unfold compound_members. induction es1 as [|a es1 IH]; simpl.
  - rewrite He. simpl. destruct (mapR entity_shape es2) as [ys|]; [|done].
    simpl. by rewrite filter_cons_False.
  - destruct (entity_shape a) as [y|]; [|done]. simpl.
    destruct (mapR entity_shape (es1 ++ e :: es2)) as [ys|],
             (mapR entity_shape (es1 ++ es2)) as [zs|]; simpl in *; try done.
    injection IH as IH. by rewrite !filter_cons, IH.
Qed.

(** No member of the compound is the null shape. *)
Lemma compound_members_not_null entities members :
  compound_members entities = Ok members → Forall (λ s, IsNull s = false) members.
Proof.
  unfold compound_members. destruct (mapR entity_shape entities) as [ys|]; [|done].
  simpl. intros [= <-]. apply Forall_forall. intros s Hs.
  by apply list_elem_of_filter in Hs as [? _].
Qed.
(** An exception of the tokenizer ([std::stoi] on a group-code line that
    does not fit an [int]) leaves [convertFromDxf] as well. *)
Lemma convertFromDxf_tokenizer_throw buffer fs x :
  writable fs = true →
  parseDxfEntities buffer = Throw x →
  (convertFromDxf buffer fs).1 = Throw x.
Proof.
  intros Hw Hp. unfold convertFromDxf, writeBufferToFile, ofstream_write, std_remove.
  rewrite Hw. simpl. rewrite lookup_insert_eq. simpl. by rewrite Hp.
Qed.

(** C1 (as the code has it): for a buffer that can be opened as text and
    tokenized, [convertFromDxf] returns a node when the builder of every
    entity returns: the node named after the number of entities, whose
    shape is the compound of the shapes built, none of them null. An entity
    that lacks a required code is skipped: it yields the null shape, the
    compound has the members it would have without that entity, and the
    conversion goes on with the other entities. But a text that does not
    convert where a coordinate, a radius or an angle is read makes the
    builder raise, and the exception leaves [convertFromDxf]: nothing
    catches it. *)
Theorem convertFromDxf_outcome buffer fs entities :
  writable fs = true →
  parseDxfEntities buffer = Ok entities →
  (Forall (λ e, is_Ok (entity_shape e) = true) entities →
     ∃ members,
       compound_members entities = Ok members
       ∧ Forall (λ s, IsNull s = false) members
       ∧ (convertFromDxf buffer fs).1 =
           Ok (Some {| shape := Some (MakeCompound members); color := None;
                       children := [];
                       name := "DXF Import (" ++ Text.to_string (length entities)
                                 ++ " entities)" |}))
  ∧ (∀ e, e ∈ entities → missing_field e → entity_shape e = Ok TopoDS_Null)
  ∧ (∀ es1 e es2, entities = (es1 ++ e :: es2)%list → missing_field e →
       compound_members entities = compound_members (es1 ++ es2)
       ∧ (convertFromDxf buffer fs).1 =
           (members ← compound_members (es1 ++ es2);
            Ok (Some {| shape := Some (MakeCompound members); color := None;
                        children := [];
                        name := "DXF Import (" ++ Text.to_string (length entities)
                                  ++ " entities)" |})))
  ∧ (∀ e, e ∈ entities → bad_number e →
       ∃ x, (convertFromDxf buffer fs).1 = Throw x).
Proof.
  intros Hw Hparse.
  assert (Hres : (convertFromDxf buffer fs).1 =
    (members ← compound_members entities;
     Ok (Some {| shape := Some (MakeCompound members); color := None; children := [];
                 name := "DXF Import (" ++ Text.to_string (length entities)
                           ++ " entities)" |}))).
  { unfold convertFromDxf, writeBufferToFile, ofstream_write, std_remove.
    rewrite Hw. simpl. rewrite lookup_insert_eq. simpl. by rewrite Hparse. }
  rewrite Hres. split; [|split; [|split]].
  - intros Hall. destruct (compound_members entities) as [members|x] eqn:Hm.
    + exists members. split; [done|]. split; [|done].
      by apply compound_members_not_null with entities.
    + unfold compound_members in Hm. destruct (mapR_Ok _ _ Hall) as [ys Hys].
      rewrite Hys in Hm. done.
  - intros e _. apply missing_field_skipped.
  - intros es1 e es2 -> Hmiss. apply missing_field_skipped in Hmiss.
    by rewrite (compound_members_skips_null es1 e es2 Hmiss).
  - intros e He Hbad. apply bad_number_throws in Hbad. unfold compound_members.
    destruct (mapR_Throw _ _ _ He Hbad) as [x ->]. simpl. eauto.
Qed.
(** ** Reading back what the writer wrote *)

Lemma sapp_cons (x : ascii) (a b : string) : String x a ++ b = String x (a ++ b).
Proof. done. Qed.

Lemma sapp_nil_l (a : string) : "" ++ a = a.
Proof. done. Qed.

Lemma sapp_assoc (a b c : string) : (a ++ b) ++ c = a ++ (b ++ c).
Proof.
  induction a as [|x a IH]; [done|]. by rewrite !sapp_cons, IH.
Qed.

Lemma join_app (l1 l2 : list string) : join (l1 ++ l2)%list = join l1 ++ join l2.
Proof.
  induction l1 as [|x l1 IH]; simpl; [done|]. by rewrite IH, sapp_assoc.
Qed.

Lemma text_lines_app (l1 l2 : list string) :
  text_lines (l1 ++ l2)%list = text_lines l1 ++ text_lines l2.
Proof. unfold text_lines. by rewrite map_app, join_app. Qed.

Lemma text_lines_cons (l : string) (ls : list string) :
  text_lines (l :: ls) = l ++ String Text.LF (text_lines ls).
Proof. unfold text_lines. simpl. by rewrite sapp_assoc. Qed.

Lemma records_text_app rs1 rs2 :
  records_text (rs1 ++ rs2)%list = records_text rs1 ++ records_text rs2.
Proof. unfold records_text. by rewrite flat_map_app, text_lines_app. Qed.

Lemma join_records_text {A} (f : A → list (string * list (string * string))) (l : list A) :
  join (map (λ x, records_text (f x)) l) = records_text (flat_map f l).
Proof.
  induction l as [|x l IH]; simpl; [done|]. by rewrite IH, records_text_app.
Qed.

Lemma getlines_from_line cur l rest :
  no_newline l = true →
  Text.getlines_from cur (l ++ String Text.LF rest)
  = String.rev_app cur l :: Text.getlines rest.
Proof.
  revert cur. induction l as [|c l IH]; intros cur Hl.
  - rewrite sapp_nil_l. reflexivity.
  - simpl in Hl. apply andb_prop in Hl as [Hc Hl].
    apply negb_true_iff in Hc. rewrite sapp_cons. simpl. rewrite Hc. by rewrite IH.
Qed.

Lemma getlines_text_lines ls :
  Forall (λ l, no_newline l = true) ls → Text.getlines (text_lines ls) = ls.
Proof.
  induction 1 as [|l ls Hl _ IH]; [done|].
  rewrite text_lines_cons. unfold Text.getlines at 1.
  rewrite getlines_from_line by done. simpl. by rewrite IH.
Qed.

(** A code line the tokenizer accepts. *)
Lemma dxf_pairs_pair c v rest :
  (negb (String.eqb (Text.trim c) "") && is_code_line (Text.trim c)
   && is_Ok (Text.stoi (Text.trim c)))%bool = true →
  dxf_pairs (c :: v :: rest) =
  match dxf_pairs rest with
  | Ok ps => Ok ((code_of c, Text.trim v) :: ps)
  | Throw e => Throw e
  end.
Proof.
  intros Hc. apply andb_prop in Hc as [Hc Hs]. apply andb_prop in Hc as [Hne Hcl].
  apply negb_true_iff in Hne. unfold code_of.
  change (dxf_pairs (c :: v :: rest)) with
    (if String.eqb (Text.trim c) "" then dxf_pairs (v :: rest)
     else if is_code_line (Text.trim c) then
       match Text.stoi (Text.trim c) with
       | Throw e => Throw e
       | Ok groupCode =>
           match dxf_pairs rest with
           | Throw e => Throw e
           | Ok ps => Ok ((groupCode, Text.trim v) :: ps)
           end
       end
     else dxf_pairs (v :: rest)).
  rewrite Hne, Hcl. by destruct (Text.stoi (Text.trim c)).
Qed.

Lemma good_code_accepted c :
  good_code c = true →
  (negb (String.eqb (Text.trim c) "") && is_code_line (Text.trim c)
   && is_Ok (Text.stoi (Text.trim c)))%bool = true ∧ code_of c ≠ 0.
Proof.
  unfold good_code, code_of. intros Hg.
  apply andb_prop in Hg as [Hg Hk]. rewrite Hg.
  destruct (Text.stoi (Text.trim c)) as [k|]; [|done].
  apply negb_true_iff, Z.eqb_neq in Hk. done.
Qed.

Lemma dxf_pairs_body (body : list (string * string)) rest :
  Forall (λ p, good_code p.1 = true ∧ no_newline p.1 = true ∧ no_newline p.2 = true) body →
  dxf_pairs (flat_map (λ p, [p.1; p.2]) body ++ rest)%list =
  match dxf_pairs rest with
  | Ok ps => Ok (map (λ p, (code_of p.1, Text.trim p.2)) body ++ ps)%list
  | Throw e => Throw e
  end.
Proof.
  induction 1 as [|[c v] body (Hg & _ & _) _ IH]; cbn [flat_map app fst snd map].
  - by destruct (dxf_pairs rest).
  - apply good_code_accepted in Hg as [Hg _].
    rewrite dxf_pairs_pair by done. rewrite IH. by destruct (dxf_pairs rest).
Qed.

Lemma dxf_pairs_records rs :
  Forall good_record rs →
  dxf_pairs (flat_map record_lines rs) = Ok (flat_map record_pairs (map read_record rs)).
Proof.
  induction 1 as [|[ty body] rs [_ Hbody] _ IH]; [done|].
  cbn [flat_map record_lines app fst snd map]. rewrite dxf_pairs_pair by done.
  rewrite dxf_pairs_body by done. rewrite IH. done.
Qed.

Lemma run_pairs_app ps1 ps2 st :
  run_pairs (ps1 ++ ps2)%list st = run_pairs ps2 (run_pairs ps1 st).
Proof. apply fold_left_app. Qed.

Lemma run_pairs_body body E e l :
  Forall (λ p : Z * string, p.1 ≠ 0) body →
  run_pairs body {| entities := E; currentEntity := Some e; currentLayer := l |}
  = {| entities := E; currentEntity := Some (fold_left apply_code body e);
       currentLayer := record_layer body l |}.
Proof.
  intros Hb. revert e l. induction Hb as [|[k v] body Hk _ IH]; intros e l; [done|].
  simpl in Hk.
  change (run_pairs ((k, v) :: body) ?st) with (run_pairs body (on_pair st k v)).
  unfold on_pair. simpl. rewrite (proj2 (Z.eqb_neq k 0) Hk). by rewrite IH.
Qed.

Lemma run_pairs_records rs st :
  Forall (λ r : string * list (Z * string), Forall (λ p : Z * string, p.1 ≠ 0) r.2) rs →
  push_current (run_pairs (flat_map record_pairs rs) st)
  = (push_current st ++ close_records (currentLayer st) rs)%list.
Proof.
  intros Hrs. revert st. induction Hrs as [|[ty body] rs Hb _ IH]; intros st.
  - simpl. by rewrite app_nil_r.
  - simpl in Hb. cbn [flat_map]. rewrite run_pairs_app.
    change (run_pairs (record_pairs (ty, body)) st)
      with (run_pairs body (on_pair st 0 ty)).
    unfold on_pair. simpl. rewrite run_pairs_body by done.
    rewrite IH. unfold push_current at 1. simpl. by rewrite <- app_assoc.
Qed.

(** The entities the parser makes of a text written record by record. *)
Lemma parseDxfEntities_records rs :
  Forall good_record rs →
  parseDxfEntities (records_text rs) = Ok (close_records "0" (map read_record rs)).
Proof.
  intros Hrs. rewrite parseDxfEntities_pairs. unfold records_text.
  rewrite getlines_text_lines.
  - rewrite dxf_pairs_records by done. rewrite run_pairs_records; [done|].
    apply Forall_fmap. eapply Forall_impl; [exact Hrs|].
    intros [ty body] [_ Hb]. simpl in *. apply Forall_fmap.
    eapply Forall_impl; [exact Hb|]. intros [c v] (Hg & _ & _). simpl in *.
    by apply good_code_accepted in Hg as [_ ?].
  - apply Forall_flat_map. eapply Forall_impl; [exact Hrs|].
    intros [ty body] [Hty Hb]. simpl in *. repeat constructor; [done|].
    apply Forall_flat_map. eapply Forall_impl; [exact Hb|].
    intros [c v] (_ & Hc & Hv). by repeat constructor.
Qed.

(** ** The writer's output, record by record *)

Lemma put_point_lines cx cy cz p :
  put_point cx cy cz p = text_lines (flat_map (λ q, [q.1; q.2]) (point_pairs cx cy cz p)).
Proof. done. Qed.

Lemma join_put_points cx cy cz points :
  join (map (put_point cx cy cz) points)
  = text_lines (flat_map (λ q, [q.1; q.2]) (flat_map (point_pairs cx cy cz) points)).
Proof.
  induction points as [|p points IH]; [done|].
  cbn [map join flat_map]. by rewrite IH, flat_map_app, text_lines_app.
Qed.

Lemma records_text_single ty body :
  records_text [(ty, body)]
  = text_lines ["  0"; ty] ++ text_lines (flat_map (λ q, [q.1; q.2]) body).
Proof.
  unfold records_text. cbn [flat_map record_lines fst snd].
  rewrite app_nil_r. by rewrite <- text_lines_app.
Qed.

Lemma edge_record_records edge : edge_record edge = records_text (edge_records edge).
Proof.
  unfold edge_record, edge_records.
  destruct (BRep_Tool_Curve edge) as [[[curve first] last]|]; [|done].
  destruct curve as [l d|pos r|[l d|pos r|b u1' u2'|t] u1 u2|t]; try done;
    rewrite records_text_single, ?put_point_lines, <- ?text_lines_app; done.
Qed.

Lemma wire_record_records shape : wire_record shape = records_text (wire_records shape).
Proof.
  unfold wire_record, wire_records.
  destruct (start_points (BRepTools_WireExplorer shape)) as [|p points] eqn:Hp; [done|].
  rewrite records_text_single, join_put_points, flat_map_app, <- !text_lines_app. done.
Qed.

Lemma face_record_records shape : face_record shape = records_text (face_records shape).
Proof.
  unfold face_record, face_records.
  destruct (3 <=? length (start_points (TopExp_Explorer_EDGE shape)))%nat; [|done].
  rewrite records_text_single, join_put_points, <- !text_lines_app. done.
Qed.

Lemma shape_records_records shape :
  is_Some (ShapeType shape) →
  shape_records shape = Some (records_text (shape_record_list shape)).
Proof.
  intros [ty Hty]. unfold shape_records, shape_record_list. rewrite Hty. simpl.
  rewrite !records_text_app.
  rewrite <- (join_records_text edge_records).
  rewrite (map_ext _ _ edge_record_records).
  destruct (is_type shape TopAbs_WIRE), (is_type shape TopAbs_FACE);
    by rewrite ?wire_record_records, ?face_record_records.
Qed.

Lemma convertToDxf_records shapes :
  Forall (λ sh, is_Some (ShapeType sh)) shapes →
  convertToDxf shapes = Some (records_text (dxf_records shapes)).
Proof.
  intros Hs. unfold convertToDxf, dxf_records.
  assert (mapM shape_records shapes
          = Some (map (λ sh, records_text (shape_record_list sh)) shapes)) as ->.
  { induction Hs as [|sh shapes Hsh _ IH]; [done|].
    cbn [mapM map]. rewrite shape_records_records by done. simpl. by rewrite IH. }
  cbn [mbind option_bind]. f_equal.
  rewrite !records_text_app, (join_records_text shape_record_list).
  assert (records_text header_records
          = dxf_header ++ dxf_tables ++ text_lines ["  0"; "SECTION"; "  2"; "ENTITIES"])
    as ->.
  { unfold dxf_header, dxf_tables. rewrite <- !text_lines_app. done. }
  by rewrite !sapp_assoc.
Qed.

(** ** The written records are read back whole *)

Lemma no_newline_uint d : no_newline (NilEmpty.string_of_uint d) = true.
Proof. induction d; simpl; done. Qed.

Lemma no_newline_to_string n : no_newline (Text.to_string n) = true.
Proof.
  unfold Text.to_string, NilZero.string_of_uint.
  destruct (Nat.to_uint n) eqn:E; try done; rewrite <- E; apply no_newline_uint.
Qed.

Section Clean.
Hypothesis put_clean : ∀ d, no_newline (put_double d) = true.

Lemma good_point_pairs cx cy cz p :
  good_code cx = true → good_code cy = true → good_code cz = true →
  no_newline cx = true → no_newline cy = true → no_newline cz = true →
  Forall (λ q, good_code q.1 = true ∧ no_newline q.1 = true ∧ no_newline q.2 = true)
         (point_pairs cx cy cz p).
Proof. intros. unfold point_pairs. repeat constructor; simpl; auto. Qed.

Lemma good_edge_records edge : Forall good_record (edge_records edge).
Proof.
  unfold edge_records.
  destruct (BRep_Tool_Curve edge) as [[[curve first] last]|]; [|constructor].
  destruct curve as [l d|pos r|[l d|pos r|b u1' u2'|t] u1 u2|t];
    try apply Forall_nil_2;
    (apply Forall_cons; split; [|apply Forall_nil_2]);
    (split; [done|]); cbn [snd];
    repeat first [apply Forall_nil_2
                 |apply Forall_cons; split; [simpl; by auto|]
                 |apply Forall_app; split
                 |apply good_point_pairs; done].
Qed.

Lemma good_wire_records shape : Forall good_record (wire_records shape).
Proof.
  unfold wire_records.
  destruct (start_points (BRepTools_WireExplorer shape)) as [|p points]; constructor;
    [|constructor].
  split; [done|]. cbn [snd]. apply Forall_app. split.
  - repeat (apply Forall_cons; split; [simpl; auto using no_newline_to_string|]).
    apply Forall_nil_2.
  - apply Forall_flat_map, Forall_forall. intros q _. by apply good_point_pairs.
Qed.

Lemma good_face_records shape : Forall good_record (face_records shape).
Proof.
  unfold face_records.
  destruct (3 <=? length _)%nat; constructor; [|constructor].
  split; [done|]. cbn [snd]. apply Forall_cons. split; [simpl; auto|].
  apply Forall_flat_map, Forall_forall. intros q _. by apply good_point_pairs.
Qed.

Lemma good_dxf_records shapes : Forall good_record (dxf_records shapes).
Proof.
  unfold dxf_records. apply Forall_app. split; [|apply Forall_app; split].
  - unfold header_records. repeat (apply Forall_cons; split; [|]); try apply Forall_nil_2;
      (split; [done|]); cbn [snd];
      repeat (apply Forall_cons; split; [simpl; auto|]); apply Forall_nil_2.
  - apply Forall_flat_map, Forall_forall. intros sh _. unfold shape_record_list.
    apply Forall_app. split; [|apply Forall_app; split].
    + apply Forall_flat_map, Forall_forall. intros e _. apply good_edge_records.
    + destruct (is_type sh TopAbs_WIRE); [apply good_wire_records|constructor].
    + destruct (is_type sh TopAbs_FACE); [apply good_face_records|constructor].
  - unfold trailer_records. repeat constructor.
Qed.

Lemma reparse_records shapes :
  Forall (λ sh, is_Some (ShapeType sh)) shapes →
  ∃ text, convertToDxf shapes = Some text
    ∧ parseDxfEntities text = Ok (close_records "0" (map read_record (dxf_records shapes))).
Proof.
  intros Hs. exists (records_text (dxf_records shapes)). split.
  - by apply convertToDxf_records.
  - apply parseDxfEntities_records, good_dxf_records.
Qed.

End Clean.

(** ** Entities of the records *)

Lemma fold_apply_code body e :
  type (fold_left apply_code body e) = type e
  ∧ groupCodes (fold_left apply_code body e) = fold_left insert_pair body (groupCodes e).
Proof.
  revert e. induction body as [|[k v] body IH]; intros e; [done|].
  cbn [fold_left]. destruct (IH (apply_code e (k, v))) as [-> ->].
  unfold apply_code. simpl. by destruct (k =? 62).
Qed.

Lemma type_record_entity r : type (record_entity r) = r.1.
Proof. unfold record_entity. by rewrite (proj1 (fold_apply_code _ _)). Qed.

Lemma groupCodes_record_entity r :
  groupCodes (record_entity r) = fold_left insert_pair r.2 ∅.
Proof. unfold record_entity. by rewrite (proj2 (fold_apply_code _ _)). Qed.

Lemma fold_insert_other (k : Z) body m :
  Forall (λ p : Z * string, p.1 ≠ k) body →
  fold_left insert_pair body m !! k = m !! k.
Proof.
  intros Hb. revert m. induction Hb as [|[k' v] body Hk _ IH]; intros m; [done|].
  cbn [fold_left]. rewrite IH. unfold insert_pair. by rewrite lookup_insert_ne.
Qed.

Lemma close_records_app l rs1 rs2 :
  close_records l (rs1 ++ rs2)
  = (close_records l rs1 ++ close_records (layer_after l rs1) rs2)%list.
Proof.
  revert l. induction rs1 as [|r rs1 IH]; intros l; [done|].
  simpl. by rewrite IH.
Qed.

Lemma types_close_records l rs : map type (close_records l rs) = map fst rs.
Proof.
  revert l. induction rs as [|r rs IH]; intros l; [done|].
  simpl. rewrite IH. f_equal. apply type_record_entity.
Qed.

Lemma filter_close_records_none (Q : DxfEntity → Prop) `{!∀ e, Decision (Q e)}
    (P : string → Prop) l rs :
  (∀ e, Q e → P (type e)) →
  Forall (λ r, ¬ P r.1) rs →
  filter Q (close_records l rs) = [].
Proof.
  intros HQ Hrs. revert l. induction Hrs as [|r rs Hr _ IH]; intros l; [done|].
  simpl. rewrite filter_cons_False; [apply IH|].
  intros Hq. apply HQ in Hq. simpl in Hq. by rewrite type_record_entity in Hq.
Qed.

Lemma entity_shape_set_layer e l : entity_shape (set_layer e l) = entity_shape e.
Proof. done. Qed.

Lemma entity_shape_LINE e : type e = "LINE" → entity_shape e = createLineFromDxf e.
Proof. intros Ht. unfold entity_shape. by rewrite Ht. Qed.

Lemma entity_shape_CIRCLE e : type e = "CIRCLE" → entity_shape e = createCircleFromDxf e.
Proof. intros Ht. unfold entity_shape. by rewrite Ht. Qed.

(** The shape rebuilt from the record written for a line or a circle. *)
Lemma edge_record_shape edge w :
  edge_geometry edge = Some w →
  ∃ r, edge_records edge = [r]
    ∧ is_line_or_circle (read_record r).1 = true
    ∧ entity_shape (record_entity (read_record r)) = reread_edge w.
Proof.
  unfold edge_geometry, edge_records.
  destruct (BRep_Tool_Curve edge) as [[[curve first] last]|]; [|done].
  destruct curve as [l d|pos r| |]; [| |done|done]; intros [= <-].
  - eexists. split; [done|]. split; [done|].
    rewrite entity_shape_LINE by (by rewrite type_record_entity).
    unfold createLineFromDxf. rewrite groupCodes_record_entity.
    cbn [read_record snd fst map app point_pairs fold_left].
    unfold insert_pair. cbn [fst snd].
    change (code_of "  8") with 8. change (code_of " 10") with 10.
    change (code_of " 20") with 20. change (code_of " 30") with 30.
    change (code_of " 11") with 11. change (code_of " 21") with 21.
    change (code_of " 31") with 31.
    repeat (rewrite lookup_insert_ne by done); rewrite lookup_insert_eq.
    repeat (rewrite lookup_insert_ne by done); rewrite lookup_insert_eq.
    repeat (rewrite lookup_insert_ne by done); rewrite lookup_insert_eq.
    repeat (rewrite lookup_insert_ne by done); rewrite lookup_insert_eq.
    done.
  - eexists. split; [done|]. split; [done|].
    rewrite entity_shape_CIRCLE by (by rewrite type_record_entity).
    unfold createCircleFromDxf. rewrite groupCodes_record_entity.
    cbn [read_record snd fst map app point_pairs fold_left].
    unfold insert_pair. cbn [fst snd].
    change (code_of "  8") with 8. change (code_of " 10") with 10.
    change (code_of " 20") with 20. change (code_of " 30") with 30.
    change (code_of " 40") with 40.
    repeat (rewrite lookup_insert_ne by done); rewrite lookup_insert_eq.
    repeat (rewrite lookup_insert_ne by done); rewrite lookup_insert_eq.
    repeat (rewrite lookup_insert_ne by done); rewrite lookup_insert_eq.
    done.
Qed.

Lemma edges_records_shapes l edges :
  Forall (λ e, is_Some (edge_geometry e)) edges →
  map entity_shape
    (filter (λ e, is_line_or_circle (type e) = true)
       (close_records l (map read_record (flat_map edge_records edges))))
  = reread_edges edges.
Proof.
  intros Hall. revert l. induction Hall as [|e edges [w Hw] _ IH]; intros l; [done|].
  destruct (edge_record_shape e w Hw) as (r & Hr & Hg & Hs).
  cbn [flat_map]. rewrite Hr. cbn [app map close_records].
  rewrite filter_cons_True by (simpl; by rewrite type_record_entity).
  cbn [map reread_edges]. rewrite Hw.
  rewrite entity_shape_set_layer, Hs. f_equal. apply IH.
Qed.

Lemma no_line_or_circle_closed l rs :
  Forall (λ r, is_line_or_circle r.1 = false) rs →
  filter (λ e, is_line_or_circle (type e) = true) (close_records l rs) = [].
Proof.
  intros Hrs. apply (filter_close_records_none _ (λ t, is_line_or_circle t = true));
    [done|]. eapply Forall_impl; [exact Hrs|]. intros r Hr. simpl. congruence.
Qed.

Lemma shape_records_shapes l shape :
  Forall (λ e, is_Some (edge_geometry e)) (TopExp_Explorer_EDGE shape) →
  map entity_shape
    (filter (λ e, is_line_or_circle (type e) = true)
       (close_records l (map read_record (shape_record_list shape))))
  = reread_edges (TopExp_Explorer_EDGE shape).
Proof.
  intros Hedges. unfold shape_record_list.
  rewrite !map_app, !close_records_app, !filter_app, !map_app.
  rewrite edges_records_shapes by done.
  rewrite !no_line_or_circle_closed, app_nil_r; [done| |].
  - destruct (is_type shape TopAbs_FACE); [|constructor]. unfold face_records.
    destruct (3 <=? length _)%nat; by repeat constructor.
  - destruct (is_type shape TopAbs_WIRE); [|constructor]. unfold wire_records.
    destruct (start_points (BRepTools_WireExplorer shape)); by repeat constructor.
Qed.

Lemma shapes_records_shapes l shapes :
  Forall (λ e, is_Some (edge_geometry e)) (flat_map TopExp_Explorer_EDGE shapes) →
  map entity_shape
    (filter (λ e, is_line_or_circle (type e) = true)
       (close_records l (map read_record (flat_map shape_record_list shapes))))
  = reread_edges (flat_map TopExp_Explorer_EDGE shapes).
Proof.
  revert l. induction shapes as [|sh shapes IH]; intros l Hedges; [done|].
  cbn [flat_map] in *. apply Forall_app in Hedges as [H1 H2].
  rewrite map_app, close_records_app, filter_app, map_app.
  rewrite shape_records_shapes by done. rewrite IH by done.
  unfold reread_edges. by rewrite map_app.
Qed.

(** C2 (as the code has it): for a set of shapes all of whose edges have
    line or full-circle curves, the written text parses again, and its LINE
    and CIRCLE records are, in order, one per edge; the shape rebuilt from
    the record of a line has the x and y of the written end points as
    [std::stod] reads them back and z = 0, the one rebuilt from the record
    of a circle has the x and y of the centre and the radius as read back,
    lies in the plane z = 0 and has the normal +z. The rebuilt line equals
    the line through the input end points when these have z = 0 and their
    x and y are read back unchanged. *)
Theorem edges_written_and_read_back shapes :
  (∀ d, no_newline (put_double d) = true) →
  Forall (λ sh, is_Some (ShapeType sh)) shapes →
  Forall (λ e, is_Some (edge_geometry e)) (flat_map TopExp_Explorer_EDGE shapes) →
  (∃ text entities,
     convertToDxf shapes = Some text
     ∧ parseDxfEntities text = Ok entities
     ∧ map entity_shape (filter (λ e, is_line_or_circle (type e) = true) entities)
       = reread_edges (flat_map TopExp_Explorer_EDGE shapes))
  ∧ (∀ p1 p2,
       Pnt_Z p1 = 0%float → Pnt_Z p2 = 0%float →
       reread (Pnt_X p1) = Ok (Pnt_X p1) → reread (Pnt_Y p1) = Ok (Pnt_Y p1) →
       reread (Pnt_X p2) = Ok (Pnt_X p2) → reread (Pnt_Y p2) = Ok (Pnt_Y p2) →
       reread_edge (WLine p1 p2) = Ok (MakeEdge_Pnts p1 p2)).
Proof.
  intros Hclean Hshapes Hedges. split.
  - destruct (reparse_records Hclean shapes Hshapes) as (text & Htext & Hparse).
    exists text, (close_records "0" (map read_record (dxf_records shapes))).
    split; [done|]. split; [done|].
    unfold dxf_records. rewrite !map_app, !close_records_app, !filter_app, !map_app.
    rewrite shapes_records_shapes by done.
    rewrite !no_line_or_circle_closed, app_nil_r; [done| |];
      repeat constructor; by vm_compute.
  - intros [x1 y1 z1] [x2 y2 z2]. simpl. intros -> -> H1 H2 H3 H4.
    by rewrite H1, H2, H3, H4.
Qed.

(** ** The polyline record of a wire *)

Lemma erase_trailing_id s : no_trim_char s = true → Text.erase_trailing s = s.
Proof.
  induction s as [|c r IH]; [done|]. simpl. intros Hs.
  apply andb_prop in Hs as [Hc Hr]. apply negb_true_iff in Hc.
  rewrite (IH Hr), Hc. by destruct r.
Qed.

Lemma trim_id s : no_trim_char s = true → Text.trim s = s.
Proof.
  intros Hs. unfold Text.trim.
  assert (Text.erase_leading s = s) as ->; [|by apply erase_trailing_id].
  destruct s as [|c r]; [done|]. simpl in *.
  apply andb_prop in Hs as [Hc _]. apply negb_true_iff in Hc. by rewrite Hc.
Qed.

Lemma no_trim_char_uint d : no_trim_char (NilEmpty.string_of_uint d) = true.
Proof. induction d; simpl; done. Qed.

Lemma trim_to_string n : Text.trim (Text.to_string n) = Text.to_string n.
Proof.
  apply trim_id. unfold Text.to_string, NilZero.string_of_uint.
  destruct (Nat.to_uint n) eqn:E; try done; rewrite <- E; apply no_trim_char_uint.
Qed.

Lemma edge_records_types edges :
  map fst (map read_record (flat_map edge_records edges))
  = map fst (flat_map edge_records edges)
  ∧ Forall (λ r, r.1 ≠ "LWPOLYLINE") (map read_record (flat_map edge_records edges)).
Proof.
  induction edges as [|e edges [IH1 IH2]]; [by split|].
  cbn [flat_map]. rewrite !map_app, IH1. rewrite Forall_app.
  unfold edge_records.
  destruct (BRep_Tool_Curve e) as [[[curve first] last]|]; [|by split].
  destruct curve as [l d|pos r|[l d|pos r|b u1' u2'|t] u1 u2|t];
    (split; [done|split; [|done]]); try apply Forall_nil_2;
    by repeat constructor.
Qed.

Lemma point_pairs_codes (k : Z) points :
  k ≠ 10 → k ≠ 20 → k ≠ 30 →
  Forall (λ p : Z * string, p.1 ≠ k)
    (map (λ p, (code_of p.1, Text.trim p.2))
         (flat_map (point_pairs " 10" " 20" " 30") points)).
Proof.
  intros H10 H20 H30. induction points as [|p points IH]; [constructor|].
  cbn [flat_map point_pairs app map]. by repeat constructor.
Qed.

(** C9 (as the code has it): for a wire of which at least one traversed
    edge has a curve, the text holds the records of the edges the explorer
    meets and then one LWPOLYLINE record, which gives under code 90 the
    number of listed points, under code 70 the flag 1, and then the start
    point of every traversed edge that has a curve, in wire order; read
    back, the record is one LWPOLYLINE entity with these values of code 90
    and code 70, and the reader's test of bit 0 takes the flag 1 as
    "closed". *)
Theorem wire_polyline_record shape :
  (∀ d, no_newline (put_double d) = true) →
  ShapeType shape = Some TopAbs_WIRE →
  start_points (BRepTools_WireExplorer shape) ≠ [] →
  let points := start_points (BRepTools_WireExplorer shape) in
  let edges := flat_map edge_records (TopExp_Explorer_EDGE shape) in
  let record :=
    ("LWPOLYLINE",
     [("  8", "0"); ("  90", Text.to_string (length points)); ("  70", "1")]
     ++ flat_map (point_pairs " 10" " 20" " 30") points)%list in
  ∃ text entities polyline,
    convertToDxf [shape] = Some text
    ∧ text = records_text (header_records ++ edges ++ [record] ++ trailer_records)%list
    ∧ parseDxfEntities text = Ok entities
    ∧ map type entities
      = (map fst header_records ++ map fst edges ++ ["LWPOLYLINE"; "ENDSEC"; "EOF"])%list
    ∧ filter (λ e, type e = "LWPOLYLINE") entities = [polyline]
    ∧ groupCodes polyline !! 90 = Some (Text.to_string (length points))
    ∧ groupCodes polyline !! 70 = Some "1"
    ∧ polyline_isClosed polyline = Ok true.
Proof.
  intros Hclean Hty Hne points edges record.
  assert (dxf_records [shape]
          = (header_records ++ edges ++ [record] ++ trailer_records)%list) as Hrs.
  { assert (wire_records shape = [record]) as Hw.
    { unfold wire_records, record, points.
      by destruct (start_points (BRepTools_WireExplorer shape)). }
    unfold dxf_records. cbn [flat_map]. unfold shape_record_list, is_type.
    by rewrite Hty, Hw, !app_nil_r, <- !app_assoc. }
  destruct (reparse_records Hclean [shape]) as (text & Htext & Hparse).
  { constructor; [by rewrite Hty|constructor]. }
  rewrite Hrs in Hparse.
  destruct (edge_records_types (TopExp_Explorer_EDGE shape)) as [Het Hnp].
  fold edges in Het, Hnp.
  set (l1 := layer_after "0" (map read_record header_records)).
  set (l2 := layer_after l1 (map read_record edges)).
  exists text, (close_records "0"
                  (map read_record (header_records ++ edges ++ [record] ++ trailer_records))),
    (set_layer (record_entity (read_record record))
               (record_layer (read_record record).2 l2)).
  split; [done|]. split.
  { assert (convertToDxf [shape] = Some (records_text (dxf_records [shape]))) as Ht2.
    { apply convertToDxf_records. constructor; [by rewrite Hty|constructor]. }
    rewrite Hrs in Ht2. congruence. }
  split; [done|]. split; [|split; [|split; [|split]]].
  - rewrite types_close_records, !map_app, Het. done.
  - rewrite !map_app, !close_records_app, !filter_app.
    fold l1. fold l2.
    rewrite (filter_close_records_none _ (λ t, t = "LWPOLYLINE") _
               (map read_record header_records));
      [|done|repeat constructor; by vm_compute].
    rewrite (filter_close_records_none _ (λ t, t = "LWPOLYLINE") _
               (map read_record edges)); [|done|done].
    rewrite (filter_close_records_none _ (λ t, t = "LWPOLYLINE") _
               (map read_record trailer_records));
      [|done|repeat constructor; by vm_compute].
    cbn [map close_records app]. rewrite filter_cons_True; [done|].
    simpl. by rewrite type_record_entity.
  - cbn [groupCodes set_layer]. rewrite groupCodes_record_entity.
    unfold record. cbn [read_record snd fst]. rewrite map_app, fold_left_app.
    rewrite fold_insert_other by (by apply point_pairs_codes).
    cbn [map fold_left]. unfold insert_pair. cbn [fst snd].
    change (code_of "  8") with 8. change (code_of "  90") with 90.
    change (code_of "  70") with 70.
    rewrite lookup_insert_ne by done. rewrite lookup_insert_eq.
    by rewrite trim_to_string.
  - cbn [groupCodes set_layer]. rewrite groupCodes_record_entity.
    unfold record. cbn [read_record snd fst]. rewrite map_app, fold_left_app.
    rewrite fold_insert_other by (by apply point_pairs_codes).
    cbn [map fold_left]. unfold insert_pair. cbn [fst snd].
    change (code_of "  70") with 70. by rewrite lookup_insert_eq.
  - unfold polyline_isClosed.
    cbn [groupCodes set_layer]. rewrite groupCodes_record_entity.
    unfold record. cbn [read_record snd fst]. rewrite map_app, fold_left_app.
    rewrite fold_insert_other by (by apply point_pairs_codes).
    cbn [map fold_left]. unfold insert_pair. cbn [fst snd].
    change (code_of "  70") with 70. by rewrite lookup_insert_eq.
Qed.

End Properties.

(** * The reference instance on concrete inputs *)

Section ReferenceText.

Lemma no_newline_app a b : no_newline (a ++ b) = (no_newline a && no_newline b)%bool.
Proof.
  induction a as [|c a IH]; [done|].
  rewrite sapp_cons. simpl. rewrite IH. by destruct (Ascii.eqb c Text.LF).
Qed.

Lemma no_newline_rev_app a b :
  no_newline (String.rev_app a b) = (no_newline a && no_newline b)%bool.
Proof.
  revert b. induction a as [|c a IH]; intros b; [done|].
  simpl. rewrite IH. simpl.
  by destruct (Ascii.eqb c Text.LF), (no_newline a), (no_newline b).
Qed.

Lemma no_newline_drop_zeros s :
  no_newline s = true → no_newline (Reference.drop_zeros s) = true.
Proof.
  induction s as [|c s IH]; [done|]. intros Hs.
  pose proof Hs as Hs'. simpl in Hs'. apply andb_prop in Hs' as [_ Hs'].
  destruct c as [[] [] [] [] [] [] [] []]; simpl; auto.
Qed.

Lemma no_newline_strip s :
  no_newline s = true → no_newline (Reference.strip_trailing_zeros s) = true.
Proof.
  intros Hs. unfold Reference.strip_trailing_zeros, String.rev.
  rewrite no_newline_rev_app, no_newline_drop_zeros; [done|].
  by rewrite no_newline_rev_app, Hs.
Qed.

Lemma no_newline_substring s n m :
  no_newline s = true → no_newline (substring n m s) = true.
Proof.
  revert n m. induction s as [|c s IH]; intros [|n] [|m] Hs; simpl in *; try done.
  - apply andb_prop in Hs as [-> Hs]. simpl. by apply IH.
  - apply andb_prop in Hs as [_ Hs]. by apply IH.
  - apply andb_prop in Hs as [_ Hs]. by apply IH.
Qed.

Lemma no_newline_dec_string n : no_newline (Reference.dec_string n) = true.
Proof.
  unfold Reference.dec_string, NilZero.string_of_uint.
  destruct (N.to_uint (Z.to_N n)) eqn:E; try done; rewrite <- E; apply no_newline_uint.
Qed.

Lemma no_newline_zeros n : no_newline (Reference.zeros n) = true.
Proof. induction n; simpl; done. Qed.

Lemma no_newline_with_point ip fp :
  no_newline ip = true → no_newline fp = true →
  no_newline (Reference.with_point ip fp) = true.
Proof.
  intros Hi Hf. unfold Reference.with_point.
  pose proof (no_newline_strip fp Hf) as Hs.
  destruct (Reference.strip_trailing_zeros fp) as [|c r]; [done|].
  rewrite !no_newline_app, Hi, Hs. done.
Qed.

Lemma no_newline_format_g m e : no_newline (Reference.format_g m e) = true.
Proof.
  unfold Reference.format_g.
  destruct (if 0 <=? e then (m * 2 ^ e, 1) else (m, 2 ^ (- e))) as [num den].
  match goal with |- context [if ?c then (?a, ?b) else (?a', ?b')] =>
    destruct (if c then (a, b) else (a', b')) as [x q] end.
  destruct ((x <? -4) || (6 <=? x))%bool.
  - rewrite !no_newline_app, no_newline_with_point, no_newline_dec_string;
      auto using no_newline_substring, no_newline_dec_string.
    by destruct (x <? 0), (Z.abs x <? 10).
  - destruct (0 <=? x).
    + apply no_newline_with_point; apply no_newline_substring, no_newline_dec_string.
    + apply no_newline_with_point; [done|].
      by rewrite no_newline_app, no_newline_zeros, no_newline_dec_string.
Qed.

(** What the reference [put_double] writes never holds a line feed. *)
Lemma reference_put_double_clean d : no_newline (Reference.put_double d) = true.
Proof.
  unfold Reference.put_double.
  destruct (Prim2SF d) as [[]|[]| |[] m e]; try done;
    rewrite ?no_newline_app, no_newline_format_g; done.
Qed.

End ReferenceText.

Section Runs.
Import Samples.
Local Existing Instance Reference.externals.

Example stoi_padded : Text.stoi "  10" = Ok 10.
Proof. reflexivity. Qed.

Example stoi_tail : Text.stoi "-7.5e3" = Ok (-7).
Proof. reflexivity. Qed.

Example stoi_no_digit : Text.stoi "abc" = Throw invalid_argument.
Proof. reflexivity. Qed.

Example stoi_too_big : Text.stoi "99999999999" = Throw out_of_range.
Proof. reflexivity. Qed.

Example getlines_blank_line :
  Text.getlines (text_lines ["a"; ""; "b"]) = ["a"; ""; "b"].
Proof. reflexivity. Qed.

Example trim_both_sides : Text.trim "  10 " = "10".
Proof. reflexivity. Qed.

Example reference_stod :
  map Reference.stod ["5.0"; " -1.25e2x"; ".5"; "abc"; "1e999"]
  = [Ok 5%float; Ok (-125)%float; Ok 0.5%float; Throw invalid_argument;
     Throw out_of_range].
Proof. vm_compute. reflexivity. Qed.

Example reference_stod_hexadecimal :
  map Reference.stod ["0x10"; "-0X1.8p1"; "0x.8"; "0x"; "0x1p-1074"; "0x1p1024"]
  = [Ok 16%float; Ok (-3)%float; Ok 0.5%float; Ok 0%float; Ok 0x1p-1074%float;
     Throw out_of_range].
Proof. vm_compute. reflexivity. Qed.

Example reference_stod_underflow :
  map Reference.stod ["1e-310"; "1e-400"; "2.2250738585072011e-308";
                      "2.2250738585072014e-308"; "0e-400"]
  = [Throw out_of_range; Throw out_of_range; Throw out_of_range;
     Ok 0x1p-1022%float; Ok 0%float].
Proof. vm_compute. reflexivity. Qed.

Example reference_put_double :
  map Reference.put_double [5%float; (-2.5)%float; 100000%float; 1000000%float;
                            123456.5%float; 0.000244140625%float;
                            0.0000152587890625%float]
  = ["5"; "-2.5"; "100000"; "1e+06"; "123456"; "0.000244141"; "1.52588e-05"].
Proof. vm_compute. reflexivity. Qed.

(** The example of the specification: one LINE entity, rebuilt as the
    edge from (0, 0, 0) to (5, 0, 0). *)
Example spec_line_example :
  let content := text_lines ["0"; "LINE"; " 8"; "0"; " 10"; "0.0"; " 20"; "0.0";
                             " 11"; "5.0"; " 21"; "0.0"] in
  map type (entities_of content) = ["LINE"]
  ∧ map createLineFromDxf (entities_of content) = [Ok flat_edge].
Proof. vm_compute. split; reflexivity. Qed.

Example group_code_too_big :
  (convertFromDxf (text_lines ["99999999999"; "LINE"]) empty_fs).1 = Throw out_of_range.
Proof. vm_compute. reflexivity. Qed.

(** C1, counterexample: the text "abc" under code 10 of a LINE makes the
    whole conversion raise [std::invalid_argument]; no node is returned. *)
Lemma convertFromDxf_bad_number_aborts :
  (convertFromDxf bad_line_text empty_fs).1 = Throw invalid_argument
  ∧ ¬ ∃ node, (convertFromDxf bad_line_text empty_fs).1 = Ok (Some node).
Proof.
  assert ((convertFromDxf bad_line_text empty_fs).1 = Throw invalid_argument) as E
    by (vm_compute; reflexivity).
  split; [exact E|]. intros [node Hn]. rewrite E in Hn. discriminate.
Qed.

(** C1 on a text whose first LINE has no code 21: that entity yields the
    null shape and adds nothing, and the node holds the one edge of the
    second LINE. *)
Lemma convertFromDxf_outcome_witness :
  writable empty_fs = true
  ∧ parseDxfEntities skipped_line_text = Ok (entities_of skipped_line_text)
  ∧ (∃ es1 e es2,
       entities_of skipped_line_text = (es1 ++ e :: es2)%list
       ∧ missing_field e
       ∧ entity_shape e = Ok TopoDS_Null
       ∧ compound_members (entities_of skipped_line_text) = compound_members (es1 ++ es2))
  ∧ (convertFromDxf skipped_line_text empty_fs).1 =
      Ok (Some {| shape := Some (MakeCompound [flat_edge]); color := None;
                  children := []; name := "DXF Import (5 entities)" |}).
Proof.
  assert (parseDxfEntities skipped_line_text = Ok (entities_of skipped_line_text)) as Hp
    by (vm_compute; reflexivity).
  pose proof (convertFromDxf_outcome skipped_line_text empty_fs
                (entities_of skipped_line_text) eq_refl Hp) as (_ & Hnull & Hskip & _).
  set (e := nth 1 (entities_of skipped_line_text) (new_DxfEntity "")).
  assert (entities_of skipped_line_text
          = (take 1 (entities_of skipped_line_text)
             ++ e :: drop 2 (entities_of skipped_line_text))%list) as Hsplit
    by (vm_compute; reflexivity).
  assert (missing_field e) as Hmiss.
  { left. split; [vm_compute; reflexivity|]. do 3 right. vm_compute. reflexivity. }
  destruct (Hskip _ _ _ Hsplit Hmiss) as [Hmem Hconv].
  split; [reflexivity|]. split; [exact Hp|]. split.
  - exists (take 1 (entities_of skipped_line_text)), e,
      (drop 2 (entities_of skipped_line_text)).
    split; [exact Hsplit|]. split; [exact Hmiss|]. split; [|exact Hmem].
    apply Hnull; [|exact Hmiss]. rewrite Hsplit. apply elem_of_app. right. apply elem_of_cons. by left.
  - rewrite Hconv. vm_compute. reflexivity.
Defined.

(** C2, counterexample: an edge from (0, 0, 1) to (5, 0, 1) is written as
    a LINE and rebuilt as the edge from (0, 0, 0) to (5, 0, 0); its end
    points are 1 away from those of the input. *)
Lemma raised_line_not_read_back :
  ShapeType raised_edge = Some TopAbs_EDGE
  ∧ edge_geometry raised_edge = Some (WLine (pnt 0 0 1) (pnt 5 0 1))
  ∧ (∃ text, convertToDxf [raised_edge] = Some text
       ∧ map createLineFromDxf (filter (λ e, type e = "LINE") (entities_of text))
         = [Ok (MakeEdge_Pnts (pnt 0 0 0) (pnt 5 0 0))])
  ∧ lines_read_back 0.5%float [raised_edge] = false.
Proof.
  split; [reflexivity|]. split; [vm_compute; reflexivity|]. split.
  - eexists. split; [vm_compute; reflexivity|]. vm_compute. reflexivity.
  - vm_compute. reflexivity.
Qed.

Lemma edges_written_and_read_back_witness :
  (∀ d, no_newline (put_double d) = true)
  ∧ Forall (λ sh, is_Some (ShapeType sh)) [flat_edge]
  ∧ Forall (λ e, is_Some (edge_geometry e)) (flat_map TopExp_Explorer_EDGE [flat_edge])
  ∧ ∃ text entities,
      convertToDxf [flat_edge] = Some text
      ∧ parseDxfEntities text = Ok entities
      ∧ map entity_shape (filter (λ e, is_line_or_circle (type e) = true) entities)
        = reread_edges (flat_map TopExp_Explorer_EDGE [flat_edge]).
Proof.
  assert (Forall (λ sh, is_Some (ShapeType sh)) [flat_edge]) as H1
    by (repeat constructor; by eexists).
  assert (Forall (λ e, is_Some (edge_geometry e))
            (flat_map TopExp_Explorer_EDGE [flat_edge])) as H2.
  { change (flat_map TopExp_Explorer_EDGE [flat_edge]) with [flat_edge].
    repeat constructor. eexists. vm_compute. reflexivity. }
  split; [exact reference_put_double_clean|]. split; [exact H1|]. split; [exact H2|].
  exact (proj1 (@edges_written_and_read_back Reference.externals [flat_edge]
                  reference_put_double_clean H1 H2)).
Defined.

Lemma createPolylineFromDxf_never_builds_a_wire_witness :
  map type (entities_of polyline_text) = ["LWPOLYLINE"]
  ∧ ∀ entity, entity ∈ entities_of polyline_text →
      createPolylineFromDxf entity = Ok TopoDS_Null
      ∧ TopoDS_Null = TopoDS_Null ∧ wire_edge_count TopoDS_Null = None.
Proof.
  split; [vm_compute; reflexivity|]. intros entity He.
  assert (createPolylineFromDxf entity = Ok TopoDS_Null) as Hp.
  { apply list_elem_of_In in He. revert entity He.
    assert (forallb (λ e, match createPolylineFromDxf e with
                          | Ok TopoDS_Null => true
                          | _ => false
                          end) (entities_of polyline_text) = true) as Hall
      by (vm_compute; reflexivity).
    intros entity He. apply (proj1 (forallb_forall _ _) Hall) in He.
    by destruct (createPolylineFromDxf entity) as [[]|]. }
  split; [exact Hp|].
  exact (createPolylineFromDxf_never_builds_a_wire entity TopoDS_Null Hp).
Defined.

(** C5, counterexample: the instance label carries the name "instance" and
    refers to the label named "prototype"; it resolves to "prototype". *)
Lemma reference_label_own_name_ignored :
  FindName (shapeTool "instance") instance = Some "instance"
  ∧ GetReferredShape (shapeTool "instance") instance = Some prototype
  ∧ getLabelName 2 (shapeTool "instance") instance = Some "prototype"
  ∧ getLabelName 2 (shapeTool "instance") instance ≠ Some "instance".
Proof. repeat split; try reflexivity. vm_compute. discriminate. Qed.

Lemma getLabelName_ignores_reference_names_witness :
  (∀ l, GetReferredShape (shapeTool "other") l = GetReferredShape (shapeTool "instance") l)
  ∧ (∀ l, GetReferredShape (shapeTool "instance") l = None →
          FindName (shapeTool "other") l = FindName (shapeTool "instance") l)
  ∧ getLabelName 2 (shapeTool "other") instance
    = getLabelName 2 (shapeTool "instance") instance.
Proof.
  assert (∀ l, GetReferredShape (shapeTool "other") l
               = GetReferredShape (shapeTool "instance") l) as H1 by reflexivity.
  assert (∀ l, GetReferredShape (shapeTool "instance") l = None →
               FindName (shapeTool "other") l = FindName (shapeTool "instance") l) as H2.
  { intros [t cs]. simpl. destruct t as [|[|[|t]]]; simpl; congruence. }
  split; [exact H1|]. split; [exact H2|].
  exact (proj1 (getLabelName_ignores_reference_names _ _ H1 H2 2%nat instance)).
Defined.

Lemma initLabelNode_color_present_witness :
  initLabelNode 1 prototype (shapeTool "instance") colorTool
    = Some {| shape := None; color := Some ""; children := []; name := "prototype" |}
  ∧ getLabelColor 1 prototype (shapeTool "instance") colorTool "" = Some (false, "")
  ∧ color {| shape := None; color := Some ""; children := []; name := "prototype" |}
    = Some "".
Proof.
  assert (initLabelNode 1 prototype (shapeTool "instance") colorTool
          = Some {| shape := None; color := Some ""; children := [];
                    name := "prototype" |}) as Hn by reflexivity.
  assert (getLabelColor 1 prototype (shapeTool "instance") colorTool ""
          = Some (false, "")) as Hc by reflexivity.
  split; [exact Hn|]. split; [exact Hc|].
  exact (proj2 (initLabelNode_color_present _ _ _ _ _ Hn) "" Hc).
Defined.

Lemma convertFromStl_keeps_temp_file_witness :
  writable empty_fs = true
  ∧ files (convertFromStl "solid" empty_fs).2 !! "temp.stl" = Some "solid".
Proof.
  split; [reflexivity|].
  exact (convertFromStl_keeps_temp_file "solid" empty_fs eq_refl).
Defined.

(** C8, counterexample: a document whose root label has no child gives a
    root node without shape and without children. *)
Lemma empty_document_root_has_no_payload :
  ∃ root,
    parseRootLabelToNode 1 (ShapeTool Reference.empty_document)
                           (ColorTool Reference.empty_document) = Some root
    ∧ shape root = None ∧ children root = []
    ∧ ¬ Forall has_payload (nodes_of root).
Proof.
  eexists. split; [reflexivity|]. split; [reflexivity|]. split; [reflexivity|].
  intros Hall. inversion Hall as [|? ? [[x Hx]|Hc] _]; subst; simpl in *; congruence.
Qed.

Lemma scene_tree_nodes_witness :
  ∃ root,
    parseRootLabelToNode 2 (shapeTool "instance") colorTool = Some root
    ∧ Forall never_both (nodes_of root)
    ∧ Forall has_payload (nodes_of root).
Proof.
  eexists. split; [vm_compute; reflexivity|].
  destruct (scene_tree_nodes 2 (shapeTool "instance") colorTool _ eq_refl) as [H1 H2].
  split; [exact H1|]. apply H2.
  - exists prototype. split; [|reflexivity]. simpl. right. left.
  - intros [t cs] s. simpl. destruct t as [|[|[|t]]]; intros [= <-]; reflexivity.
Defined.

(** C9, counterexample: the open wire through (0, 0, 0), (5, 0, 0) and
    (5, 5, 0) is written with one LWPOLYLINE record whose code 70 is 1,
    which the reader takes as closed, and whose code 90 counts two
    points. *)
Lemma open_wire_written_closed :
  ShapeType open_wire = Some TopAbs_WIRE
  ∧ ∃ text polyline,
      convertToDxf [open_wire] = Some text
      ∧ filter (λ e, type e = "LWPOLYLINE") (entities_of text) = [polyline]
      ∧ groupCodes polyline !! 70 = Some "1"
      ∧ polyline_isClosed polyline = Ok true
      ∧ groupCodes polyline !! 90 = Some "2".
Proof.
  split; [reflexivity|]. eexists. eexists.
  split; [vm_compute; reflexivity|]. split; [vm_compute; reflexivity|].
  split; [vm_compute; reflexivity|]. split; vm_compute; reflexivity.
Qed.

Lemma wire_polyline_record_witness :
  (∀ d, no_newline (put_double d) = true)
  ∧ ShapeType open_wire = Some TopAbs_WIRE
  ∧ start_points (BRepTools_WireExplorer open_wire) ≠ []
  ∧ ∃ text entities polyline,
      convertToDxf [open_wire] = Some text
      ∧ parseDxfEntities text = Ok entities
      ∧ filter (λ e, type e = "LWPOLYLINE") entities = [polyline]
      ∧ groupCodes polyline !! 70 = Some "1"
      ∧ polyline_isClosed polyline = Ok true.
Proof.
  assert (start_points (BRepTools_WireExplorer open_wire) ≠ []) as Hne
    by (vm_compute; discriminate).
  split; [exact reference_put_double_clean|]. split; [reflexivity|]. split; [exact Hne|].
  destruct (@wire_polyline_record Reference.externals open_wire
              reference_put_double_clean eq_refl Hne)
    as (text & entities & polyline & H1 & _ & H3 & _ & H5 & _ & H7 & H8).
  exists text, entities, polyline. repeat split; assumption.
Defined.

Lemma convertFromDxf_counts_records_witness :
  writable empty_fs = true
  ∧ dxf_pairs (Text.getlines line_text) = Ok (pairs_of line_text)
  ∧ ∃ entities,
      parseDxfEntities line_text = Ok entities
      ∧ map type entities = ["SECTION"; "LINE"; "ENDSEC"; "EOF"]
      ∧ length entities = 4%nat.
Proof.
  assert (dxf_pairs (Text.getlines line_text) = Ok (pairs_of line_text)) as Hp
    by (vm_compute; reflexivity).
  split; [reflexivity|]. split; [exact Hp|].
  destruct (convertFromDxf_counts_records line_text empty_fs (pairs_of line_text)
              eq_refl Hp) as (entities & H1 & H2 & H3 & _).
  exists entities. split; [exact H1|]. split; [rewrite H2|rewrite H3];
    vm_compute; reflexivity.
Defined.

End Runs.

(** * Further properties *)

(** ** Interchange parser *)

Section ParserProperties.

Lemma read_digits_seen s acc : (Text.read_digits acc true s).2 = true.
Proof.
  revert acc. induction s as [|c s IH]; intros acc; [done|].
  simpl. destruct (Text.isdigit c); [apply IH|done].
Qed.

Lemma stoi_unsigned c r :
  Text.isdigit c = true →
  Text.stoi (String c r) =
  match Text.read_digits 0 false (String c r) with
  | (_, false) => Throw invalid_argument
  | (v, true) =>
      if ((Text.INT_MIN <=? v) && (v <=? Text.INT_MAX))%bool then Ok v
      else Throw out_of_range
  end.
Proof.
  intros Hc. destruct c as [[] [] [] [] [] [] [] []]; try discriminate Hc; reflexivity.
Qed.

Lemma stoi_negative r :
  Text.stoi (String "-" r) =
  match Text.read_digits 0 false r with
  | (_, false) => Throw invalid_argument
  | (v, true) =>
      if ((Text.INT_MIN <=? - v) && (- v <=? Text.INT_MAX))%bool then Ok (- v)
      else Throw out_of_range
  end.
Proof. reflexivity. Qed.

Lemma read_digits_digit c r :
  Text.isdigit c = true → (Text.read_digits 0 false (String c r)).2 = true.
Proof. intros Hc. simpl. rewrite Hc. apply read_digits_seen. Qed.

(** [std::stoi] finds a number on every line the parser takes for a group
    code. *)
Lemma stoi_code_line line :
  is_code_line line = true → Text.stoi line ≠ Throw invalid_argument.
Proof.
  destruct line as [|c r]; [done|]. simpl. intros Hc.
  apply orb_prop in Hc as [Hc|Hc].
  - rewrite stoi_unsigned by done. pose proof (read_digits_digit c r Hc) as Hs.
    destruct (Text.read_digits 0 false (String c r)) as [v seen]. simpl in Hs. subst seen.
    by destruct (_ && _)%bool.
  - apply andb_prop in Hc as [Hm Hd]. apply Ascii.eqb_eq in Hm. subst c.
    destruct r as [|d r]; [done|]. rewrite stoi_negative.
    pose proof (read_digits_digit d r Hd) as Hs.
    destruct (Text.read_digits 0 false (String d r)) as [v seen]. simpl in Hs. subst seen.
    by destruct (_ && _)%bool.
Qed.

Lemma dxf_pairs_throw lines x :
  dxf_pairs lines = Throw x → x = out_of_range.
Proof.
  remember (length lines) as n eqn:Hn.
  revert lines Hn. induction n as [n IH] using lt_wf_ind.
  intros [|l rest] Hn; [done|]. simpl in Hn. simpl.
  destruct (String.eqb (Text.trim l) ""); [apply (IH (length rest)); [lia|done]|].
  destruct (is_code_line (Text.trim l)) eqn:Hc; [|apply (IH (length rest)); [lia|done]].
  apply stoi_code_line in Hc.
  destruct (Text.stoi (Text.trim l)) as [k|[]]; [| done |congruence].
  destruct rest as [|v rest']; [done|].
  destruct (dxf_pairs rest') as [ps|e] eqn:Hps; [done|].
  intros [= <-]. apply (IH (length rest')) with (lines := rest'); [simpl in Hn; lia|done|done].
Qed.

(** X1: the only exception [parseDxfEntities] raises is
    [std::out_of_range]: [std::stoi] is called only on a line that starts
    with a digit, or with a minus sign and a digit, so it always finds a
    number to convert. *)
Theorem parseDxfEntities_raises_only_out_of_range content x :
  parseDxfEntities content = Throw x → x = out_of_range.
Proof.
  rewrite parseDxfEntities_pairs.
  destruct (dxf_pairs (Text.getlines content)) as [ps|e] eqn:Hps; [done|].
  intros [= <-]. by apply dxf_pairs_throw in Hps.
Qed.

(** *** Invariants of the parser state *)

Lemma run_pairs_invariant (I : ParserState → Prop) ps st :
  (∀ st k v, I st → I (on_pair st k v)) → I st → I (run_pairs ps st).
Proof.
  intros Hstep. revert st. induction ps as [|[k v] ps IH]; intros st Hst; [done|].
  apply IH. by apply Hstep.
Qed.

Lemma parseDxfEntities_invariant (I : ParserState → Prop) (P : list DxfEntity → Prop)
    content entities :
  I initial_state →
  (∀ st k v, I st → I (on_pair st k v)) →
  (∀ st, I st → P (push_current st)) →
  parseDxfEntities content = Ok entities → P entities.
Proof.
  intros Hinit Hstep Hend. rewrite parseDxfEntities_pairs.
  destruct (dxf_pairs _) as [ps|]; [|done]. intros [= <-].
  apply Hend. by apply run_pairs_invariant.
Qed.

Lemma fields_state_push st : fields_state st → Forall fields_agree (push_current st).
Proof.
  intros [Hes He]. unfold push_current.
  destruct (currentEntity st) as [e|]; [|done].
  apply Forall_app. split; [done|]. constructor; [|constructor]. exact (He e eq_refl).
Qed.

(** X4: in every entity the parser returns, the colour field is the value
    stored under code 62, empty when the entity has none, and nothing is
    stored under code 0. *)
Theorem parseDxfEntities_stored_fields content entities :
  parseDxfEntities content = Ok entities →
  Forall fields_agree entities.
Proof.
  apply (parseDxfEntities_invariant fields_state).
  - split; [constructor|done].
  - intros st k v Hst. unfold on_pair. destruct (Z.eqb_spec k 0) as [->|Hk].
    + split; [by apply fields_state_push|]. simpl. intros e [= <-]. by split.
    + destruct (currentEntity st) as [e|] eqn:Hcur; [|exact Hst].
      destruct Hst as [Hes He]. destruct (He e Hcur) as [Hc H0].
      split; [done|]. simpl. intros e' [= <-].
      destruct (Z.eqb_spec k 62) as [->|H62]; unfold fields_agree; simpl.
      * rewrite lookup_insert_eq. by rewrite lookup_insert_ne.
      * rewrite !lookup_insert_ne by done. by split.
  - apply fields_state_push.
Qed.

Lemma layers_chain_snoc prev es e :
  layers_chain prev (es ++ [e]) ↔
  layers_chain prev es ∧ layer e = default (last_layer prev es) (groupCodes e !! 8).
Proof.
  revert prev. induction es as [|a es IH]; intros prev.
  - simpl. unfold last_layer. simpl. tauto.
  - cbn [app layers_chain]. rewrite IH.
    assert (last_layer prev (a :: es) = last_layer (layer a) es) as ->; [|tauto].
    unfold last_layer. rewrite last_cons. by destruct (last es).
Qed.

Lemma last_layer_snoc prev es e : last_layer prev (es ++ [e]) = layer e.
Proof. unfold last_layer. by rewrite last_snoc. Qed.

Lemma layers_state_push st :
  layers_state st →
  layers_chain "0" (push_current st) ∧ last_layer "0" (push_current st) = currentLayer st.
Proof.
  intros [Hes Hl]. unfold push_current.
  destruct (currentEntity st) as [e|]; [|done].
  rewrite layers_chain_snoc, last_layer_snoc. done.
Qed.

(** X5: the layer the parser gives an entity is the value of the entity's
    own code 8; an entity without code 8 is put on the layer of the entity
    before it in the file, and on layer 0 only when it is the first. *)
Theorem parseDxfEntities_layer_inherited content entities :
  parseDxfEntities content = Ok entities →
  layers_chain "0" entities.
Proof.
  apply (parseDxfEntities_invariant layers_state).
  - by split.
  - intros st k v Hst. unfold on_pair. destruct (Z.eqb_spec k 0) as [->|Hk].
    + destruct (layers_state_push st Hst) as [Hc Hl]. by split.
    + destruct (currentEntity st) as [e|] eqn:Hcur; [|exact Hst].
      destruct Hst as [Hes Hl]. rewrite Hcur in Hl.
      split; [done|]. simpl. rewrite Hl.
      destruct (Z.eqb_spec k 8) as [->|H8].
      * destruct (8 =? 62); simpl; by rewrite lookup_insert_eq.
      * destruct (k =? 62); simpl; by rewrite lookup_insert_ne.
  - intros st Hst. by apply layers_state_push.
Qed.

(** *** Records written one after the other *)

Lemma fold_insert_last (k : Z) body m :
  fold_left insert_pair body m !! k =
  match last (filter (λ p : Z * string, p.1 = k) body) with
  | Some p => Some p.2
  | None => m !! k
  end.
Proof.
  revert m. induction body as [|[k' v] body IH]; intros m; [done|].
  cbn [fold_left]. rewrite IH, filter_cons. unfold insert_pair. simpl.
  case_decide as Hk.
  - subst k'. rewrite last_cons.
    destruct (last (filter _ body)); [done|]. by rewrite lookup_insert_eq.
  - by rewrite lookup_insert_ne.
Qed.

Lemma close_records_read_back l rs :
  Forall2 (λ r e, type e = r.1
      ∧ ∀ k, groupCodes e !! k = snd <$> last (filter (λ p : Z * string, p.1 = k) r.2))
    rs (close_records l rs).
Proof.
  revert l. induction rs as [|r rs IH]; intros l; [constructor|].
  simpl. constructor; [|apply IH]. split.
  - simpl. apply type_record_entity.
  - intros k. simpl. rewrite groupCodes_record_entity, fold_insert_last.
    by destruct (last _).
Qed.

(** X6: a text written record by record (a code 0 line and a keyword, then
    pairs of a code line and a value line) is read back as one entity per
    record, in order; the entity has the trimmed keyword as its type and
    keeps, under each group code, the trimmed value of the last pair written
    with that code. *)
Theorem records_read_back rs :
  Forall good_record rs →
  ∃ entities,
    parseDxfEntities (records_text rs) = Ok entities
    ∧ Forall2 (λ r e,
        type e = Text.trim r.1
        ∧ ∀ k, groupCodes e !! k =
               snd <$> last (filter (λ p : Z * string, p.1 = k)
                               (map (λ p, (code_of p.1, Text.trim p.2)) r.2)))
        rs entities.
Proof.
  intros Hrs. exists (close_records "0" (map read_record rs)).
  split; [by apply parseDxfEntities_records|].
  pose proof (close_records_read_back "0" (map read_record rs)) as H.
  apply Forall2_fmap_l in H. eapply Forall2_impl; [exact H|].
  intros r e [Ht Hg]. done.
Qed.

End ParserProperties.

(** ** Trimming of lines *)

Section TextProperties.

Lemma erase_leading_first s c :
  first_char (Text.erase_leading s) = Some c → Text.is_trim_char c = false.
Proof.
  induction s as [|a s IH]; [done|]. simpl.
  destruct (Text.is_trim_char a) eqn:Ha; [exact IH|]. simpl. congruence.
Qed.

Lemma erase_leading_blank s :
  all_trim_chars s = true → Text.erase_leading s = "".
Proof.
  induction s as [|a s IH]; [done|]. simpl. intros Hs.
  apply andb_prop in Hs as [-> Hs]. by apply IH.
Qed.

Lemma erase_trailing_first s :
  first_char (Text.erase_trailing s) = None ∨
  first_char (Text.erase_trailing s) = first_char s.
Proof.
  destruct s as [|a s]; [by left|]. simpl.
  destruct (Text.erase_trailing s); [destruct (Text.is_trim_char a)|]; auto.
Qed.

Lemma erase_trailing_last s c :
  last_char (Text.erase_trailing s) = Some c → Text.is_trim_char c = false.
Proof.
  induction s as [|a s IH]; [done|]. simpl.
  destruct (Text.erase_trailing s) as [|b t] eqn:Ht.
  - destruct (Text.is_trim_char a) eqn:Ha; [done|]. simpl. congruence.
  - exact IH.
Qed.

Lemma erase_trailing_idem s :
  Text.erase_trailing (Text.erase_trailing s) = Text.erase_trailing s.
Proof.
  induction s as [|a s IH]; [done|]. simpl.
  destruct (Text.erase_trailing s) as [|b t] eqn:Ht.
  - destruct (Text.is_trim_char a) eqn:Ha; [done|]. simpl. by rewrite Ha.
  - change (Text.erase_trailing (String a (String b t))) with
      (match Text.erase_trailing (String b t) with
       | "" => if Text.is_trim_char a then "" else String a ""
       | r' => String a r'
       end).
    by rewrite IH.
Qed.

Lemma erase_leading_id s :
  (∀ c, first_char s = Some c → Text.is_trim_char c = false) →
  Text.erase_leading s = s.
Proof.
  destruct s as [|a s]; [done|]. simpl. intros Hc. by rewrite (Hc a eq_refl).
Qed.

Lemma trim_first s c :
  first_char (Text.trim s) = Some c → Text.is_trim_char c = false.
Proof.
  unfold Text.trim. intros Hc.
  destruct (erase_trailing_first (Text.erase_leading s)) as [E|E]; [congruence|].
  rewrite E in Hc. by apply erase_leading_first in Hc.
Qed.

(** X3: what the two [erase] calls leave of a line neither starts nor ends
    with a blank, a tab, a carriage return or a line feed; a line made of
    these characters only is erased whole (the case in which
    [find_last_not_of] finds nothing); trimming a second time changes
    nothing. *)
Theorem trim_clean_ends (s : string) :
  (∀ c, first_char (Text.trim s) = Some c → Text.is_trim_char c = false)
  ∧ (∀ c, last_char (Text.trim s) = Some c → Text.is_trim_char c = false)
  ∧ (all_trim_chars s = true → Text.trim s = "")
  ∧ Text.trim (Text.trim s) = Text.trim s.
Proof.
  split; [apply trim_first|]. split; [apply erase_trailing_last|]. split.
  - intros Hs. unfold Text.trim. by rewrite erase_leading_blank.
  - unfold Text.trim at 1. rewrite erase_leading_id by apply trim_first.
    apply erase_trailing_idem.
Qed.

Lemma erase_leading_app l x :
  Text.erase_leading (l ++ x) =
  match Text.erase_leading l with
  | "" => Text.erase_leading x
  | r => r ++ x
  end.
Proof.
  induction l as [|a l IH]; [done|]. rewrite sapp_cons. simpl.
  destruct (Text.is_trim_char a); [exact IH|done].
Qed.

Lemma erase_trailing_app_blank s x :
  all_trim_chars x = true → Text.erase_trailing (s ++ x) = Text.erase_trailing s.
Proof.
  intros Hx. induction s as [|a s IH].
  - rewrite sapp_nil_l. induction x as [|b x IHx]; [done|].
    simpl in Hx. apply andb_prop in Hx as [Hb Hx]. simpl. by rewrite IHx, Hb.
  - rewrite sapp_cons. simpl. by rewrite IH.
Qed.

Lemma trim_app_blank l x :
  all_trim_chars x = true → Text.trim (l ++ x) = Text.trim l.
Proof.
  intros Hx. unfold Text.trim. rewrite erase_leading_app.
  destruct (Text.erase_leading l) as [|a r] eqn:Hl.
  - by rewrite erase_leading_blank.
  - by rewrite erase_trailing_app_blank.
Qed.

Lemma trim_blank_app x l :
  all_trim_chars x = true → Text.trim (x ++ l) = Text.trim l.
Proof.
  intros Hx. unfold Text.trim. rewrite erase_leading_app.
  by rewrite erase_leading_blank.
Qed.

Lemma parse_loop_trimmed ls ls' st :
  Forall2 (λ l l', Text.trim l = Text.trim l') ls ls' →
  parse_loop ls st = parse_loop ls' st.
Proof.
  remember (length ls) as n eqn:Hn.
  revert ls ls' st Hn. induction n as [n IH] using lt_wf_ind.
  intros ls ls' st Hn Hall. destruct Hall as [|l l' rest rest' Hl Hrest]; [done|].
  simpl in Hn. simpl. rewrite <- Hl.
  destruct (String.eqb (Text.trim l) ""); [apply (IH (length rest)); [lia|done|done]|].
  destruct (is_code_line (Text.trim l)); [|apply (IH (length rest)); [lia|done|done]].
  destruct (Text.stoi (Text.trim l)) as [k|e]; [|done].
  destruct Hrest as [|v v' rest2 rest2' Hv Hrest2]; [done|].
  rewrite <- Hv. apply (IH (length rest2)); [simpl in Hn; lia|done|done].
Qed.

Lemma no_newline_sapp a b :
  no_newline a = true → no_newline b = true → no_newline (a ++ b) = true.
Proof.
  intros Ha Hb. induction a as [|c a IH]; [done|].
  rewrite sapp_cons. simpl in *. apply andb_prop in Ha as [-> Ha]. simpl. by apply IH.
Qed.

(** X2: the parser does not see blanks, tabs and carriage returns around a
    line: a text whose lines are indented or end in CR LF is read as the
    text without them. *)
Theorem parseDxfEntities_ignores_padding (ls : list (string * string * string)) :
  Forall (λ t, all_trim_chars t.1.1 = true ∧ all_trim_chars t.2 = true
               ∧ no_newline t.1.1 = true ∧ no_newline t.1.2 = true
               ∧ no_newline t.2 = true) ls →
  parseDxfEntities (text_lines (map (λ t, t.1.1 ++ t.1.2 ++ t.2) ls))
  = parseDxfEntities (text_lines (map (λ t, t.1.2) ls)).
Proof.
  intros Hls. unfold parseDxfEntities.
  rewrite !getlines_text_lines.
  - erewrite parse_loop_trimmed; [done|].
    apply Forall2_fmap, Forall_Forall2_diag.
    eapply Forall_impl; [exact Hls|]. intros [[a l] b] (Ha & Hb & _). simpl in *.
    by rewrite trim_blank_app, trim_app_blank.
  - apply Forall_fmap. eapply Forall_impl; [exact Hls|]. by intros [[a l] b] (_ & _ & _ & ? & _).
  - apply Forall_fmap. eapply Forall_impl; [exact Hls|].
    intros [[a l] b] (_ & _ & Ha & Hl & Hb). simpl in *.
    auto using no_newline_sapp.
Qed.

End TextProperties.

(** ** Builders and import *)

Section BuilderProperties.
Context `{!Externals}.

Lemma map_items_elem (m : gmap Z string) k v :
  (k, v) ∈ map_items m ↔ m !! k = Some v.
Proof.
  unfold map_items. rewrite merge_sort_Permutation. apply elem_of_map_to_list.
Qed.

Lemma collect_codes_ok items acc :
  (∀ k v, (k, v) ∈ items → k = 10 ∨ k = 20 ∨ k = 30 → is_Ok (Text.stoi v) = true) →
  ∃ r, collect_codes items acc = Ok r.
Proof.
  revert acc. induction items as [|[k v] items IH]; intros [[xs ys] zs] Hall; [by eexists|].
  assert (∀ k' v', (k', v') ∈ items → k' = 10 ∨ k' = 20 ∨ k' = 30 →
                   is_Ok (Text.stoi v') = true) as Hrest.
  { intros k' v' Hin. apply Hall. by right. }
  pose proof (Hall k v ltac:(by left)) as Hkv. simpl.
  destruct (Z.eqb_spec k 10) as [->|H10].
  { destruct (Text.stoi v); [|by discriminate Hkv; auto]. simpl. by apply IH. }
  destruct (Z.eqb_spec k 20) as [->|H20].
  { destruct (Text.stoi v); [|by discriminate Hkv; auto]. simpl. by apply IH. }
  destruct (Z.eqb_spec k 30) as [->|H30].
  { destruct (Text.stoi v); [|by discriminate Hkv; auto]. simpl. by apply IH. }
  by apply IH.
Qed.

Lemma collect_codes_throw items acc k v :
  (k, v) ∈ items → k = 10 ∨ k = 20 ∨ k = 30 → is_Ok (Text.stoi v) = false →
  ∃ x, collect_codes items acc = Throw x.
Proof.
  intros Hin Hk Hv. revert acc.
  induction items as [|[k' v'] items IH]; intros [[xs ys] zs];
    [by apply elem_of_nil in Hin|].
  apply elem_of_cons in Hin as [[= <- <-]|Hin].
  - simpl. destruct (Text.stoi v) as [n|x]; [done|].
    destruct Hk as [-> | [-> | ->]]; simpl; eauto.
  - specialize (IH Hin). simpl.
    destruct (k' =? 10); [destruct (Text.stoi v'); simpl; eauto|].
    destruct (k' =? 20); [destruct (Text.stoi v'); simpl; eauto|].
    destruct (k' =? 30); [destruct (Text.stoi v'); simpl; eauto|].
    apply IH.
Qed.

(** An entity keeps one value per group code, so fewer than two points
    are ever collected. *)
Lemma polyline_points_short entity (is3D : bool) xs ys zs :
  collect_codes (map_items (groupCodes entity)) ([], [], []) = Ok (xs, ys, zs) →
  (2 <=? length (if is3D then points_3d xs ys zs else points_2d xs ys))%nat = false.
Proof.
  intros Hc. apply collect_codes_lengths in Hc as [Hx _]. simpl in Hx.
  pose proof (map_items_key_unique 10 (groupCodes entity)) as H10.
  apply Nat.leb_gt. destruct is3D.
  - pose proof (points_3d_length xs ys zs). lia.
  - pose proof (points_2d_length xs ys). lia.
Qed.

Lemma createPolylineFromDxf_null entity shape :
  createPolylineFromDxf entity = Ok shape → shape = TopoDS_Null.
Proof.
  unfold createPolylineFromDxf. intros Hp.
  destruct (polyline_is3D entity) as [is3D|]; [|done].
  cbv beta iota delta [mbind result_bind] in Hp.
  destruct (collect_codes _ _) as [[[xs ys] zs]|] eqn:Hc; [|done].
  rewrite (polyline_points_short _ is3D _ _ _ Hc) in Hp. by injection Hp as <-.
Qed.

Lemma collect_codes_bad_field entity acc :
  (int_field_ok entity 10 && int_field_ok entity 20 && int_field_ok entity 30)%bool = false →
  ∃ x, collect_codes (map_items (groupCodes entity)) acc = Throw x.
Proof.
  unfold int_field_ok. intros Hbad.
  assert (∃ k v, (k = 10 ∨ k = 20 ∨ k = 30) ∧ groupCodes entity !! k = Some v
                 ∧ is_Ok (Text.stoi v) = false) as (k & v & Hk & Hkv & Hv).
  { apply andb_false_iff in Hbad as [Hbad|Hbad];
      [apply andb_false_iff in Hbad as [Hbad|Hbad]|].
    - exists 10. destruct (groupCodes entity !! 10) as [v|]; [|done]. exists v. auto.
    - exists 20. destruct (groupCodes entity !! 20) as [v|]; [|done]. exists v. auto.
    - exists 30. destruct (groupCodes entity !! 30) as [v|]; [|done]. exists v. auto. }
  apply (collect_codes_throw _ _ k v); [by apply map_items_elem|done|done].
Qed.

(** X7: [createPolylineFromDxf] returns the null shape when every
    [std::stoi] it performs succeeds (on code 70 of a POLYLINE and on the
    values of codes 10, 20 and 30) and raises otherwise; it has no other
    outcome. *)
Theorem createPolylineFromDxf_outcome entity :
  (polyline_numbers_ok entity = true → createPolylineFromDxf entity = Ok TopoDS_Null)
  ∧ (polyline_numbers_ok entity = false → ∃ x, createPolylineFromDxf entity = Throw x).
Proof.
  unfold polyline_numbers_ok, createPolylineFromDxf, polyline_is3D. split.
  - intros Hok. apply andb_prop in Hok as [Hok H30]. apply andb_prop in Hok as [Hok H20].
    apply andb_prop in Hok as [H70 H10]. unfold int_field_ok in *.
    assert (∃ b, (if String.eqb (type entity) "POLYLINE"
                  then match groupCodes entity !! 70 with
                       | Some v => f ← Text.stoi v; Ok (has_bit f 8)
                       | None => Ok false
                       end
                  else Ok false) = Ok b) as [b ->].
    { destruct (String.eqb (type entity) "POLYLINE"); [|by eexists].
      destruct (groupCodes entity !! 70) as [v|]; [|by eexists].
      destruct (Text.stoi v); [by eexists|done]. }
    cbv beta iota delta [mbind result_bind].
    destruct (collect_codes_ok (map_items (groupCodes entity)) ([], [], [])) as [r Hr].
    { intros k v Hin Hk. apply map_items_elem in Hin.
      destruct Hk as [-> | [-> | ->]]; by rewrite Hin in *. }
    rewrite Hr. destruct r as [[xs ys] zs].
    by rewrite (polyline_points_short _ b _ _ _ Hr).
  - intros Hbad.
    match goal with |- ∃ x, ?m ≫= _ = _ => destruct m as [b|x] eqn:Hb end;
      [|simpl; eauto].
    cbv beta iota delta [mbind result_bind].
    destruct (collect_codes_bad_field entity ([], [], [])) as [x ->]; [|eauto].
    destruct (int_field_ok entity 10 && int_field_ok entity 20
              && int_field_ok entity 30)%bool eqn:Hc; [|done].
    exfalso. apply andb_prop in Hc as [Hc H30]. apply andb_prop in Hc as [H10 H20].
    rewrite H10, H20, H30, !andb_true_r in Hbad.
    destruct (String.eqb (type entity) "POLYLINE"); [|done].
    unfold int_field_ok in Hbad. destruct (groupCodes entity !! 70) as [v|]; [|done].
    by destruct (Text.stoi v).
Qed.

(** *** What the import can hold *)

Lemma createLineFromDxf_kind e s :
  createLineFromDxf e = Ok s → s = TopoDS_Null ∨ imported_shape s.
Proof.
  unfold createLineFromDxf.
  destruct (groupCodes e !! 10) as [a|], (groupCodes e !! 20) as [b|],
    (groupCodes e !! 11) as [c|], (groupCodes e !! 21) as [d|];
    try (intros [= <-]; by left).
  destruct (stod a), (stod b), (stod c), (stod d); try done.
  intros [= <-]. by right.
Qed.

Lemma createCircleFromDxf_kind e s :
  createCircleFromDxf e = Ok s → s = TopoDS_Null ∨ imported_shape s.
Proof.
  unfold createCircleFromDxf.
  destruct (groupCodes e !! 10) as [a|], (groupCodes e !! 20) as [b|],
    (groupCodes e !! 40) as [r|]; try (intros [= <-]; by left).
  destruct (stod a), (stod b), (stod r); try done.
  intros [= <-]. by right.
Qed.

Lemma createArcFromDxf_kind e s :
  createArcFromDxf e = Ok s → s = TopoDS_Null ∨ imported_shape s.
Proof.
  unfold createArcFromDxf, degrees_to_radians.
  destruct (groupCodes e !! 10) as [a|], (groupCodes e !! 20) as [b|],
    (groupCodes e !! 40) as [r|], (groupCodes e !! 50) as [u|],
    (groupCodes e !! 51) as [v|]; try (intros [= <-]; by left).
  destruct (stod a), (stod b), (stod r), (stod u), (stod v); try done.
  intros [= <-]. by right.
Qed.

Lemma create3DFaceFromDxf_kind e s :
  create3DFaceFromDxf e = Ok s → s = TopoDS_Null ∨ imported_shape s.
Proof.
  unfold create3DFaceFromDxf.
  destruct (mapR (face_corner e) [0; 1; 2; 3]) as [corners|]; [|done].
  cbv beta iota delta [mbind result_bind].
  destruct (3 <=? length (concat corners))%nat; [|intros [= <-]; by left].
  destruct (length (concat corners) =? 3)%nat eqn:H3.
  { apply Nat.eqb_eq in H3. intros [= <-]. right. simpl. by left. }
  destruct (length (concat corners) =? 4)%nat eqn:H4.
  { apply Nat.eqb_eq in H4. intros [= <-]. right. simpl. by right. }
  intros [= <-]. by left.
Qed.

Lemma entity_shape_kind e s :
  entity_shape e = Ok s → s = TopoDS_Null ∨ imported_shape s.
Proof.
  unfold entity_shape.
  destruct (String.eqb (type e) "LINE"); [apply createLineFromDxf_kind|].
  destruct (String.eqb (type e) "CIRCLE"); [apply createCircleFromDxf_kind|].
  destruct (String.eqb (type e) "ARC"); [apply createArcFromDxf_kind|].
  destruct (_ || _)%bool.
  { intros Hs. left. by apply (createPolylineFromDxf_null e). }
  destruct (String.eqb (type e) "3DFACE"); [apply create3DFaceFromDxf_kind|].
  intros [= <-]. by left.
Qed.

Lemma mapR_Forall {A B} (f : A → result B) (P : B → Prop) l ys :
  (∀ x y, f x = Ok y → P y) → mapR f l = Ok ys → Forall P ys.
Proof.
  intros Hf. revert ys. induction l as [|x l IH]; intros ys; simpl.
  - intros [= <-]. constructor.
  - destruct (f x) as [y|] eqn:Hy; [|done].
    destruct (mapR f l) as [ys'|]; [|done]. intros [= <-].
    constructor; [by apply (Hf x)|by apply IH].
Qed.

Lemma compound_members_kinds entities members :
  compound_members entities = Ok members → Forall imported_shape members.
Proof.
  unfold compound_members.
  destruct (mapR entity_shape entities) as [shapes|] eqn:Hm; [|done].
  cbv beta iota delta [mbind result_bind]. intros [= <-].
  apply (mapR_Forall _ _ _ _ entity_shape_kind) in Hm.
  apply Forall_forall. intros s Hs. apply list_elem_of_filter in Hs as [Hn Hs].
  rewrite Forall_forall in Hm. destruct (Hm s Hs) as [->|]; done.
Qed.

(** X8: the node [convertFromDxf] returns carries a compound whose members
    are edges between points of the plane z = 0, edges on circles of that
    plane, and faces of three or four corners, and nothing else: no wire
    and no null shape is ever a member; the node has no colour and no
    child. *)
Theorem convertFromDxf_member_kinds buffer fs node :
  (convertFromDxf buffer fs).1 = Ok (Some node) →
  ∃ members,
    node_shape node = Some (MakeCompound members)
    ∧ Forall imported_shape members
    ∧ color node = None ∧ children node = [].
Proof.
  unfold convertFromDxf.
  destruct (files (writeBufferToFile "temp.dxf" buffer fs) !! "temp.dxf") as [content|];
    [|done].
  cbn [fst]. destruct (parseDxfEntities content) as [entities|]; [|done].
  cbv beta iota delta [mbind result_bind].
  destruct (compound_members entities) as [members|] eqn:Hm; [|done].
  intros [= <-]. exists members. split; [done|]. split; [|done].
  by apply compound_members_kinds in Hm.
Qed.

Lemma compound_members_cons e es :
  compound_members (e :: es) =
  (s ← entity_shape e; members ← compound_members es;
   Ok (if IsNull s then members else s :: members)).
Proof.
  unfold compound_members. simpl. destruct (entity_shape e) as [s|]; [|done].
  destruct (mapR entity_shape es) as [ss|]; [|done]. simpl.
  rewrite filter_cons. destruct s; done.
Qed.

(** X9: the members of the compound depend only on the entities of the
    five built types (LINE, CIRCLE, ARC, POLYLINE or LWPOLYLINE, 3DFACE),
    taken in order, and on nothing but their type and group codes: section
    and table markers, the entities of other types, and the layer and
    colour fields play no part, so a LINE met in any section of the file
    is imported. *)
Theorem compound_members_ignores_markers entities :
  compound_members entities =
  compound_members
    (map (λ e, {| type := type e; groupCodes := groupCodes e;
                  layer := ""; entity_color := "" |})
         (filter (λ e, is_geometric_type (type e) = true) entities)).
Proof.
  induction entities as [|e es IH]; [done|].
  rewrite filter_cons. destruct (is_geometric_type (type e)) eqn:Hg.
  - rewrite decide_True by done. cbn [map]. rewrite !compound_members_cons, IH. done.
  - rewrite decide_False by congruence. rewrite compound_members_cons.
    rewrite entity_shape_no_builder by done. simpl. rewrite IH.
    match goal with |- ?m ≫= _ = _ => by destruct m end.
Qed.

(** *** Temporary files *)

(** X14: whatever the outcome, [convertFromIges] and [convertFromDxf] leave
    the file system as they found it, but for their temporary file, which
    no longer exists: the file is removed on every path, a file that had
    this name before the call is lost, and no other file is touched. *)
Theorem temporary_file_frame fuel buffer fs :
  (convertFromIges fuel buffer fs).2 = std_remove "temp.igs" fs
  ∧ (convertFromDxf buffer fs).2 = std_remove "temp.dxf" fs.
Proof.
  assert (∀ name, std_remove name (writeBufferToFile name buffer fs) = std_remove name fs)
    as Hrm.
  { intros name. unfold writeBufferToFile, ofstream_write, std_remove.
    destruct (writable fs) eqn:Hw; simpl; [|by rewrite Hw].
    by rewrite delete_insert_eq. }
  split.
  - unfold convertFromIges.
    destruct (IGES_ReadFile _); simpl; [destruct (IGES_Transfer _); simpl|]; apply Hrm.
  - unfold convertFromDxf. destruct (_ !! "temp.dxf"); simpl; apply Hrm.
Qed.

(** *** Null shapes given to the writer *)

Lemma shape_records_is_Some shape :
  is_Some (shape_records shape) ↔ IsNull shape = false.
Proof.
  unfold shape_records.
  destruct shape; simpl; split; intros Hs; try done; try (by eexists); by destruct Hs.
Qed.

Lemma convertToDxf_Some_types shapes text :
  convertToDxf shapes = Some text → Forall (λ sh, is_Some (ShapeType sh)) shapes.
Proof.
  intros Htext. assert (is_Some (mapM shape_records shapes)) as Hm.
  { unfold convertToDxf in Htext. destruct (mapM shape_records shapes); [by eexists|done]. }
  apply mapM_is_Some in Hm. eapply Forall_impl; [exact Hm|].
  intros sh Hsh. apply shape_records_is_Some in Hsh. by destruct sh; [done|eexists..].
Qed.


End BuilderProperties.

(** ** Export followed by import *)

Section RoundTrip.
Context `{!Externals}.

Lemma mapR_app {A B} (f : A → result B) l1 l2 :
  mapR f (l1 ++ l2)%list = (y1 ← mapR f l1; y2 ← mapR f l2; Ok (y1 ++ y2)%list).
Proof.
  induction l1 as [|x l1 IH]; simpl.
  - by destruct (mapR f l2).
  - destruct (f x) as [y|]; [|done]. rewrite IH.
    destruct (mapR f l1) as [y1|]; [|done]. simpl.
    by destruct (mapR f l2).
Qed.

Lemma mapR_app_Ok {A B} (f : A → result B) l1 l2 ys :
  mapR f (l1 ++ l2)%list = Ok ys →
  ∃ y1 y2, mapR f l1 = Ok y1 ∧ mapR f l2 = Ok y2 ∧ ys = (y1 ++ y2)%list.
Proof.
  rewrite mapR_app. destruct (mapR f l1) as [y1|]; [|done].
  destruct (mapR f l2) as [y2|]; [|done]. simpl. intros [= <-]. eauto.
Qed.

Lemma entity_shape_ARC e : type e = "ARC" → entity_shape e = createArcFromDxf e.
Proof. intros Ht. unfold entity_shape. by rewrite Ht. Qed.

Lemma edge_records_rebuilt l edge :
  mapR entity_shape (close_records l (map read_record (edge_records edge)))
  = rebuilt_edge edge.
Proof.
  unfold rebuilt_edge.
  destruct (edge_geometry edge) as [w|] eqn:Hw.
  - destruct (edge_record_shape edge w Hw) as (r & Hr & _ & Hs).
    rewrite Hr. cbn [map close_records mapR]. rewrite entity_shape_set_layer, Hs.
    unfold edge_geometry in Hw.
    destruct (BRep_Tool_Curve edge) as [[[curve first] last]|]; [|done].
    destruct curve as [? ?|? ?| |]; try done; injection Hw as <-;
      by destruct (reread_edge _).
  - unfold edge_geometry in Hw. unfold edge_records.
    destruct (BRep_Tool_Curve edge) as [[[curve first] last]|]; [|done].
    destruct curve as [? ?|? ?|[? ?|pos r|? ? ?|?] u1 u2|?]; try done.
    cbn [map close_records mapR]. rewrite entity_shape_set_layer.
    rewrite entity_shape_ARC by (by rewrite type_record_entity).
    unfold createArcFromDxf. rewrite groupCodes_record_entity.
    cbn [read_record snd fst map app point_pairs fold_left].
    unfold insert_pair. cbn [fst snd].
    change (code_of "  8") with 8. change (code_of " 10") with 10.
    change (code_of " 20") with 20. change (code_of " 30") with 30.
    change (code_of " 40") with 40. change (code_of " 50") with 50.
    change (code_of " 51") with 51.
    repeat (rewrite lookup_insert_ne by done); rewrite lookup_insert_eq.
    repeat (rewrite lookup_insert_ne by done); rewrite lookup_insert_eq.
    repeat (rewrite lookup_insert_ne by done); rewrite lookup_insert_eq.
    repeat (rewrite lookup_insert_ne by done); rewrite lookup_insert_eq.
    repeat (rewrite lookup_insert_ne by done); rewrite lookup_insert_eq.
    unfold reread_angle, reread.
    destruct (stod (Text.trim (put_double (Pnt_X (Ax2_Location pos))))); [|done].
    destruct (stod (Text.trim (put_double (Pnt_Y (Ax2_Location pos))))); [|done].
    destruct (stod (Text.trim (put_double r))); [|done].
    destruct (degrees_to_radians (Text.trim (put_double (radians_to_degrees u1))));
      [|done].
    by destruct (degrees_to_radians (Text.trim (put_double (radians_to_degrees u2)))).
Qed.

Lemma edges_records_rebuilt l edges :
  mapR entity_shape (close_records l (map read_record (flat_map edge_records edges)))
  = (rebuilt ← mapR rebuilt_edge edges; Ok (concat rebuilt)).
Proof.
  revert l. induction edges as [|e edges IH]; intros l; [done|].
  cbn [flat_map]. rewrite map_app, close_records_app, mapR_app.
  rewrite edge_records_rebuilt, IH. simpl.
  destruct (rebuilt_edge e) as [r|]; [|done]. simpl.
  by destruct (mapR rebuilt_edge edges).
Qed.

Lemma rebuilt_edge_not_null edge rebuilt :
  rebuilt_edge edge = Ok rebuilt → Forall (λ s, IsNull s = false) rebuilt.
Proof.
  unfold rebuilt_edge.
  destruct (BRep_Tool_Curve edge) as [[[curve first] last]|]; [|intros [= <-]; constructor].
  destruct curve as [? ?|? ?|[? ?|pos r|? ? ?|?] u1 u2|?];
    try (intros [= <-]; constructor).
  - unfold reread_edge.
    repeat (match goal with |- context [reread ?x] => destruct (reread x); [|done] end; simpl).
    intros [= <-]. by repeat constructor.
  - unfold reread_edge.
    repeat (match goal with |- context [reread ?x] => destruct (reread x); [|done] end; simpl).
    intros [= <-]. by repeat constructor.
  - repeat (match goal with |- context [reread ?x] => destruct (reread x); [|done] end; simpl).
    repeat (match goal with |- context [reread_angle ?x] =>
              destruct (reread_angle x); [|done] end; simpl).
    intros [= <-]. by repeat constructor.
Qed.

Lemma rebuilt_edges_not_null edges rebuilt :
  mapR rebuilt_edge edges = Ok rebuilt →
  filter (λ s, IsNull s = false) (concat rebuilt) = concat rebuilt.
Proof.
  revert rebuilt. induction edges as [|e edges IH]; intros rebuilt; simpl.
  - by intros [= <-].
  - destruct (rebuilt_edge e) as [r|] eqn:Hr; [|done].
    destruct (mapR rebuilt_edge edges) as [rs|]; [|done]. intros [= <-].
    simpl. rewrite filter_app, (IH rs) by done. f_equal.
    apply rebuilt_edge_not_null in Hr. clear -Hr.
    induction Hr as [|s r Hs _ IHr]; [done|]. by rewrite filter_cons_True, IHr.
Qed.

(** Records from which every builder that returns gives the null shape. *)
Lemma null_records_members l rs ss :
  Forall (λ r, ∀ s, entity_shape (record_entity r) = Ok s → s = TopoDS_Null) rs →
  mapR entity_shape (close_records l rs) = Ok ss →
  filter (λ s, IsNull s = false) ss = [].
Proof.
  intros Hrs. revert l ss. induction Hrs as [|r rs Hr _ IH]; intros l ss.
  - by intros [= <-].
  - cbn [close_records mapR]. rewrite entity_shape_set_layer.
    destruct (entity_shape (record_entity r)) as [s|] eqn:Hs; [|done].
    destruct (mapR _ _) as [ss'|] eqn:Hss; [|done]. intros [= <-].
    rewrite (Hr s eq_refl). rewrite filter_cons_False by done. by apply (IH _ _ Hss).
Qed.

Lemma face_corner_short e i corner :
  face_corner e i = Ok corner → (length corner ≤ 1)%nat.
Proof.
  unfold face_corner.
  destruct (groupCodes e !! (10 + i)) as [a|], (groupCodes e !! (20 + i)) as [b|],
    (groupCodes e !! (30 + i)) as [c|]; try (intros [= <-]; simpl; lia).
  destruct (stod a), (stod b), (stod c); try done. intros [= <-]. simpl. lia.
Qed.

Lemma face_corner_missing e i :
  groupCodes e !! (10 + i) = None → face_corner e i = Ok [].
Proof. unfold face_corner. by intros ->. Qed.

(** A 3DFACE entity that has an x for its first corner only has at most
    one complete corner, which makes no face. *)
Lemma create3DFaceFromDxf_one_corner e s :
  groupCodes e !! 11 = None → groupCodes e !! 12 = None → groupCodes e !! 13 = None →
  create3DFaceFromDxf e = Ok s → s = TopoDS_Null.
Proof.
  intros H11 H12 H13. unfold create3DFaceFromDxf. cbn [mapR].
  rewrite (face_corner_missing e 1), (face_corner_missing e 2),
    (face_corner_missing e 3) by done.
  destruct (face_corner e 0) as [corner|] eqn:Hc; [|done].
  apply face_corner_short in Hc. cbv beta iota delta [mbind result_bind].
  cbn [concat]. rewrite !app_nil_r.
  destruct corner as [|p [|q r]]; simpl in *; [by intros [= <-]|by intros [= <-]|lia].
Qed.

Lemma entity_shape_LWPOLYLINE e :
  type e = "LWPOLYLINE" → entity_shape e = createPolylineFromDxf e.
Proof. intros Ht. unfold entity_shape. by rewrite Ht. Qed.

Lemma entity_shape_3DFACE e :
  type e = "3DFACE" → entity_shape e = create3DFaceFromDxf e.
Proof. intros Ht. unfold entity_shape. by rewrite Ht. Qed.

Lemma wire_records_null shape :
  Forall (λ r, ∀ s, entity_shape (record_entity r) = Ok s → s = TopoDS_Null)
    (map read_record (wire_records shape)).
Proof.
  unfold wire_records.
  destruct (start_points (BRepTools_WireExplorer shape)) as [|p points]; [constructor|].
  constructor; [|constructor]. intros s.
  rewrite entity_shape_LWPOLYLINE by (by rewrite type_record_entity).
  apply createPolylineFromDxf_null.
Qed.

Lemma face_record_codes (k : Z) vertices :
  k ≠ 8 → k ≠ 10 → k ≠ 20 → k ≠ 30 →
  groupCodes (record_entity (read_record
    ("3DFACE", ("  8", "0") :: flat_map (point_pairs " 10" " 20" " 30") vertices))) !! k
  = None.
Proof.
  intros H8 H10 H20 H30. rewrite groupCodes_record_entity.
  cbn [read_record snd map]. rewrite fold_insert_other; [done|].
  constructor; [done|]. by apply point_pairs_codes.
Qed.

Lemma face_records_null shape :
  Forall (λ r, ∀ s, entity_shape (record_entity r) = Ok s → s = TopoDS_Null)
    (map read_record (face_records shape)).
Proof.
  unfold face_records.
  destruct (3 <=? length _)%nat; [|constructor].
  constructor; [|constructor]. intros s.
  rewrite entity_shape_3DFACE by (by rewrite type_record_entity).
  apply create3DFaceFromDxf_one_corner; by apply face_record_codes.
Qed.

Lemma marker_records_null :
  Forall (λ r, ∀ s, entity_shape (record_entity r) = Ok s → s = TopoDS_Null)
    (map read_record header_records)
  ∧ Forall (λ r, ∀ s, entity_shape (record_entity r) = Ok s → s = TopoDS_Null)
      (map read_record trailer_records).
Proof.
  split; repeat constructor; intros s;
    (rewrite entity_shape_no_builder by (by rewrite type_record_entity));
    by intros [= <-].
Qed.

Lemma shape_records_members l shape ss :
  mapR entity_shape (close_records l (map read_record (shape_record_list shape))) = Ok ss →
  ∃ rebuilt, mapR rebuilt_edge (TopExp_Explorer_EDGE shape) = Ok rebuilt
    ∧ filter (λ s, IsNull s = false) ss = concat rebuilt.
Proof.
  unfold shape_record_list. rewrite !map_app, !close_records_app. intros Hss.
  apply mapR_app_Ok in Hss as (s1 & s23 & H1 & H23 & ->).
  apply mapR_app_Ok in H23 as (s2 & s3 & H2 & H3 & ->).
  rewrite edges_records_rebuilt in H1.
  destruct (mapR rebuilt_edge (TopExp_Explorer_EDGE shape)) as [rebuilt|] eqn:Hr; [|done].
  injection H1 as <-. exists rebuilt. split; [done|].
  rewrite !filter_app, (rebuilt_edges_not_null _ _ Hr).
  apply null_records_members in H2;
    [|destruct (is_type shape TopAbs_WIRE); [apply wire_records_null|constructor]].
  apply null_records_members in H3;
    [|destruct (is_type shape TopAbs_FACE); [apply face_records_null|constructor]].
  by rewrite H2, H3, !app_nil_r.
Qed.

Lemma shapes_records_members l shapes ss :
  mapR entity_shape
    (close_records l (map read_record (flat_map shape_record_list shapes))) = Ok ss →
  ∃ rebuilt, mapR rebuilt_edge (flat_map TopExp_Explorer_EDGE shapes) = Ok rebuilt
    ∧ filter (λ s, IsNull s = false) ss = concat rebuilt.
Proof.
  revert l ss. induction shapes as [|sh shapes IH]; intros l ss.
  - intros [= <-]. by exists [].
  - cbn [flat_map]. rewrite map_app, close_records_app. intros Hss.
    apply mapR_app_Ok in Hss as (s1 & s2 & H1 & H2 & ->).
    apply shape_records_members in H1 as (r1 & Hr1 & Hf1).
    apply IH in H2 as (r2 & Hr2 & Hf2).
    exists (r1 ++ r2)%list. rewrite mapR_app, Hr1, Hr2. split; [done|].
    by rewrite filter_app, concat_app, Hf1, Hf2.
Qed.

Lemma length_close_records l rs : length (close_records l rs) = length rs.
Proof. by rewrite <- (length_map type), types_close_records, length_map. Qed.

(** X10: a set of shapes written by [convertToDxf] and read by
    [convertFromDxf] comes back as one compound of loose edges: the
    members are, in the order in which the writer met the edges, what the
    builders make of the LINE, CIRCLE and ARC records (edges in the plane
    z = 0, with the numbers as [std::stod] reads the written text); the
    LWPOLYLINE record of a wire and the 3DFACE record of a face add no
    member, so no wire and no face is read back. The name of the node
    counts every record of the file. *)
Theorem export_import_keeps_edges_only shapes text fs node :
  (∀ d, no_newline (put_double d) = true) →
  writable fs = true →
  convertToDxf shapes = Some text →
  (convertFromDxf text fs).1 = Ok (Some node) →
  ∃ rebuilt,
    mapR rebuilt_edge (flat_map TopExp_Explorer_EDGE shapes) = Ok rebuilt
    ∧ node_shape node = Some (MakeCompound (concat rebuilt))
    ∧ name node = "DXF Import (" ++ Text.to_string (length (dxf_records shapes))
                    ++ " entities)".
Proof.
  intros Hclean Hw Htext Hnode.
  pose proof (convertToDxf_Some_types _ _ Htext) as Hshapes.
  destruct (reparse_records Hclean shapes Hshapes) as (text' & Htext' & Hparse).
  rewrite Htext in Htext'. injection Htext' as <-.
  remember (close_records "0" (map read_record (dxf_records shapes))) as entities eqn:He.
  assert (length entities = length (dxf_records shapes)) as Hlen
    by (by rewrite He, length_close_records, length_map).
  assert (Hres : (convertFromDxf text fs).1 =
    (members ← compound_members entities;
     Ok (Some {| shape := Some (MakeCompound members); color := None; children := [];
                 name := "DXF Import (" ++ Text.to_string (length entities)
                           ++ " entities)" |}))).
  { unfold convertFromDxf, writeBufferToFile, ofstream_write, std_remove.
    rewrite Hw. simpl. rewrite lookup_insert_eq. simpl. by rewrite Hparse. }
  rewrite Hres in Hnode. unfold compound_members in Hnode.
  destruct (mapR entity_shape entities) as [ss|] eqn:Hss; [|done].
  cbv beta iota delta [mbind result_bind] in Hnode. injection Hnode as <-.
  rewrite Hlen. subst entities.
  unfold dxf_records in Hss. rewrite !map_app, !close_records_app in Hss.
  apply mapR_app_Ok in Hss as (s1 & s23 & H1 & H23 & ->).
  apply mapR_app_Ok in H23 as (s2 & s3 & H2 & H3 & ->).
  apply null_records_members in H1; [|apply marker_records_null].
  apply null_records_members in H3; [|apply marker_records_null].
  apply shapes_records_members in H2 as (rebuilt & Hr & Hf).
  exists rebuilt. split; [done|]. split; [|done].
  by rewrite !filter_app, H1, H3, Hf, app_nil_r.
Qed.

(** X11: the text the writer emits for a face repeats codes 10, 20 and 30
    for every vertex; read back it is one 3DFACE entity that has no code
    11, 12 or 13, so at most its first corner is complete and
    [create3DFaceFromDxf] builds no face from it. *)
Theorem written_face_not_read_back shape :
  (∀ d, no_newline (put_double d) = true) →
  (3 ≤ length (start_points (TopExp_Explorer_EDGE shape)))%nat →
  ∃ e,
    parseDxfEntities (face_record shape) = Ok [e]
    ∧ type e = "3DFACE"
    ∧ groupCodes e !! 11 = None ∧ groupCodes e !! 12 = None ∧ groupCodes e !! 13 = None
    ∧ ∀ s, create3DFaceFromDxf e = Ok s → s = TopoDS_Null.
Proof.
  intros Hclean Hlen. rewrite face_record_records.
  rewrite parseDxfEntities_records by (by apply good_face_records).
  unfold face_records. apply Nat.leb_le in Hlen. rewrite Hlen.
  cbn [map close_records]. eexists. split; [done|].
  split; [apply type_record_entity|].
  assert (∀ k, k ≠ 8 → k ≠ 10 → k ≠ 20 → k ≠ 30 →
    groupCodes (set_layer (record_entity (read_record
      ("3DFACE", ("  8", "0") :: flat_map (point_pairs " 10" " 20" " 30")
         (take 4 (start_points (TopExp_Explorer_EDGE shape))))))
      (record_layer (read_record
      ("3DFACE", ("  8", "0") :: flat_map (point_pairs " 10" " 20" " 30")
         (take 4 (start_points (TopExp_Explorer_EDGE shape))))).2 "0")) !! k = None) as Hk.
  { intros k. apply face_record_codes. }
  split; [by apply Hk|]. split; [by apply Hk|]. split; [by apply Hk|].
  intros s. apply create3DFaceFromDxf_one_corner; by apply Hk.
Qed.

End RoundTrip.

(** ** The text of the writer is always read back *)

Section WrittenText.
Context `{!Externals}.

Lemma record_layer_keeps body :
  Forall (λ p : Z * string, p.1 = 8 → p.2 = "0") body → record_layer body "0" = "0".
Proof.
  unfold record_layer. induction 1 as [|[k v] body Hk _ IH]; [done|].
  cbn [fold_left]. simpl in *. destruct (Z.eqb_spec k 8) as [->|]; [|done].
  by rewrite Hk.
Qed.

Lemma close_records_layer_0 rs :
  Forall (λ r : string * list (Z * string),
            Forall (λ p : Z * string, p.1 = 8 → p.2 = "0") r.2) rs →
  Forall (λ e, layer e = "0") (close_records "0" rs).
Proof.
  induction 1 as [|r rs Hr _ IH]; [constructor|].
  cbn [close_records]. rewrite record_layer_keeps by done. by constructor.
Qed.

Lemma point_pairs_layer points :
  Forall (λ p : Z * string, p.1 = 8 → p.2 = "0")
    (map (λ p, (code_of p.1, Text.trim p.2))
         (flat_map (point_pairs " 10" " 20" " 30") points)).
Proof.
  eapply Forall_impl; [apply (point_pairs_codes 8); done|]. intros p Hp ?. done.
Qed.

(** A record whose keyword is read back as written and whose code 8, if
    any, names layer 0. *)
Lemma written_edge_records edge :
  Forall (λ r, Text.trim r.1 = r.1
               ∧ Forall (λ p : Z * string, p.1 = 8 → p.2 = "0") (read_record r).2)
    (edge_records edge).
Proof.
  unfold edge_records.
  destruct (BRep_Tool_Curve edge) as [[[curve first] last]|]; [|constructor].
  destruct curve as [l d|pos r|[l d|pos r|b u1' u2'|t] u1 u2|t];
    try apply Forall_nil_2;
    (apply Forall_cons; split; [|apply Forall_nil_2]);
    (split; [done|]); cbn [read_record snd fst map app point_pairs];
    repeat (apply Forall_cons; split;
            [cbn [fst snd]; intros Hk; first [reflexivity|by vm_compute in Hk]|]);
    apply Forall_nil_2.
Qed.

Lemma written_shape_records shape :
  Forall (λ r, Text.trim r.1 = r.1
               ∧ Forall (λ p : Z * string, p.1 = 8 → p.2 = "0") (read_record r).2)
    (shape_record_list shape).
Proof.
  unfold shape_record_list. apply Forall_app. split; [|apply Forall_app; split].
  - apply Forall_flat_map, Forall_forall. intros e _. apply written_edge_records.
  - destruct (is_type shape TopAbs_WIRE); [|constructor]. unfold wire_records.
    destruct (start_points (BRepTools_WireExplorer shape)) as [|p points]; [constructor|].
    constructor; [|constructor]. split; [done|].
    cbn [read_record snd]. rewrite map_app. apply Forall_app. split.
    + repeat (apply Forall_cons; split;
              [cbn [fst snd]; intros Hk; first [reflexivity|by vm_compute in Hk]|]).
      apply Forall_nil_2.
    + apply point_pairs_layer.
  - destruct (is_type shape TopAbs_FACE); [|constructor]. unfold face_records.
    destruct (3 <=? length _)%nat; [|constructor].
    constructor; [|constructor]. split; [done|].
    cbn [read_record snd map]. apply Forall_cons. split; [done|]. apply point_pairs_layer.
Qed.

Lemma written_dxf_records shapes :
  Forall (λ r, Text.trim r.1 = r.1
               ∧ Forall (λ p : Z * string, p.1 = 8 → p.2 = "0") (read_record r).2)
    (dxf_records shapes).
Proof.
  unfold dxf_records. apply Forall_app. split; [|apply Forall_app; split].
  - unfold header_records.
    repeat (apply Forall_cons; split; [split; [done|]; by repeat constructor|]).
    apply Forall_nil_2.
  - apply Forall_flat_map, Forall_forall. intros sh _. apply written_shape_records.
  - by repeat constructor.
Qed.

(** X12: whatever the shapes, the text [convertToDxf] returns is accepted
    by [parseDxfEntities]: no group code raises, every record written
    comes back as one entity of the written type, in order, between the
    eight records of the header and tables and the two of the trailer, and
    every entity is on layer 0. *)
Theorem written_text_parses shapes text :
  (∀ d, no_newline (put_double d) = true) →
  convertToDxf shapes = Some text →
  ∃ entities,
    parseDxfEntities text = Ok entities
    ∧ map type entities
      = (["SECTION"; "ENDSEC"; "SECTION"; "TABLE"; "LAYER"; "ENDTAB"; "ENDSEC"; "SECTION"]
         ++ map fst (flat_map shape_record_list shapes)
         ++ ["ENDSEC"; "EOF"])%list
    ∧ Forall (λ e, layer e = "0") entities.
Proof.
  intros Hclean Htext.
  pose proof (convertToDxf_Some_types _ _ Htext) as Hshapes.
  destruct (reparse_records Hclean shapes Hshapes) as (text' & Htext' & Hparse).
  rewrite Htext in Htext'. injection Htext' as <-.
  eexists. split; [exact Hparse|].
  pose proof (written_dxf_records shapes) as Hrs. split.
  - rewrite types_close_records.
    assert (map fst (map read_record (dxf_records shapes)) = map fst (dxf_records shapes))
      as ->.
    { rewrite map_map. apply map_ext_Forall. eapply Forall_impl; [exact Hrs|].
      by intros r [Hr _]. }
    unfold dxf_records. by rewrite !map_app.
  - apply close_records_layer_0. apply Forall_fmap.
    eapply Forall_impl; [exact Hrs|]. by intros r [_ Hr].
Qed.

End WrittenText.

(** ** Scene tree and attribute lookup *)

Section TreeProperties.
Context `{!Externals}.

(** *** Colour lookup *)

Lemma first_color_head colorTool label types color0 :
  first_color colorTool label types color0 =
  match head (omap (GetColor colorTool label) types) with
  | Some qColor => (true, ColorToHex qColor)
  | None => (false, color0)
  end.
Proof.
  induction types as [|t types IH]; [done|]. simpl.
  destruct (GetColor colorTool label t); [done|exact IH].
Qed.

(** X18: [getLabelColor] returns the colour of the first label, along the
    chain of references that starts at the label, that carries a colour
    itself, taking on that label the surface colour before the curve colour
    and the curve colour before the generic one; when no label of the chain
    carries a colour it returns false and leaves the caller's string as it
    was. *)
Theorem getLabelColor_first_colored n label shapeTool colorTool color0 :
  chain_ends shapeTool n label = true →
  getLabelColor (S n) label shapeTool colorTool color0 =
  Some match head (omap (own_color colorTool) (reference_chain shapeTool n label)) with
       | Some qColor => (true, ColorToHex qColor)
       | None => (false, color0)
       end.
Proof.
  revert label. induction n as [|n IH]; intros label Hc;
    rewrite getLabelColor_unfold; unfold getLabelColorNoRef;
    rewrite first_color_head; fold (own_color colorTool label);
    simpl in Hc; cbn [reference_chain];
    change (omap (own_color colorTool) (label :: ?l)) with
      (match own_color colorTool label with
       | Some q => q :: omap (own_color colorTool) l
       | None => omap (own_color colorTool) l
       end);
    destruct (own_color colorTool label) as [q|]; try done;
    destruct (GetReferredShape shapeTool label) as [r|]; try done.
  by apply IH.
Qed.

(** *** Shapes of the tree *)

Lemma initShapeNode_fields fuel s shapeTool colorTool node :
  initShapeNode fuel s shapeTool colorTool = Some node →
  node_shape node = Some s ∧ children node = [] ∧ is_Some (color node).
Proof.
  unfold initShapeNode. intros Hn.
  destruct (getShapeColor fuel s shapeTool colorTool "") as [[? c]|]; [|done].
  simpl in Hn. destruct (getShapeName fuel shapeTool s); [|done].
  simpl in Hn. injection Hn as <-. simpl. eauto.
Qed.

Lemma tree_shapes_leaf node s :
  node_shape node = Some s → children node = [] → tree_shapes node = [s].
Proof.
  intros Hs Hc. unfold tree_shapes. rewrite nodes_of_unfold, Hc. simpl. by rewrite Hs.
Qed.

Lemma tree_shapes_push node nodes :
  node_shape node = None → children node = [] →
  tree_shapes (push_children node nodes) = flat_map tree_shapes nodes.
Proof.
  intros Hs Hc. unfold tree_shapes. rewrite nodes_of_unfold.
  cbn [push_children children]. rewrite Hc. cbn [app].
  change (omap node_shape (?n :: ?l)) with
    (match node_shape n with Some s => s :: omap node_shape l | None => omap node_shape l end).
  cbn [push_children node_shape]. rewrite Hs.
  induction nodes as [|n nodes IH]; [done|]. cbn [flat_map]. by rewrite omap_app, IH.
Qed.

Lemma parse_components_shapes parse subShapes nodes :
  parse_components parse subShapes = Some nodes →
  Forall (λ s, ∀ n, parse s = Some n → tree_shapes n = leaves s) subShapes →
  flat_map tree_shapes nodes = flat_map leaves subShapes.
Proof.
  revert nodes. induction subShapes as [|s ss IH]; intros nodes Hp Hall.
  - by injection Hp as <-.
  - simpl in Hp. destruct (parse s) as [n|] eqn:Hs; [|done]. simpl in Hp.
    destruct (parse_components parse ss) as [ns|] eqn:Hss; [|done]. simpl in Hp.
    injection Hp as <-. inversion Hall as [|? ? Hhd Htl]; subst.
    simpl. by rewrite (Hhd n Hs), (IH ns).
Qed.

Lemma parseShape_shapes fuel shapeTool colorTool s :
  ∀ node, parseShape fuel s shapeTool colorTool = Some node →
    tree_shapes node = leaves s.
Proof.
  assert (Hleaf : ∀ sh node,
    initShapeNode fuel sh shapeTool colorTool = Some node → tree_shapes node = [sh]).
  { intros sh node Hn. apply initShapeNode_fields in Hn as (Hs & Hc & _).
    by apply tree_shapes_leaf. }
  assert (Hgroup : ∀ sh components node, Forall (λ s, ∀ node,
      parseShape fuel s shapeTool colorTool = Some node → tree_shapes node = leaves s)
      components →
    (node0 ← initGroupNode fuel sh shapeTool;
     nodes ← parse_components (λ s, parseShape fuel s shapeTool colorTool) components;
     Some (push_children node0 nodes)) = Some node →
    tree_shapes node = flat_map leaves components).
  { intros sh components node IH Hn.
    destruct (initGroupNode fuel sh shapeTool) as [node0|] eqn:Hg; [|done].
    simpl in Hn. apply initGroupNode_empty in Hg as [Hs Hc].
    destruct (parse_components _ components) as [nodes|] eqn:Hp; [|done].
    simpl in Hn. injection Hn as <-. rewrite tree_shapes_push by done.
    by apply (parse_components_shapes _ _ _ Hp). }
  induction s as [|ty id subs IH|p1 p2|c u1 u2|edges IH|pts closed|wire IH|members IH]
    using TopoDS_Shape_nested_ind; intros node Hn; simpl in Hn; try done;
    try (by apply Hleaf in Hn).
  - destruct (is_aggregate ty) eqn:Hty.
    + apply (Hgroup _ _ _ IH) in Hn. simpl. by rewrite Hty.
    + apply Hleaf in Hn. simpl. by rewrite Hty.
  - by apply (Hgroup _ _ _ IH) in Hn.
Qed.

Lemma parse_children_shapes parse shapeTool labels nodes :
  parse_children parse shapeTool labels = Some nodes →
  Forall (λ l, ∀ n, parse l = Some n → tree_shapes n = label_leaves shapeTool l) labels →
  flat_map tree_shapes nodes
  = flat_map (λ child, if isFreeShape child shapeTool
                       then label_leaves shapeTool child else []) labels.
Proof.
  revert nodes. induction labels as [|l ls IH]; intros nodes Hp Hall.
  - by injection Hp as <-.
  - inversion Hall as [|? ? Hhd Htl]; subst. simpl in Hp. simpl.
    destruct (isFreeShape l shapeTool) eqn:Hfree.
    + destruct (parse l) as [n|] eqn:Hl; [|done]. simpl in Hp.
      destruct (parse_children parse shapeTool ls) as [ns|] eqn:Hls; [|done].
      simpl in Hp. injection Hp as <-. simpl. by rewrite (Hhd n eq_refl), (IH ns).
    + by apply IH.
Qed.

Lemma label_leaves_unfold shapeTool label :
  label_leaves shapeTool label =
  if isMeshNode label shapeTool
  then leaves (default TopoDS_Null (GetShape shapeTool label))
  else flat_map (λ child, if isFreeShape child shapeTool
                          then label_leaves shapeTool child else [])
         (ChildIterator label).
Proof. by destruct label. Qed.

Lemma parseLabelToNode_shapes fuel shapeTool colorTool :
  ∀ label node, parseLabelToNode fuel label shapeTool colorTool = Some node →
    tree_shapes node = label_leaves shapeTool label.
Proof.
  induction label as [t cs IH] using TDF_Label_nested_ind. intros node Hn.
  rewrite label_leaves_unfold.
  simpl in Hn. destruct (isMeshNode (Label t cs) shapeTool) eqn:Hmesh.
  - by apply parseShape_shapes in Hn.
  - destruct (initLabelNode fuel (Label t cs) shapeTool colorTool) as [node0|] eqn:Hi;
      [|done].
    simpl in Hn. apply initLabelNode_empty in Hi as [Hs Hc].
    destruct (parse_children _ shapeTool cs) as [nodes|] eqn:Hp; [|done].
    simpl in Hn. injection Hn as <-. rewrite tree_shapes_push by done.
    by apply (parse_children_shapes _ _ _ _ Hp).
Qed.

(** X15: the tree [parseShape] builds for a shape carries, on its nodes
    taken root first, exactly the shapes met while flattening the shape:
    every component of a compound or composite solid, at any depth, that is
    not one itself appears once and in order, and the nodes made for the
    compounds carry no shape. *)
Theorem parseShape_keeps_leaves n shapeTool colorTool s :
  (∀ l, chain_ends shapeTool n l = true) →
  non_null s = true →
  ∃ node,
    parseShape (S n) s shapeTool colorTool = Some node
    ∧ tree_shapes node = leaves s.
Proof.
  intros Hchains Hs.
  destruct (parseShape_returns n shapeTool colorTool Hchains s Hs) as [node Hn].
  exists node. split; [done|]. by apply parseShape_shapes in Hn.
Qed.

(** X16: the shapes carried by the tree extracted from a document are, in
    order, the shapes below the child labels of the root that are free
    shapes: a mesh label gives the flattened components of its shape, any
    other label what its own free-shape children give; a child label that
    is not a free shape gives nothing, and the label nodes carry no
    shape. *)
Theorem scene_tree_keeps_leaves n shapeTool colorTool :
  (∀ l, chain_ends shapeTool n l = true) →
  (∀ l s, GetShape shapeTool l = Some s → non_null s = true) →
  ∃ root,
    parseRootLabelToNode (S n) shapeTool colorTool = Some root
    ∧ tree_shapes root
      = flat_map (λ child, if isFreeShape child shapeTool
                           then label_leaves shapeTool child else [])
          (ChildIterator (RootLabel shapeTool)).
Proof.
  intros Hchains Hshapes.
  destruct (parseRootLabelToNode_returns n shapeTool colorTool Hchains Hshapes)
    as [root Hroot].
  exists root. split; [done|]. revert Hroot.
  unfold parseRootLabelToNode. intros Hn.
  destruct (initLabelNode (S n) (RootLabel shapeTool) shapeTool colorTool)
    as [node0|] eqn:Hi; [|done].
  simpl in Hn. apply initLabelNode_empty in Hi as [Hs Hc].
  destruct (parse_children _ shapeTool _) as [nodes|] eqn:Hp; [|done].
  simpl in Hn. injection Hn as <-. rewrite tree_shapes_push by done.
  apply (parse_children_shapes _ _ _ _ Hp).
  apply Forall_forall. intros l _ node Hl. by apply parseLabelToNode_shapes in Hl.
Qed.

Lemma parseShape_colors fuel shapeTool colorTool s :
  ∀ node, parseShape fuel s shapeTool colorTool = Some node →
    Forall shape_has_color (nodes_of node).
Proof.
  assert (Hleaf : ∀ sh node,
    initShapeNode fuel sh shapeTool colorTool = Some node →
    Forall shape_has_color (nodes_of node)).
  { intros sh node Hn. apply initShapeNode_fields in Hn as (Hs & Hc & Hcol).
    rewrite nodes_of_unfold, Hc. simpl. constructor; [by intros _|constructor]. }
  assert (Hgroup : ∀ sh components node, Forall (λ s, ∀ node,
      parseShape fuel s shapeTool colorTool = Some node →
      Forall shape_has_color (nodes_of node)) components →
    (node0 ← initGroupNode fuel sh shapeTool;
     nodes ← parse_components (λ s, parseShape fuel s shapeTool colorTool) components;
     Some (push_children node0 nodes)) = Some node →
    Forall shape_has_color (nodes_of node)).
  { intros sh components node IH Hn.
    destruct (initGroupNode fuel sh shapeTool) as [node0|] eqn:Hg; [|done].
    simpl in Hn. apply initGroupNode_empty in Hg as [Hs Hc].
    destruct (parse_components _ components) as [nodes|] eqn:Hp; [|done].
    simpl in Hn. injection Hn as <-.
    apply nodes_of_push_children; [done|done| |].
    - intros [x Hx]. simpl in Hx. congruence.
    - by apply (parse_components_nodes _ _ _ _ Hp). }
  induction s as [|ty id subs IH|p1 p2|c u1 u2|edges IH|pts closed|wire IH|members IH]
    using TopoDS_Shape_nested_ind; intros node Hn; simpl in Hn; try done;
    try (by apply Hleaf in Hn).
  - destruct (is_aggregate ty) eqn:Hty.
    + by apply (Hgroup _ _ _ IH) in Hn.
    + by apply Hleaf in Hn.
  - by apply (Hgroup _ _ _ IH) in Hn.
Qed.

Lemma parseLabelToNode_colors fuel shapeTool colorTool :
  ∀ label node, parseLabelToNode fuel label shapeTool colorTool = Some node →
    Forall shape_has_color (nodes_of node).
Proof.
  induction label as [t cs IH] using TDF_Label_nested_ind. intros node Hn.
  simpl in Hn. destruct (isMeshNode (Label t cs) shapeTool) eqn:Hmesh.
  - by apply parseShape_colors in Hn.
  - destruct (initLabelNode fuel (Label t cs) shapeTool colorTool) as [node0|] eqn:Hi;
      [|done].
    simpl in Hn. apply initLabelNode_empty in Hi as [Hs Hc].
    destruct (parse_children _ shapeTool cs) as [nodes|] eqn:Hp; [|done].
    simpl in Hn. injection Hn as <-.
    apply nodes_of_push_children; [done|done| |].
    + intros [x Hx]. simpl in Hx. congruence.
    + by apply (parse_children_nodes _ _ _ _ _ Hp).
Qed.

(** X17: in the tree extracted from a document every node that carries a
    shape also carries a colour text: the node of a shape receives the
    string its colour lookup filled, which is empty when no label or no
    colour was found, and never the absent value. *)
Theorem scene_tree_shapes_have_color n shapeTool colorTool :
  (∀ l, chain_ends shapeTool n l = true) →
  (∀ l s, GetShape shapeTool l = Some s → non_null s = true) →
  ∃ root,
    parseRootLabelToNode (S n) shapeTool colorTool = Some root
    ∧ Forall shape_has_color (nodes_of root).
Proof.
  intros Hchains Hshapes.
  destruct (parseRootLabelToNode_returns n shapeTool colorTool Hchains Hshapes)
    as [root Hroot].
  exists root. split; [done|]. revert Hroot.
  unfold parseRootLabelToNode. intros Hn.
  destruct (initLabelNode (S n) (RootLabel shapeTool) shapeTool colorTool)
    as [node0|] eqn:Hi; [|done].
  simpl in Hn. apply initLabelNode_empty in Hi as [Hs Hc].
  destruct (parse_children _ shapeTool _) as [nodes|] eqn:Hp; [|done].
  simpl in Hn. injection Hn as <-.
  apply nodes_of_push_children; [done|done| |].
  - intros [x Hx]. simpl in Hx. congruence.
  - apply (parse_children_nodes _ _ _ _ _ Hp).
    apply Forall_forall. intros l _ node Hl. by apply parseLabelToNode_colors in Hl.
Qed.

End TreeProperties.

(** ** On concrete inputs *)

Section FurtherRuns.
Import Samples Cases.
Local Existing Instance Reference.externals.

Lemma parseDxfEntities_ignores_padding_witness :
  parseDxfEntities (text_lines (map (λ t, t.1.1 ++ t.1.2 ++ t.2) padded_lines))
  = parseDxfEntities (text_lines ["0"; "LINE"; "10"; "1.5"]).
Proof.
  apply (parseDxfEntities_ignores_padding padded_lines).
  repeat constructor.
Defined.

Lemma parseDxfEntities_raises_only_out_of_range_witness :
  parseDxfEntities big_code_text = Throw out_of_range
  ∧ out_of_range = out_of_range.
Proof.
  assert (parseDxfEntities big_code_text = Throw out_of_range) as Hp
    by (vm_compute; reflexivity).
  split; [exact Hp|].
  exact (parseDxfEntities_raises_only_out_of_range big_code_text out_of_range Hp).
Defined.

Lemma parseDxfEntities_stored_fields_witness :
  map type (entities_of layered_text) = ["LINE"; "CIRCLE"; "ARC"]
  ∧ map entity_color (entities_of layered_text) = ["3"; ""; ""]
  ∧ Forall fields_agree (entities_of layered_text).
Proof.
  split; [vm_compute; reflexivity|]. split; [vm_compute; reflexivity|].
  apply (parseDxfEntities_stored_fields layered_text). vm_compute. reflexivity.
Defined.

Lemma parseDxfEntities_layer_inherited_witness :
  map layer (entities_of layered_text) = ["walls"; "walls"; "roof"]
  ∧ layers_chain "0" (entities_of layered_text).
Proof.
  split; [vm_compute; reflexivity|].
  apply (parseDxfEntities_layer_inherited layered_text). vm_compute. reflexivity.
Defined.

Lemma records_read_back_witness :
  Forall good_record twice_records
  ∧ ∃ entities,
      parseDxfEntities (records_text twice_records) = Ok entities
      ∧ Forall2 (λ r e,
          type e = Text.trim r.1
          ∧ ∀ k, groupCodes e !! k =
                 snd <$> last (filter (λ p : Z * string, p.1 = k)
                                 (map (λ p, (code_of p.1, Text.trim p.2)) r.2)))
          twice_records entities.
Proof.
  assert (Forall good_record twice_records) as Hr by (repeat constructor).
  split; [exact Hr|]. exact (records_read_back twice_records Hr).
Defined.

Lemma convertFromDxf_member_kinds_witness :
  ∃ node members,
    (convertFromDxf line_text empty_fs).1 = Ok (Some node)
    ∧ node_shape node = Some (MakeCompound members)
    ∧ Forall imported_shape members.
Proof.
  eexists.
  assert (∀ node, (convertFromDxf line_text empty_fs).1 = Ok (Some node) →
          ∃ members, (convertFromDxf line_text empty_fs).1 = Ok (Some node)
            ∧ node_shape node = Some (MakeCompound members)
            ∧ Forall imported_shape members) as Hk.
  { intros node Hn.
    destruct (convertFromDxf_member_kinds line_text empty_fs node Hn)
      as (members & H1 & H2 & _).
    exists members. auto. }
  apply Hk. vm_compute. reflexivity.
Defined.

Lemma sample_chains_end : ∀ l, chain_ends (shapeTool "instance") 1 l = true.
Proof. intros [t cs]. destruct t as [|[|[|t]]]; reflexivity. Defined.

Lemma sample_shapes_not_null :
  ∀ l s, GetShape (shapeTool "instance") l = Some s → non_null s = true.
Proof.
  intros [t cs] s. simpl. destruct t as [|[|[|t]]]; intros [= <-]; reflexivity.
Defined.

Lemma parseShape_keeps_leaves_witness :
  non_null assembly = true
  ∧ ∃ node,
      parseShape 2 assembly (shapeTool "instance") colorTool = Some node
      ∧ tree_shapes node = leaves assembly
  ∧ leaves assembly = [part; TShape TopAbs_FACE 4 []; part].
Proof.
  split; [reflexivity|].
  destruct (parseShape_keeps_leaves 1 (shapeTool "instance") colorTool assembly
              sample_chains_end eq_refl) as (node & Hn & Hl).
  exists node. split; [exact Hn|]. split; [exact Hl|reflexivity].
Defined.

Lemma scene_tree_keeps_leaves_witness :
  ∃ root,
    parseRootLabelToNode 2 (shapeTool "instance") colorTool = Some root
    ∧ tree_shapes root = [part].
Proof.
  destruct (scene_tree_keeps_leaves 1 (shapeTool "instance") colorTool
              sample_chains_end sample_shapes_not_null) as (root & Hr & Hl).
  exists root. split; [exact Hr|]. rewrite Hl. reflexivity.
Defined.

Lemma scene_tree_shapes_have_color_witness :
  ∃ root,
    parseRootLabelToNode 2 (shapeTool "instance") colorTool = Some root
    ∧ Forall shape_has_color (nodes_of root).
Proof.
  exact (scene_tree_shapes_have_color 1 (shapeTool "instance") colorTool
           sample_chains_end sample_shapes_not_null).
Defined.

Lemma getLabelColor_first_colored_witness :
  chain_ends (shapeTool "instance") 1 instance = true
  ∧ getLabelColor 2 instance (shapeTool "instance") painted "" = Some (true, "#ff0000").
Proof.
  split; [reflexivity|].
  exact (getLabelColor_first_colored 1 instance (shapeTool "instance") painted ""
           eq_refl).
Defined.

Lemma export_import_keeps_edges_only_witness :
  convertToDxf [open_wire; triangle] = Some exported
  ∧ (convertFromDxf exported empty_fs).1 = Ok (Some imported)
  ∧ ∃ rebuilt,
      mapR rebuilt_edge (flat_map TopExp_Explorer_EDGE [open_wire; triangle]) = Ok rebuilt
      ∧ node_shape imported = Some (MakeCompound (concat rebuilt))
      ∧ name imported = "DXF Import (" ++ Text.to_string
                          (length (dxf_records [open_wire; triangle])) ++ " entities)".
Proof.
  assert (convertToDxf [open_wire; triangle] = Some exported) as H1
    by (vm_compute; reflexivity).
  assert ((convertFromDxf exported empty_fs).1 = Ok (Some imported)) as H2
    by (vm_compute; reflexivity).
  split; [exact H1|]. split; [exact H2|].
  exact (@export_import_keeps_edges_only Reference.externals [open_wire; triangle]
           exported empty_fs imported reference_put_double_clean eq_refl H1 H2).
Defined.

Lemma written_face_not_read_back_witness :
  (3 ≤ length (start_points (TopExp_Explorer_EDGE triangle)))%nat
  ∧ ∃ e,
      parseDxfEntities (face_record triangle) = Ok [e]
      ∧ type e = "3DFACE"
      ∧ groupCodes e !! 11 = None ∧ groupCodes e !! 12 = None ∧ groupCodes e !! 13 = None
      ∧ ∀ s, create3DFaceFromDxf e = Ok s → s = TopoDS_Null.
Proof.
  assert (3 ≤ length (start_points (TopExp_Explorer_EDGE triangle)))%nat as Hlen
    by (vm_compute; lia).
  split; [exact Hlen|].
  exact (@written_face_not_read_back Reference.externals triangle
           reference_put_double_clean Hlen).
Defined.

Lemma written_text_parses_witness :
  convertToDxf [open_wire; triangle] = Some exported
  ∧ ∃ entities,
      parseDxfEntities exported = Ok entities
      ∧ map type entities
        = (["SECTION"; "ENDSEC"; "SECTION"; "TABLE"; "LAYER"; "ENDTAB"; "ENDSEC"; "SECTION"]
           ++ ["LINE"; "LINE"; "LWPOLYLINE"; "LINE"; "LINE"; "LINE"; "3DFACE"]
           ++ ["ENDSEC"; "EOF"])%list
      ∧ Forall (λ e, layer e = "0") entities.
Proof.
  assert (convertToDxf [open_wire; triangle] = Some exported) as H1
    by (vm_compute; reflexivity).
  split; [exact H1|].
  exact (@written_text_parses Reference.externals [open_wire; triangle] exported
           reference_put_double_clean H1).
Defined.

End FurtherRuns.
